(** * Career assistant chatbot (chatbot_api.py): a shallow embedding

    The development follows the layout of the Python module: the retrieval
    engine ([RAGRetriever]), the persistence layer ([ConversationStore]), the
    orchestrator ([AdityaChatbot]) and the HTTP route.  Python values that
    travel as JSON are [pyval]s, exceptions are an explicit [outcome], and the
    remote services (the hosted store, the completion provider) are explicit
    state and oracles. *)

From Stdlib Require Import String Ascii List ZArith Lia Bool Arith Sorted.
From Stdlib Require Import DecimalString.
Import ListNotations.
Open Scope list_scope.
Open Scope string_scope.

Set Implicit Arguments.
Set Warnings "-register-all".

(** ** Python text

    A Python [str] is a sequence of code points.  Texts are modelled over the
    code points U+0000..U+00FF, one [ascii] each; [len] is [String.length]. *)

Definition LF : ascii := ascii_of_nat 10.

(** [str.isspace] on one code point of that range: TAB..CR, FS..US, SPACE,
    NEL (U+0085) and NBSP (U+00A0). *)
Definition isspace (c : ascii) : bool :=
  let n := nat_of_ascii c in
  (((9 <=? n) && (n <=? 13)) || ((28 <=? n) && (n <=? 32))
   || (n =? 133) || (n =? 160))%nat.

Fixpoint lstrip (s : string) : string :=
  match s with
  | EmptyString => EmptyString
  | String c s' => if isspace c then lstrip s' else s
  end.

Fixpoint rstrip (s : string) : string :=
  match s with
  | EmptyString => EmptyString
  | String c s' =>
      match rstrip s' with
      | EmptyString => if isspace c then EmptyString else String c EmptyString
      | r => String c r
      end
  end.

(** [s.strip()] *)
Definition strip (s : string) : string := rstrip (lstrip s).

(** [text.split('\n\n')]: the text is scanned left to right, every
    non-overlapping occurrence of two line feeds ends the current piece.
    The result is the first piece and the pieces after it; it is never
    empty. *)
Fixpoint split_blank (text : string) : string * list string :=
  match text with
  | EmptyString => (EmptyString, [])
  | String c rest =>
      match rest with
      | String c' rest' =>
          if (Ascii.eqb c LF && Ascii.eqb c' LF)%bool then
            let (p, ps) := split_blank rest' in (EmptyString, p :: ps)
          else
            let (p, ps) := split_blank rest in (String c p, ps)
      | EmptyString => (String c EmptyString, [])
      end
  end.

Definition split_nn (text : string) : list string :=
  let (p, ps) := split_blank text in p :: ps.

(** Truth value of a [str]: non-empty. *)
Definition str_truthy (s : string) : bool :=
  match s with EmptyString => false | _ => true end.

(** ** Document chunks *)

Record ChunkMetadata := { source : string; chunk_id : nat }.
Record DocumentChunk := { content : string; metadata : ChunkMetadata }.

(** [[s.strip() for s in text.split('\n\n') if s.strip()]] *)
Definition sections (text : string) : list string :=
  map strip (filter (fun s => str_truthy (strip s)) (split_nn text)).

(** The loop [for i, section in enumerate(sections)], started at index [i]. *)
Fixpoint chunks_from (src : string) (i : nat) (secs : list string)
  : list DocumentChunk :=
  match secs with
  | [] => []
  | section :: rest =>
      if (50 <? String.length section)%nat then
        {| content := section;
           metadata := {| source := src; chunk_id := i |} |}
          :: chunks_from src (S i) rest
      else chunks_from src (S i) rest
  end.

(** [chunk_text(self, text, source, chunk_size=500)]; the body never reads
    [chunk_size]. *)
Definition chunk_text (text src : string) (chunk_size : nat)
  : list DocumentChunk :=
  chunks_from src 0 (sections text).

(** ** Python values

    The values that arrive as JSON or leave as JSON.  A [float] is kept as
    the 64-bit pattern of its IEEE double, since the program only passes
    floats along.  A [dict] is an association list in insertion order, with
    string keys, each key once. *)

Inductive pyval : Type :=
| PNone
| PBool (b : bool)
| PInt (z : Z)
| PFloat (bits : Z)
| PStr (s : string)
| PList (l : list pyval)
| PDict (d : list (string * pyval)).

Definition dict := list (string * pyval).

Fixpoint dict_get (d : dict) (k : string) : option pyval :=
  match d with
  | [] => None
  | (k', v) :: d' => if String.eqb k' k then Some v else dict_get d' k
  end.

(** [bool(v)] *)
Definition truthy (v : pyval) : bool :=
  match v with
  | PNone => false
  | PBool b => b
  | PInt z => negb (z =? 0)%Z
  | PFloat bits => negb (Z.land bits (2 ^ 63 - 1) =? 0)%Z
  | PStr s => str_truthy s
  | PList l => match l with [] => false | _ => true end
  | PDict d => match d with [] => false | _ => true end
  end.

(** [type(v).__name__] *)
Definition type_name (v : pyval) : string :=
  match v with
  | PNone => "NoneType"
  | PBool _ => "bool"
  | PInt _ => "int"
  | PFloat _ => "float"
  | PStr _ => "str"
  | PList _ => "list"
  | PDict _ => "dict"
  end.

(** ** Exceptions

    The exceptions of the model are instances of [Exception]; [str_exn] is
    [str(e)]. *)

Inductive exn : Type :=
| RemoteError (msg : string)      (* raised by a client of a remote service *)
| OSError (msg : string)          (* raised by file access *)
| JSONDecodeError (msg : string)
| TypeError (msg : string)
| AttributeError (msg : string)
| KeyError (key : string).

Definition str_exn (e : exn) : string :=
  match e with
  | RemoteError m | OSError m | JSONDecodeError m | TypeError m
  | AttributeError m => m
  | KeyError k => "'" ++ k ++ "'"
  end.

Inductive outcome (A : Type) : Type :=
| Ok (a : A)
| Raise (e : exn).
Arguments Ok {A} a.
Arguments Raise {A} e.

(** [data.get(key, default)]: only a [dict] has the method. *)
Definition py_get (data : pyval) (key : string) (default : pyval)
  : outcome pyval :=
  match data with
  | PDict d =>
      Ok (match dict_get d key with Some v => v | None => default end)
  | _ => Raise (AttributeError
                  ("'" ++ type_name data ++ "' object has no attribute 'get'"))
  end.

(** [doc[key]] with a string key: the value of the key in a [dict]. *)
Definition py_item (doc : pyval) (key : string) : outcome pyval :=
  match doc with
  | PDict d =>
      match dict_get d key with
      | Some v => Ok v
      | None => Raise (KeyError key)
      end
  | PList _ =>
      Raise (TypeError "list indices must be integers or slices, not str")
  | PStr _ => Raise (TypeError "string indices must be integers, not 'str'")
  | _ => Raise (TypeError
                  ("'" ++ type_name doc ++ "' object is not subscriptable"))
  end.

(** The items [messages.extend(v)] appends: the elements of a list, the
    characters of a string, the keys of a dict. *)
Fixpoint chars (s : string) : list pyval :=
  match s with
  | EmptyString => []
  | String c s' => PStr (String c EmptyString) :: chars s'
  end.

Definition py_iter (v : pyval) : outcome (list pyval) :=
  match v with
  | PList l => Ok l
  | PStr s => Ok (chars s)
  | PDict d => Ok (map (fun kv => PStr (fst kv)) d)
  | _ => Raise (TypeError ("'" ++ type_name v ++ "' object is not iterable"))
  end.

(** ** The hosted store, the console and the request counter

    The store holds four tables.  Whether a call to it fails is not decided by
    the program: [faults] schedules the outcome of the upcoming calls
    ([Some msg]: the call raises with [str(e) = msg]; [None], or an exhausted
    schedule: it goes through). *)

Inductive table : Type :=
| documents | conversations | leads | unknown_questions.

Record Supabase := {
  documents_rows : list pyval;
  conversations_rows : list pyval;
  leads_rows : list pyval;
  unknown_questions_rows : list pyval;
  faults : list (option string)
}.

Definition rows (t : table) (db : Supabase) : list pyval :=
  match t with
  | documents => documents_rows db
  | conversations => conversations_rows db
  | leads => leads_rows db
  | unknown_questions => unknown_questions_rows db
  end.

Definition add_row (t : table) (r : pyval) (db : Supabase) : Supabase :=
  match t with
  | documents =>
      {| documents_rows := (documents_rows db ++ [r])%list;
         conversations_rows := conversations_rows db;
         leads_rows := leads_rows db;
         unknown_questions_rows := unknown_questions_rows db;
         faults := faults db |}
  | conversations =>
      {| documents_rows := documents_rows db;
         conversations_rows := (conversations_rows db ++ [r])%list;
         leads_rows := leads_rows db;
         unknown_questions_rows := unknown_questions_rows db;
         faults := faults db |}
  | leads =>
      {| documents_rows := documents_rows db;
         conversations_rows := conversations_rows db;
         leads_rows := (leads_rows db ++ [r])%list;
         unknown_questions_rows := unknown_questions_rows db;
         faults := faults db |}
  | unknown_questions =>
      {| documents_rows := documents_rows db;
         conversations_rows := conversations_rows db;
         leads_rows := leads_rows db;
         unknown_questions_rows := (unknown_questions_rows db ++ [r])%list;
         faults := faults db |}
  end.

Definition with_faults (fs : list (option string)) (db : Supabase)
  : Supabase :=
  {| documents_rows := documents_rows db;
     conversations_rows := conversations_rows db;
     leads_rows := leads_rows db;
     unknown_questions_rows := unknown_questions_rows db;
     faults := fs |}.

(** A printed line: literal text and [str()] of values. *)
Inductive fragment : Type :=
| Text (s : string)
| StrOf (v : pyval).

Record World := {
  store : Supabase;
  stdout : list (list fragment);
  requests : nat     (* requests sent to the completion provider so far *)
}.

(** ** Computations: state and exceptions *)

Definition M (A : Type) : Type := World -> outcome A * World.

Definition ret {A} (a : A) : M A := fun w => (Ok a, w).

Definition raise {A} (e : exn) : M A := fun w => (Raise e, w).

Definition bind {A B} (m : M A) (k : A -> M B) : M B :=
  fun w =>
    match m w with
    | (Ok a, w') => k a w'
    | (Raise e, w') => (Raise e, w')
    end.

(** [try: m  except Exception as e: h e] *)
Definition try_except {A} (m : M A) (h : exn -> M A) : M A :=
  fun w =>
    match m w with
    | (Ok a, w') => (Ok a, w')
    | (Raise e, w') => h e w'
    end.

Definition lift {A} (o : outcome A) : M A := fun w => (o, w).

Declare Scope py_scope.
Delimit Scope py_scope with py.
Notation "x <- m ;; k" := (bind m (fun x => k))
  (at level 100, m at next level, right associativity) : py_scope.
Notation "m ;; k" := (bind m (fun _ => k))
  (at level 100, right associativity) : py_scope.
Open Scope py_scope.

Definition print (line : list fragment) : M unit :=
  fun w =>
    (Ok tt, {| store := store w;
               stdout := (stdout w ++ [line])%list;
               requests := requests w |}).

Definition set_store (db : Supabase) (w : World) : World :=
  {| store := db; stdout := stdout w; requests := requests w |}.

(** [.execute()]: one round trip to the store, which takes the next entry of
    the fault schedule. *)
Definition execute : M unit :=
  fun w =>
    let w' := set_store (with_faults (tl (faults (store w))) (store w)) w in
    match hd None (faults (store w)) with
    | Some msg => (Raise (RemoteError msg), w')
    | None => (Ok tt, w')
    end.

(** [supabase.table(t).insert(row).execute()] *)
Definition insert (t : table) (row : pyval) : M unit :=
  execute ;;
  (fun w => (Ok tt, set_store (add_row t row (store w)) w)).

(** [supabase.table(t).select('id').limit(1).execute()]: the [data] of the
    result, one [{id: ...}] per selected row.  Primary keys are modelled as
    the positions of the rows. *)
Definition select_id_limit_1 (t : table) : M (list pyval) :=
  execute ;;
  (fun w =>
     (Ok (firstn 1 (map (fun i => PDict [("id", PInt (Z.of_nat i))])
                        (seq 1 (length (rows t (store w)))))),
      w)).

(** ** The completion provider's data *)

(** A requested tool call: [tool_call.id], [tool_call.function.name] and
    [tool_call.function.arguments] (the argument payload, as text). *)
Record ToolCall := {
  call_id : string;
  function_name : string;
  function_arguments : string
}.

(** [response.choices[0].message] and [response.choices[0]]. *)
Record ChatCompletionMessage := {
  message_content : pyval;
  tool_calls : list ToolCall
}.

Record ChatCompletion := {
  finish_reason : string;
  choice_message : ChatCompletionMessage
}.

(** An entry of the [messages] list: a dict built by the program or supplied
    by the caller, or the provider's message object. *)
Inductive chat_message : Type :=
| Plain (m : pyval)
| Reply (m : ChatCompletionMessage).

(** The [json] module. *)
Record JSON := {
  json_loads : string -> outcome pyval;
  json_dumps : pyval -> string
}.

(** The provider: what request number [n] (counted from 0) is answered with.
    The declared tool set is the same at every request. *)
Record OpenAI := {
  embeddings_create : nat -> pyval -> outcome pyval;
  chat_completions_create : nat -> list chat_message -> outcome ChatCompletion
}.

Definition nl : string := String LF EmptyString.

(** [sep.join(items)]: every item must be a [str]; [i] is the position of
    the first item. *)
Fixpoint py_join_from (i : nat) (sep : string) (items : list pyval)
  : outcome string :=
  match items with
  | [] => Ok EmptyString
  | PStr s :: rest =>
      match rest with
      | [] => Ok s
      | _ =>
          match py_join_from (S i) sep rest with
          | Ok r => Ok (s ++ sep ++ r)
          | Raise e => Raise e
          end
      end
  | v :: _ =>
      Raise (TypeError ("sequence item " ++ NilZero.string_of_uint (Nat.to_uint i)
                          ++ ": expected str instance, "
                          ++ type_name v ++ " found"))
  end.

Definition py_join (sep : string) (items : list pyval) : outcome string :=
  py_join_from 0 sep items.

(** [needle in hay] *)
Fixpoint contains (needle hay : string) : bool :=
  String.prefix needle hay
  || match hay with
     | EmptyString => false
     | String _ hay' => contains needle hay'
     end.

Fixpoint map_outcome {A B} (f : A -> outcome B) (l : list A)
  : outcome (list B) :=
  match l with
  | [] => Ok []
  | a :: l' =>
      match f a with
      | Raise e => Raise e
      | Ok b =>
          match map_outcome f l' with
          | Raise e => Raise e
          | Ok bs => Ok (b :: bs)
          end
      end
  end.

Section Service.

Variable json : JSON.
Variable openai : OpenAI.

(** The records of [documents] whose similarity to the query vector is above
    the threshold, most similar first: computed by the store, on floats. *)
Variable similar : pyval -> pyval -> list pyval -> list pyval.

(** ** RAGRetriever *)

(** [is_initialized(self)]; the bare [except:] turns any failure of the query
    into [False]. *)
Definition is_initialized : M bool :=
  try_except
    (data <- select_id_limit_1 documents ;;
     ret (0 <? length data)%nat)
    (fun _ => ret false).

(** [generate_embedding(self, text)]: one request to the provider. *)
Definition generate_embedding (text : pyval) : M pyval :=
  fun w =>
    (embeddings_create openai (requests w) text,
     {| store := store w; stdout := stdout w; requests := S (requests w) |}).

Definition metadata_value (m : ChunkMetadata) : pyval :=
  PDict [("source", PStr (source m));
         ("chunk_id", PInt (Z.of_nat (chunk_id m)))].

(** The loop of [embed_documents] over the chunks. *)
Fixpoint embed_chunks (chunks : list DocumentChunk) : M unit :=
  match chunks with
  | [] => ret tt
  | chunk :: rest =>
      embedding <- generate_embedding (PStr (content chunk)) ;;
      insert documents
        (PDict [("content", PStr (content chunk));
                ("metadata", metadata_value (metadata chunk));
                ("embedding", embedding)]) ;;
      embed_chunks rest
  end.

(** [embed_documents(self, resume, summary)] *)
Definition embed_documents (resume summary : string) : M unit :=
  let chunks :=
    (chunk_text resume "resume" 500 ++ chunk_text summary "summary" 500)%list
  in
  print [Text "Embedding "; StrOf (PInt (Z.of_nat (length chunks)));
         Text " document chunks..."] ;;
  embed_chunks chunks ;;
  print [Text "✓ Embedded "; StrOf (PInt (Z.of_nat (length chunks)));
         Text " chunks successfully"].

(** Modelled from the spec: the stored procedure [match_documents], which
    runs in the hosted store and whose definition is not among the sources.
    The spec describes it as a server-side similarity search that accepts a
    query vector, a similarity threshold and a result-count limit and returns
    ranked matches: the first [match_count] records of the ranking. *)
Definition match_documents (query_embedding match_threshold : pyval)
    (match_count : nat) : M (list pyval) :=
  execute ;;
  (fun w =>
     (Ok (firstn match_count
            (similar query_embedding match_threshold
               (rows documents (store w)))),
      w)).

(** The float [0.7]. *)
Definition threshold_0_7 : pyval := PFloat 0x3FE6666666666666.

(** [retrieve_context(self, query, top_k=3)] *)
Definition retrieve_context (query : pyval) (top_k : nat) : M (list pyval) :=
  try_except
    (query_embedding <- generate_embedding query ;;
     data <- match_documents query_embedding threshold_0_7 top_k ;;
     lift (map_outcome (fun doc => py_item doc "content") data))
    (fun e =>
       print [Text "RAG retrieval error: "; Text (str_exn e)] ;;
       ret []).

(** ** ConversationStore *)

Definition py_or (a b : pyval) : pyval := if truthy a then a else b.

Definition from_default (v : option pyval) (default : pyval) : pyval :=
  match v with Some x => x | None => default end.

(** [save_conversation(self, user_id, message, response, metadata=None)];
    both paths fall off the end of the function, which returns [None]. *)
Definition save_conversation (user_id message response : pyval)
    (metadata : option pyval) : M pyval :=
  let metadata := from_default metadata PNone in
  try_except
    (insert conversations
       (PDict [("user_id", user_id);
               ("message", message);
               ("response", response);
               ("metadata", py_or metadata (PDict []))]))
    (fun e => print [Text "Error saving conversation: "; Text (str_exn e)]) ;;
  ret PNone.

(** [record_user_details(self, user_id, email, name="Not provided",
    notes="")]; an omitted optional argument is [None] here. *)
Definition record_user_details (user_id email : pyval)
    (name notes : option pyval) : M pyval :=
  let name := from_default name (PStr "Not provided") in
  let notes := from_default notes (PStr "") in
  try_except
    (insert leads
       (PDict [("user_id", user_id);
               ("email", email);
               ("name", name);
               ("notes", notes)]) ;;
     print [Text "✓ Recorded lead: "; StrOf email] ;;
     ret (PDict [("recorded", PStr "ok"); ("email", email)]))
    (fun e =>
       print [Text "Error recording user: "; Text (str_exn e)] ;;
       ret (PDict [("error", PStr (str_exn e))])).

(** [record_unknown_question(self, question)] *)
Definition record_unknown_question (question : pyval) : M pyval :=
  try_except
    (insert unknown_questions (PDict [("question", question)]) ;;
     print [Text "✓ Recorded unknown question: "; StrOf question] ;;
     ret (PDict [("recorded", PStr "ok")]))
    (fun e =>
       print [Text "Error recording question: "; Text (str_exn e)] ;;
       ret (PDict [("error", PStr (str_exn e))])).

(** ** Calling a handler with [**arguments]

    [f(first, **arguments)]: [arguments] must be a mapping, every key must
    name a parameter that is still free, and every parameter without a
    default must end up filled.  [taken] are the parameters filled by position
    ([self] included), [allowed] the remaining ones, [required] those of them
    without a default.  The texts follow CPython 3.11; control flow only
    depends on the class of the exception. *)

Fixpoint check_keywords (fname : string) (taken allowed : list string)
    (d : dict) : outcome unit :=
  match d with
  | [] => Ok tt
  | (k, _) :: d' =>
      if existsb (String.eqb k) allowed then
        check_keywords fname taken allowed d'
      else if existsb (String.eqb k) taken then
        Raise (TypeError
                 (fname ++ "() got multiple values for argument '" ++ k ++ "'"))
      else
        Raise (TypeError
                 (fname ++ "() got an unexpected keyword argument '"
                        ++ k ++ "'"))
  end.

Fixpoint check_required (fname : string) (required : list string)
    (d : dict) : outcome unit :=
  match required with
  | [] => Ok tt
  | k :: required' =>
      match dict_get d k with
      | Some _ => check_required fname required' d
      | None =>
          Raise (TypeError
                   (fname ++ "() missing 1 required positional argument: '"
                          ++ k ++ "'"))
      end
  end.

Definition bind_keywords (fname : string) (taken allowed required : list string)
    (arguments : pyval) : outcome dict :=
  match arguments with
  | PDict d =>
      match check_keywords fname taken allowed d with
      | Raise e => Raise e
      | Ok _ =>
          match check_required fname required d with
          | Raise e => Raise e
          | Ok _ => Ok d
          end
      end
  | _ =>
      Raise (TypeError
               (fname ++ "() argument after ** must be a mapping, not "
                      ++ type_name arguments))
  end.

(** [self.db.record_user_details] called with [user_id, **arguments] *)
Definition call_record_user_details (user_id arguments : pyval) : M pyval :=
  kw <- lift (bind_keywords "ConversationStore.record_user_details"
                ["self"; "user_id"] ["email"; "name"; "notes"] ["email"]
                arguments) ;;
  record_user_details user_id
    (from_default (dict_get kw "email") PNone)
    (dict_get kw "name") (dict_get kw "notes").

(** [self.db.record_unknown_question] called with [**arguments] *)
Definition call_record_unknown_question (arguments : pyval) : M pyval :=
  kw <- lift (bind_keywords "ConversationStore.record_unknown_question"
                ["self"] ["question"] ["question"] arguments) ;;
  record_unknown_question (from_default (dict_get kw "question") PNone).

(** ** AdityaChatbot *)

Record AdityaChatbot := {
  name : string;
  supabase_enabled : bool;
  resume : string;
  summary : string
}.

(** What the process finds when it starts: the result of constructing the
    provider's client, the two configuration variables, the result of
    [create_client], the pages of [Resume.pdf] (the text each page extracts
    to) and the text of [summary.txt]. *)
Record Environment := {
  openai_client : outcome unit;
  SUPABASE_URL : option string;
  SUPABASE_KEY : option string;
  create_client : outcome unit;
  Resume_pdf : outcome (list (outcome string));
  summary_txt : outcome string
}.

(** The configuration test of [__init__]. *)
Definition configured (env : Environment) : bool :=
  match SUPABASE_URL env, SUPABASE_KEY env with
  | Some supabase_url, Some supabase_key =>
      str_truthy supabase_url && str_truthy supabase_key
      && negb (contains "your-project" supabase_url)
      && String.prefix "https://" supabase_url
      && contains ".supabase.co" supabase_url
  | _, _ => false
  end.

Fixpoint join_pages (texts : list string) : string :=
  match texts with
  | [] => EmptyString
  | text :: rest =>
      if str_truthy text then text ++ join_pages rest else join_pages rest
  end.

(** [_load_resume(self)] *)
Definition _load_resume (env : Environment) : M string :=
  try_except
    (pages <- lift (Resume_pdf env) ;;
     texts <- lift (map_outcome (fun page => page) pages) ;;
     ret (join_pages texts))
    (fun e =>
       print [Text "Error reading Resume.pdf: "; Text (str_exn e)] ;;
       ret "Resume information unavailable").

(** [_load_summary(self)] *)
Definition _load_summary (env : Environment) : M string :=
  try_except
    (lift (summary_txt env))
    (fun e =>
       print [Text "Error reading summary.txt: "; Text (str_exn e)] ;;
       ret "").

(** The connection attempt of [__init__]: the value of
    [self.supabase_enabled] after it. *)
Definition connect (env : Environment) : M bool :=
  try_except
    (if configured env then
       lift (create_client env) ;;
       select_id_limit_1 documents ;;
       print [Text "✓ Supabase connected successfully"] ;;
       ret true
     else
       print [Text "⚠ Supabase not configured - running without vector DB and conversation tracking"] ;;
       ret false)
    (fun _ =>
       print [Text "⚠ Supabase connection failed - running without it"] ;;
       ret false).

(** The last step of [__init__]: the vector database is filled when the store
    is enabled and [is_initialized] says no. *)
Definition initialize_vector_database (enabled : bool)
    (resume_text summary_text : string) : M unit :=
  if enabled then
    initialized <- is_initialized ;;
    if negb initialized then
      print [Text "Initializing vector database..."] ;;
      embed_documents resume_text summary_text
    else
      print [Text "✓ Vector database already initialized"]
  else
    print [Text "✓ Chatbot ready (without Supabase features)"].

(** [AdityaChatbot.__init__(self)] *)
Definition __init__ (env : Environment) : M AdityaChatbot :=
  lift (openai_client env) ;;
  enabled <- connect env ;;
  resume_text <- _load_resume env ;;
  summary_text <- _load_summary env ;;
  initialize_vector_database enabled resume_text summary_text ;;
  ret {| name := "Aditya Mazumdar";
         supabase_enabled := enabled;
         resume := resume_text;
         summary := summary_text |}.

Variable self : AdityaChatbot.

Definition local_ack : pyval :=
  PDict [("recorded", PStr "ok");
         ("note", PStr "Logged locally (Supabase disabled)")].

(** The routing of one tool call of [_handle_tool_calls]: the handler's
    result. *)
Definition tool_result (tool_name : string) (arguments user_id : pyval)
  : M pyval :=
  if String.eqb tool_name "record_user_details" then
    if supabase_enabled self then
      call_record_user_details user_id arguments
    else
      print [Text "📧 Lead captured: "; StrOf arguments] ;;
      ret local_ack
  else if String.eqb tool_name "record_unknown_question" then
    if supabase_enabled self then
      call_record_unknown_question arguments
    else
      question <- lift (py_get arguments "question" PNone) ;;
      print [Text "❓ Unknown question: "; StrOf question] ;;
      ret local_ack
  else
    ret (PDict [("error", PStr "Unknown tool")]).

(** The result envelope appended for a tool call. *)
Definition envelope (result : pyval) (tool_call : ToolCall) : pyval :=
  PDict [("role", PStr "tool");
         ("content", PStr (json_dumps json result));
         ("tool_call_id", PStr (call_id tool_call))].

(** The body of the loop of [_handle_tool_calls] for one tool call. *)
Definition handle_tool_call (tool_call : ToolCall) (user_id : pyval)
  : M pyval :=
  let tool_name := function_name tool_call in
  arguments <- lift (json_loads json (function_arguments tool_call)) ;;
  print [Text "Tool called: "; Text tool_name] ;;
  result <- tool_result tool_name arguments user_id ;;
  ret (envelope result tool_call).

(** [_handle_tool_calls(self, tool_calls, user_id)] *)
Fixpoint _handle_tool_calls (tool_calls : list ToolCall) (user_id : pyval)
  : M (list pyval) :=
  match tool_calls with
  | [] => ret []
  | tool_call :: rest =>
      r <- handle_tool_call tool_call user_id ;;
      results <- _handle_tool_calls rest user_id ;;
      ret (r :: results)
  end.

(** The persona instructions of [_build_system_prompt], for [self.name]. *)
Definition persona (n : string) : string :=
  "You are acting as " ++ n ++ ", a Software Development Engineer. You are answering questions on " ++ n ++ "'s portfolio website, "
  ++ "particularly questions related to " ++ n ++ "'s career, background, skills, experience, and projects. "
  ++ "Your responsibility is to represent " ++ n ++ " for interactions on the website as faithfully as possible. "
  ++ "Be professional, engaging, and friendly, as if talking to a potential client, recruiter, or future employer who came across the website. "
  ++ "Keep your responses concise and to the point - aim for 2-3 sentences unless more detail is specifically requested. "
  ++ "If you don't know the answer to any question, use your record_unknown_question tool to record the question that you couldn't answer. "
  ++ "If the user is engaging in discussion and seems interested in collaboration or hiring, try to steer them towards getting in touch via email; ask for their email and record it using your record_user_details tool.".

(** [_build_system_prompt(self, rag_context)] *)
Definition _build_system_prompt (rag_context : list pyval) : outcome string :=
  let base_prompt := persona (name self) in
  match
    match rag_context with
    | [] => Ok base_prompt
    | _ =>
        match py_join (nl ++ nl) rag_context with
        | Raise e => Raise e
        | Ok joined =>
            Ok (base_prompt
                  ++ (nl ++ nl ++ "## Retrieved Context:" ++ nl ++ joined))
        end
    end
  with
  | Raise e => Raise e
  | Ok base_prompt =>
      let base_prompt :=
        if str_truthy (summary self) then
          base_prompt ++ nl ++ nl ++ "## Summary:" ++ nl ++ summary self
                      ++ nl ++ nl
        else base_prompt in
      let base_prompt :=
        if str_truthy (resume self) then
          base_prompt ++ "## Resume:" ++ nl ++ resume self ++ nl ++ nl
        else base_prompt in
      Ok (base_prompt
            ++ "With this context, please chat with the user, always staying in character as "
            ++ name self ++ ". Be helpful, professional, and engaging!")
  end.

(** [self.openai.chat.completions.create(...)]: one request to the
    provider. *)
Definition create_completion (messages : list chat_message)
  : M ChatCompletion :=
  fun w =>
    (chat_completions_create openai (requests w) messages,
     {| store := store w; stdout := stdout w; requests := S (requests w) |}).

(** The message sequence [chat] starts the loop with. *)
Definition initial_messages (message history : pyval)
  : M (list chat_message) :=
  relevant_chunks <-
    (if supabase_enabled self then retrieve_context message 3 else ret []) ;;
  prompt <- lift (_build_system_prompt relevant_chunks) ;;
  items <- lift (py_iter history) ;;
  ret ((Plain (PDict [("role", PStr "system"); ("content", PStr prompt)])
          :: map Plain items)
         ++ [Plain (PDict [("role", PStr "user"); ("content", message)])])%list.

(** The [while not done] loop of [chat].  Python puts no bound on the number
    of rounds; [fuel] is the number of rounds the model is run for, and [None]
    says the loop is still running after them. *)
Fixpoint tool_loop (fuel : nat) (user_id : pyval)
    (messages : list chat_message) (w : World)
  : option (outcome ChatCompletion * World) :=
  match fuel with
  | O => None
  | S fuel' =>
      match create_completion messages w with
      | (Raise e, w1) => Some (Raise e, w1)
      | (Ok response, w1) =>
          if String.eqb (finish_reason response) "tool_calls" then
            let message_obj := choice_message response in
            match _handle_tool_calls (tool_calls message_obj) user_id w1 with
            | (Raise e, w2) => Some (Raise e, w2)
            | (Ok tool_results, w2) =>
                tool_loop fuel' user_id
                  (messages ++ [Reply message_obj]
                            ++ map Plain tool_results)%list
                  w2
            end
          else Some (Ok response, w1)
      end
  end.

(** [chat(self, message, history, user_id="anonymous")] *)
Definition chat (fuel : nat) (message history user_id : pyval) (w : World)
  : option (outcome pyval * World) :=
  match initial_messages message history w with
  | (Raise e, w1) => Some (Raise e, w1)
  | (Ok messages, w1) =>
      match tool_loop fuel user_id messages w1 with
      | None => None
      | Some (Raise e, w2) => Some (Raise e, w2)
      | Some (Ok response, w2) =>
          let final_response := message_content (choice_message response) in
          Some
            (((if supabase_enabled self then
                 save_conversation user_id message final_response None
               else ret PNone) ;;
              ret final_response) w2)
      end
  end.

(** ** The route [POST /api/chat] *)

Record Response := { status : nat; body : pyval }.

(** The fields read from [request.json]. *)
Definition read_request (request_json : outcome pyval)
  : outcome (pyval * pyval * pyval) :=
  match request_json with
  | Raise e => Raise e
  | Ok data =>
      match py_get data "message" (PStr "") with
      | Raise e => Raise e
      | Ok message =>
          match py_get data "history" (PList []) with
          | Raise e => Raise e
          | Ok history =>
              match py_get data "user_id" (PStr "anonymous") with
              | Raise e => Raise e
              | Ok user_id => Ok (message, history, user_id)
              end
          end
      end
  end.

(** The [except Exception as e] branch of the route. *)
Definition internal_error (e : exn) (w : World) : Response * World :=
  ({| status := 500;
      body := PDict [("error", PStr (str_exn e)); ("success", PBool false)] |},
   snd (print [Text "Error in chat endpoint: "; Text (str_exn e)] w)).

(** [chat()] under [@app.route('/api/chat', methods=['POST'])];
    [request_json] is what evaluating [request.json] gives. *)
Definition api_chat (fuel : nat) (request_json : outcome pyval) (w : World)
  : option (Response * World) :=
  match read_request request_json with
  | Raise e => Some (internal_error e w)
  | Ok (message, history, user_id) =>
      if negb (truthy message) then
        Some ({| status := 400;
                 body := PDict [("error", PStr "Message is required")] |}, w)
      else
        match chat fuel message history user_id w with
        | None => None
        | Some (Raise e, w') => Some (internal_error e w')
        | Some (Ok response, w') =>
            Some ({| status := 200;
                     body := PDict [("response", response);
                                    ("success", PBool true)] |}, w')
        end
  end.

End Service.

(** ** A reference decoder for [json.loads]

    The concrete runs below need a concrete decoder.  [reference_loads]
    follows the decoder of CPython 3.11 ([json.decoder] with the scanner of
    [_json.c]) on a [str]: objects, arrays, strings with their escapes,
    integers, floats (as the bits of the nearest binary64), [true], [false],
    [null], [NaN], [Infinity] and [-Infinity]; its errors carry the message
    and the position [JSONDecodeError] reports.  Three things of CPython are
    outside what it covers: a [\u] escape above U+00FF names a character
    that is not in the alphabet of this development, and is reported as an
    invalid escape; the limit of 4300 digits on an integer literal and the
    limit on the nesting depth are not applied. *)

Definition DQ : ascii := "034"%char.
Definition BACKSLASH : ascii := "092"%char.

Definition json_space (c : ascii) : bool :=
  Ascii.eqb c " "%char || Ascii.eqb c "009"%char
  || Ascii.eqb c "010"%char || Ascii.eqb c "013"%char.

(** What a scan gives: the value, the text after it and the index of that
    text in the document; or the message of the error and the index it
    points at. *)
Inductive scan (A : Type) : Type :=
| Found (a : A) (rest : string) (idx : nat)
| Bad (msg : string) (idx : nat).

Arguments Bad {A} msg idx.

Fixpoint skip_ws (s : string) (idx : nat) : string * nat :=
  match s with
  | String c s' => if json_space c then skip_ws s' (S idx) else (s, idx)
  | EmptyString => (EmptyString, idx)
  end.

Definition unescape (c : ascii) : option ascii :=
  if Ascii.eqb c DQ then Some DQ
  else if Ascii.eqb c BACKSLASH then Some BACKSLASH
  else if Ascii.eqb c "/"%char then Some "/"%char
  else if Ascii.eqb c "b"%char then Some "008"%char
  else if Ascii.eqb c "f"%char then Some "012"%char
  else if Ascii.eqb c "n"%char then Some "010"%char
  else if Ascii.eqb c "r"%char then Some "013"%char
  else if Ascii.eqb c "t"%char then Some "009"%char
  else None.

Definition hex_value (c : ascii) : option nat :=
  let n := nat_of_ascii c in
  if ((48 <=? n) && (n <=? 57))%nat then Some (n - 48)
  else if ((65 <=? n) && (n <=? 70))%nat then Some (n - 55)
  else if ((97 <=? n) && (n <=? 102))%nat then Some (n - 87)
  else None.

(** The code point of the four hexadecimal digits of a [\u] escape. *)
Definition code_point (h1 h2 h3 h4 : ascii) : option nat :=
  match hex_value h1, hex_value h2, hex_value h3, hex_value h4 with
  | Some a, Some b, Some c, Some d => Some (((a * 16 + b) * 16 + c) * 16 + d)
  | _, _, _, _ => None
  end.

(** [scanstring]: the characters of a string literal whose opening quote is
    at [begin], read from [s], the text at [idx] after that quote. *)
Fixpoint scan_string (begin : nat) (s : string) (idx : nat) : scan string :=
  match s with
  | EmptyString => Bad "Unterminated string starting at" begin
  | String c s' =>
      if Ascii.eqb c DQ then Found EmptyString s' (S idx)
      else if Ascii.eqb c BACKSLASH then
        match s' with
        | EmptyString => Bad "Unterminated string starting at" begin
        | String e s'' =>
            if Ascii.eqb e "u"%char then
              match s'' with
              | String h1 (String h2 (String h3 (String h4
                  (String _ _ as s4)))) =>
                  match code_point h1 h2 h3 h4 with
                  | Some code =>
                      if (code <? 256)%nat then
                        match scan_string begin s4 (idx + 6) with
                        | Found v rest idx' =>
                            Found (String (ascii_of_nat code) v) rest idx'
                        | Bad msg i => Bad msg i
                        end
                      else Bad "Invalid \uXXXX escape" (S idx)
                  | None => Bad "Invalid \uXXXX escape" (S idx)
                  end
              | _ => Bad "Invalid \uXXXX escape" (S idx)
              end
            else
              match unescape e with
              | Some ch =>
                  match scan_string begin s'' (idx + 2) with
                  | Found v rest idx' => Found (String ch v) rest idx'
                  | Bad msg i => Bad msg i
                  end
              | None => Bad "Invalid \escape" idx
              end
        end
      else if (nat_of_ascii c <? 32)%nat then
        Bad "Invalid control character at" idx
      else
        match scan_string begin s' (S idx) with
        | Found v rest idx' => Found (String c v) rest idx'
        | Bad msg i => Bad msg i
        end
  end.

Definition digit (c : ascii) : option Z :=
  let n := nat_of_ascii c in
  if ((48 <=? n) && (n <=? 57))%nat then Some (Z.of_nat (n - 48)) else None.

(** The digits at the head of [s], read after the value [acc] and [n]
    digits: the value, the number of digits and the text after them. *)
Fixpoint scan_digits (acc : Z) (n : nat) (s : string) : Z * nat * string :=
  match s with
  | String c s' =>
      match digit c with
      | Some d => scan_digits (10 * acc + d) (S n) s'
      | None => (acc, n, s)
      end
  | EmptyString => (acc, n, EmptyString)
  end.

(** *** Floats

    A float is the 64 bits of its IEEE 754 binary64 representation. *)

Definition round_half_even (n d : Z) : Z :=
  let q := (n / d)%Z in
  match (2 * (n mod d) ?= d)%Z with
  | Lt => q
  | Gt => (q + 1)%Z
  | Eq => if Z.even q then q else (q + 1)%Z
  end.

(** The quotient [num / den] of two positive integers, scaled by [2 ^ - x]
    and rounded to the nearest integer, ties to even. *)
Definition scaled (num den x : Z) : Z :=
  if (0 <=? x)%Z then round_half_even num (den * 2 ^ x)
  else round_half_even (num * 2 ^ (- x)) den.

(** [floor (log2 (num / den))] *)
Definition log2_floor (num den : Z) : Z :=
  let k := (Z.log2 num - Z.log2 den)%Z in
  let below :=
    if (0 <=? k)%Z then (num <? den * 2 ^ k)%Z
    else (num * 2 ^ (- k) <? den)%Z in
  if below then (k - 1)%Z else k.

Definition infinity_bits : Z := 0x7FF0000000000000%Z.
Definition nan_bits : Z := 0x7FF8000000000000%Z.

(** The bits of the binary64 nearest to [num / den], for [0 < num] and
    [0 < den]; an overflow gives infinity. *)
Definition nearest_bits (num den : Z) : Z :=
  let k := log2_floor num den in
  let x := Z.max (k - 52) (-1074) in
  let bits := ((x + 1074) * 2 ^ 52 + scaled num den x)%Z in
  if (infinity_bits <=? bits)%Z then infinity_bits else bits.

(** The bits of [float(m * 10 ** e)] for [0 <= m]: what [float] gives on
    the literal. *)
Definition decimal_bits (m e : Z) : Z :=
  if (m =? 0)%Z then 0%Z
  else if (400 <? e)%Z then infinity_bits
  else if (e + Z.log2 m / 3 + 1 <? -400)%Z then 0%Z
  else if (0 <=? e)%Z then nearest_bits (m * 10 ^ e) 1
  else nearest_bits m (10 ^ (- e)).

Definition negated (negative : bool) (bits : Z) : Z :=
  if negative then (2 ^ 63 + bits)%Z else bits.

(** *** Numbers *)

(** The exponent part at the head of [s], if there is one: its value, its
    length and the text after it. *)
Definition scan_exponent (s : string) : option (Z * nat * string) :=
  match s with
  | String e s' =>
      if Ascii.eqb e "e"%char || Ascii.eqb e "E"%char then
        let '(negative, signed, s'') :=
          match s' with
          | String c r =>
              if Ascii.eqb c "-"%char then (true, 1, r)
              else if Ascii.eqb c "+"%char then (false, 1, r)
              else (false, 0, s')
          | EmptyString => (false, 0, s')
          end in
        match s'' with
        | String c r =>
            match digit c with
            | Some d =>
                let '(x, n, rest) := scan_digits d 1 r in
                Some (if negative then (- x)%Z else x, 1 + signed + n, rest)
            | None => None
            end
        | EmptyString => None
        end
      else None
  | EmptyString => None
  end.

(** The fraction part at the head of [s], read after the integer part
    [acc]: the digits read so far as one integer, the length of the part
    (0 if there is none) and the text after it. *)
Definition scan_fraction (acc : Z) (s : string) : Z * nat * string :=
  match s with
  | String p (String c r) =>
      if Ascii.eqb p "."%char then
        match digit c with
        | Some d =>
            let '(m, n, rest) := scan_digits (10 * acc + d) 1 r in
            (m, S n, rest)
        | None => (acc, 0, s)
        end
      else (acc, 0, s)
  | _ => (acc, 0, s)
  end.

(** [_match_number]: a number at [idx], the head of [s]. *)
Definition scan_number (s : string) (idx : nat) : scan pyval :=
  let '(negative, s1, i1) :=
    match s with
    | String c s' =>
        if Ascii.eqb c "-"%char then (true, s', S idx) else (false, s, idx)
    | EmptyString => (false, s, idx)
    end in
  match s1 with
  | String c s2 =>
      match digit c with
      | Some d =>
          let '(int_part, n_int, s3) :=
            if (d =? 0)%Z then (0%Z, 1, s2) else scan_digits d 1 s2 in
          let '(m, n_frac, s4) := scan_fraction int_part s3 in
          match scan_exponent s4 with
          | Some (x, n_exp, s5) =>
              Found
                (PFloat
                   (negated negative
                      (decimal_bits m (x - Z.of_nat (n_frac - 1)))))
                s5 (i1 + n_int + n_frac + n_exp)
          | None =>
              match n_frac with
              | O =>
                  Found (PInt (if negative then (- m)%Z else m)) s4
                    (i1 + n_int)
              | S digits =>
                  Found
                    (PFloat
                       (negated negative
                          (decimal_bits m (- Z.of_nat digits))))
                    s4 (i1 + n_int + n_frac)
              end
          end
      | None => Bad "Expecting value" idx
      end
  | EmptyString => Bad "Expecting value" idx
  end.

(** [d[k] = v] *)
Fixpoint dict_set (d : dict) (k : string) (v : pyval) : dict :=
  match d with
  | [] => [(k, v)]
  | (k', v') :: d' =>
      if String.eqb k' k then (k', v) :: d' else (k', v') :: dict_set d' k v
  end.

Definition after (prefix s : string) : option string :=
  if String.prefix prefix s then
    Some (substring (String.length prefix)
            (String.length s - String.length prefix) s)
  else None.

(** The named constants, tried in the order of [scan_once]. *)
Definition constants : list (string * pyval) :=
  [("null", PNone); ("true", PBool true); ("false", PBool false);
   ("NaN", PFloat nan_bits); ("Infinity", PFloat infinity_bits);
   ("-Infinity", PFloat (negated true infinity_bits))].

Fixpoint scan_constant (names : list (string * pyval)) (s : string)
    (idx : nat) : option (pyval * string * nat) :=
  match names with
  | [] => None
  | (name, v) :: names' =>
      match after name s with
      | Some rest => Some (v, rest, idx + String.length name)
      | None => scan_constant names' s idx
      end
  end.

(** [scan_once] at [idx], the head of [s], which does not start with
    white space. *)
Fixpoint decode_value (fuel : nat) (s : string) (idx : nat) : scan pyval :=
  match fuel with
  | O => Bad "Expecting value" idx
  | S fuel' =>
      match s with
      | EmptyString => Bad "Expecting value" idx
      | String c s' =>
          if Ascii.eqb c DQ then
            match scan_string idx s' (S idx) with
            | Found v rest idx' => Found (PStr v) rest idx'
            | Bad msg i => Bad msg i
            end
          else if Ascii.eqb c "["%char then
            let (s1, i1) := skip_ws s' (S idx) in
            match s1 with
            | String c' rest =>
                if Ascii.eqb c' "]"%char then Found (PList []) rest (S i1)
                else decode_items fuel' [] s1 i1
            | EmptyString => decode_items fuel' [] s1 i1
            end
          else if Ascii.eqb c "{"%char then
            let (s1, i1) := skip_ws s' (S idx) in
            match s1 with
            | String c' rest =>
                if Ascii.eqb c' "}"%char then Found (PDict []) rest (S i1)
                else decode_member fuel' [] s1 i1
            | EmptyString => decode_member fuel' [] s1 i1
            end
          else
            match scan_constant constants s idx with
            | Some (v, rest, idx') => Found v rest idx'
            | None => scan_number s idx
            end
      end
  end

(** The elements of an array from [idx] on, after the elements [acc]. *)
with decode_items (fuel : nat) (acc : list pyval) (s : string) (idx : nat)
  : scan pyval :=
  match fuel with
  | O => Bad "Expecting value" idx
  | S fuel' =>
      match decode_value fuel' s idx with
      | Bad msg i => Bad msg i
      | Found v rest idx' =>
          let (s1, i1) := skip_ws rest idx' in
          match s1 with
          | String c s2 =>
              if Ascii.eqb c "]"%char then
                Found (PList (acc ++ [v])%list) s2 (S i1)
              else if Ascii.eqb c ","%char then
                let (s3, i3) := skip_ws s2 (S i1) in
                decode_items fuel' (acc ++ [v])%list s3 i3
              else Bad "Expecting ',' delimiter" i1
          | EmptyString => Bad "Expecting ',' delimiter" i1
          end
      end
  end

(** The members of an object from [idx] on, after the members [acc]. *)
with decode_member (fuel : nat) (acc : dict) (s : string) (idx : nat)
  : scan pyval :=
  match fuel with
  | O => Bad "Expecting value" idx
  | S fuel' =>
      match s with
      | String c s' =>
          if Ascii.eqb c DQ then
            match scan_string idx s' (S idx) with
            | Bad msg i => Bad msg i
            | Found k rest idx' =>
                let (s1, i1) := skip_ws rest idx' in
                match s1 with
                | String c' s2 =>
                    if Ascii.eqb c' ":"%char then
                      let (s3, i3) := skip_ws s2 (S i1) in
                      match decode_value fuel' s3 i3 with
                      | Bad msg i => Bad msg i
                      | Found v rest' idx'' =>
                          let (s4, i4) := skip_ws rest' idx'' in
                          match s4 with
                          | String c'' s5 =>
                              if Ascii.eqb c'' "}"%char then
                                Found (PDict (dict_set acc k v)) s5 (S i4)
                              else if Ascii.eqb c'' ","%char then
                                let (s6, i6) := skip_ws s5 (S i4) in
                                decode_member fuel' (dict_set acc k v) s6 i6
                              else Bad "Expecting ',' delimiter" i4
                          | EmptyString => Bad "Expecting ',' delimiter" i4
                          end
                      end
                    else Bad "Expecting ':' delimiter" i1
                | EmptyString => Bad "Expecting ':' delimiter" i1
                end
            end
          else Bad "Expecting property name enclosed in double quotes" idx
      | EmptyString =>
          Bad "Expecting property name enclosed in double quotes" idx
      end
  end.

Definition string_of_nat (n : nat) : string :=
  NilZero.string_of_uint (Nat.to_uint n).

(** The line and the column of the character at [idx], both counted from
    1. *)
Fixpoint line_column (doc : string) (idx : nat) (line column : nat)
  : nat * nat :=
  match idx, doc with
  | S idx', String c doc' =>
      if Ascii.eqb c "010"%char then line_column doc' idx' (S line) 1
      else line_column doc' idx' line (S column)
  | _, _ => (line, column)
  end.

(** [str(JSONDecodeError(msg, doc, pos))] *)
Definition errmsg (msg doc : string) (pos : nat) : string :=
  let (line, column) := line_column doc pos 1 1 in
  msg ++ ": line " ++ string_of_nat line ++ " column " ++ string_of_nat column
      ++ " (char " ++ string_of_nat pos ++ ")".

Definition reference_loads (s : string) : outcome pyval :=
  let (s0, i0) := skip_ws s 0 in
  match decode_value (2 * String.length s + 2) s0 i0 with
  | Found v rest idx =>
      match skip_ws rest idx with
      | (EmptyString, _) => Ok v
      | (_, idx') => Raise (JSONDecodeError (errmsg "Extra data" s idx'))
      end
  | Bad msg idx => Raise (JSONDecodeError (errmsg msg s idx))
  end.

(** ** A reference encoder for [json.dumps]

    [json.dumps] with its defaults ([ensure_ascii], [allow_nan], separators
    [", "] and [": "]); a float is written as [float.__repr__] writes it,
    with the shortest digits that read back as the same float. *)

Definition hex_digit (n : nat) : ascii :=
  if (n <? 10)%nat then ascii_of_nat (48 + n) else ascii_of_nat (87 + n).

Definition escape_char (c : ascii) : string :=
  let n := nat_of_ascii c in
  if Ascii.eqb c DQ then String BACKSLASH (String DQ EmptyString)
  else if Ascii.eqb c BACKSLASH then String BACKSLASH (String BACKSLASH EmptyString)
  else if (n =? 10)%nat then String BACKSLASH "n"
  else if (n =? 13)%nat then String BACKSLASH "r"
  else if (n =? 9)%nat then String BACKSLASH "t"
  else if (n =? 8)%nat then String BACKSLASH "b"
  else if (n =? 12)%nat then String BACKSLASH "f"
  else if ((32 <=? n) && (n <=? 126))%nat then String c EmptyString
  else
    String BACKSLASH
      ("u00" ++ String (hex_digit (n / 16))
                  (String (hex_digit (n mod 16)) EmptyString)).

Fixpoint escape (s : string) : string :=
  match s with
  | EmptyString => EmptyString
  | String c s' => escape_char c ++ escape s'
  end.

Definition quoted (s : string) : string :=
  String DQ (escape s ++ String DQ EmptyString).

Definition string_of_Z (z : Z) : string :=
  NilZero.string_of_int (Z.to_int z).

(** [floor (log10 (num / den))] for positive [num] and [den]. *)
Definition log10_floor (num den : Z) : Z :=
  let n := (log2_floor num den * 30103 / 100000)%Z in
  let at_least (n : Z) : bool :=
    if (0 <=? n)%Z then (den * 10 ^ n <=? num)%Z
    else (den <=? num * 10 ^ (- n))%Z in
  if at_least (n + 1)%Z then (n + 1)%Z
  else if at_least n then n
  else (n - 1)%Z.

(** The shortest decimal [c * 10 ** scale] that reads back as the positive
    float [bits], whose value is [num / den] and whose decimal exponent is
    [n]: the closest one among those of the smallest number [p] of
    digits. *)
Fixpoint shortest (fuel : nat) (p : Z) (bits num den n : Z) : Z * Z :=
  let scale := (n - p + 1)%Z in
  let '(a, b) :=
    if (0 <=? scale)%Z then (num, den * 10 ^ scale)%Z
    else (num * 10 ^ (- scale), den)%Z in
  let lo := (a / b)%Z in
  let hi := (lo + 1)%Z in
  match fuel with
  | O => (round_half_even a b, scale)
  | S fuel' =>
      let lo_reads := (0 <? lo)%Z && (decimal_bits lo scale =? bits)%Z in
      let hi_reads := (decimal_bits hi scale =? bits)%Z in
      if lo_reads && hi_reads then (round_half_even a b, scale)
      else if lo_reads then (lo, scale)
      else if hi_reads then (hi, scale)
      else shortest fuel' (p + 1) bits num den n
  end.

Fixpoint strip_zeros (fuel : nat) (c scale : Z) : Z * Z :=
  match fuel with
  | O => (c, scale)
  | S fuel' =>
      if (c mod 10 =? 0)%Z then strip_zeros fuel' (c / 10) (scale + 1)
      else (c, scale)
  end.

Fixpoint zeros (n : nat) : string :=
  match n with
  | O => EmptyString
  | S n' => String "0" (zeros n')
  end.

(** [float.__repr__] of a positive finite float with digits [ds] and the
    decimal point after [decpt] of them. *)
Definition place_point (ds : string) (decpt : Z) : string :=
  let len := Z.of_nat (String.length ds) in
  if ((decpt <=? -4) || (16 <? decpt))%Z then
    let x := (decpt - 1)%Z in
    let mantissa :=
      match ds with
      | String d EmptyString => ds
      | String d more => String d ("." ++ more)
      | EmptyString => ds
      end in
    let exponent := string_of_nat (Z.to_nat (Z.abs x)) in
    mantissa ++ "e" ++ (if (x <? 0)%Z then "-" else "+")
             ++ (if (Z.abs x <? 10)%Z then "0" else "") ++ exponent
  else if (decpt <=? 0)%Z then "0." ++ zeros (Z.to_nat (- decpt)) ++ ds
  else if (len <=? decpt)%Z then ds ++ zeros (Z.to_nat (decpt - len)) ++ ".0"
  else
    substring 0 (Z.to_nat decpt) ds ++ "."
      ++ substring (Z.to_nat decpt) (Z.to_nat (len - decpt)) ds.

(** [float.__repr__], with the names [json.dumps] gives to the values that
    are not numbers. *)
Definition float_repr (bits : Z) : string :=
  let negative := (2 ^ 63 <=? bits)%Z in
  let magnitude := (bits mod 2 ^ 63)%Z in
  let e := (magnitude / 2 ^ 52)%Z in
  let f := (magnitude mod 2 ^ 52)%Z in
  if (e =? 2047)%Z then
    if (f =? 0)%Z then (if negative then "-Infinity" else "Infinity")
    else "NaN"
  else
    (if negative then "-" else "")
    ++ (if (magnitude =? 0)%Z then "0.0"
        else
          let '(q, x) :=
            if (e =? 0)%Z then (f, -1074)%Z
            else (f + 2 ^ 52, e - 1075)%Z in
          let '(num, den) :=
            if (0 <=? x)%Z then (q * 2 ^ x, 1)%Z else (q, 2 ^ (- x))%Z in
          let n := log10_floor num den in
          let '(c, scale) := shortest 17 1 magnitude num den n in
          let '(c, scale) := strip_zeros 20 c scale in
          let ds := string_of_Z c in
          place_point ds (Z.of_nat (String.length ds) + scale)).

Fixpoint reference_dumps (v : pyval) : string :=
  match v with
  | PNone => "null"
  | PBool true => "true"
  | PBool false => "false"
  | PInt z => string_of_Z z
  | PFloat bits => float_repr bits
  | PStr s => quoted s
  | PList l =>
      "[" ++ (fix items (l : list pyval) : string :=
                match l with
                | [] => EmptyString
                | [x] => reference_dumps x
                | x :: l' => reference_dumps x ++ ", " ++ items l'
                end) l ++ "]"
  | PDict d =>
      "{" ++ (fix members (d : dict) : string :=
                match d with
                | [] => EmptyString
                | [(k, x)] => quoted k ++ ": " ++ reference_dumps x
                | (k, x) :: d' =>
                    quoted k ++ ": " ++ reference_dumps x ++ ", " ++ members d'
                end) d ++ "}"
  end.

Definition reference_json : JSON :=
  {| json_loads := reference_loads; json_dumps := reference_dumps |}.

(** ** The declared tools and the health route *)

Definition string_parameter (description : string) : pyval :=
  PDict [("type", PStr "string"); ("description", PStr description)].

(** [_get_tools(self)] *)
Definition _get_tools : list pyval :=
  [ PDict
      [("type", PStr "function");
       ("function",
        PDict
          [("name", PStr "record_user_details");
           ("description",
            PStr "Record user contact details when they're interested in getting in touch");
           ("parameters",
            PDict
              [("type", PStr "object");
               ("properties",
                PDict [("email", string_parameter "User's email");
                       ("name", string_parameter "User's name");
                       ("notes", string_parameter "Conversation context")]);
               ("required", PList [PStr "email"]);
               ("additionalProperties", PBool false)])])];
    PDict
      [("type", PStr "function");
       ("function",
        PDict
          [("name", PStr "record_unknown_question");
           ("description",
            PStr "Record questions that couldn't be answered");
           ("parameters",
            PDict
              [("type", PStr "object");
               ("properties",
                PDict [("question",
                        string_parameter "The unanswered question")]);
               ("required", PList [PStr "question"]);
               ("additionalProperties", PBool false)])])] ].

(** [health()] under [@app.route('/api/health', methods=['GET'])] *)
Definition health : Response :=
  {| status := 200; body := PDict [("status", PStr "healthy")] |}.

(** ** Vocabulary of the statements *)

(** The [chunk_id]s of a list of chunks, in order. *)
Definition chunk_ids (chunks : list DocumentChunk) : list nat :=
  map (fun chunk => chunk_id (metadata chunk)) chunks.

(** The test of [chunk_text] on a section. *)
Definition retained (section : string) : bool :=
  (50 <? String.length section)%nat.

(** [n] copies of a character. *)
Fixpoint repeat_char (c : ascii) (n : nat) : string :=
  match n with
  | O => EmptyString
  | S n' => String c (repeat_char c n')
  end.

(** A document whose first section is a short heading, followed by a
    paragraph of 60 characters. *)
Definition heading_then_paragraph : string :=
  "Experience" ++ nl ++ nl ++ repeat_char "x"%char 60.

(** The world once the store has answered one call: the schedule moved on,
    the tables and the console are as before. *)
Definition after_call (w : World) : World :=
  set_store (with_faults (tl (faults (store w))) (store w)) w.

(** The world once [line] was printed. *)
Definition printed (line : list fragment) (w : World) : World :=
  {| store := store w;
     stdout := (stdout w ++ [line])%list;
     requests := requests w |}.

(** The world once the store has taken [row] into table [t]. *)
Definition stored (t : table) (row : pyval) (w : World) : World :=
  set_store (add_row t row (store w)) w.

Definition empty_store : Supabase :=
  {| documents_rows := [];
     conversations_rows := [];
     leads_rows := [];
     unknown_questions_rows := [];
     faults := [] |}.

(** A world with empty tables whose store answers as scheduled. *)
Definition world_with_faults (fs : list (option string)) : World :=
  {| store := with_faults fs empty_store; stdout := []; requests := 0 |}.

(** [arguments] is a JSON object whose keys are all among [allowed] and
    include every key of [required]: what a handler called with
    [**arguments] accepts. *)
Definition accepts_keywords (allowed required : list string)
    (arguments : pyval) : bool :=
  match arguments with
  | PDict d =>
      forallb (fun kv => existsb (String.eqb (fst kv)) allowed) d
      && forallb (fun k => match dict_get d k with
                           | Some _ => true
                           | None => false
                           end) required
  | _ => false
  end.

Definition is_dict (v : pyval) : bool :=
  match v with PDict _ => true | _ => false end.

(** The decoded payload fits the handler [tool_name] selects: for a supported
    tool served by the store, what the handler called with [**arguments]
    accepts; for [record_unknown_question] without the store, a JSON object;
    anything otherwise. *)
Definition fits (self : AdityaChatbot) (tool_name : string)
    (arguments : pyval) : bool :=
  if String.eqb tool_name "record_user_details" then
    if supabase_enabled self then
      accepts_keywords ["email"; "name"; "notes"] ["email"] arguments
    else true
  else if String.eqb tool_name "record_unknown_question" then
    if supabase_enabled self then
      accepts_keywords ["question"] ["question"] arguments
    else is_dict arguments
  else true.

(** The dispatcher of [self] can carry out the tool call: the payload decodes
    as JSON and fits the handler. *)
Definition dispatchable (json : JSON) (self : AdityaChatbot)
    (tool_call : ToolCall) : bool :=
  match json_loads json (function_arguments tool_call) with
  | Raise _ => false
  | Ok arguments => fits self (function_name tool_call) arguments
  end.

(** The run of the dispatcher over a batch, request by request.
    [answered json self user_id w tool_calls results w'] holds when, starting
    in [w], each request in turn has its payload decoded and its name
    printed, its handler returns a result in the world the requests before
    it have left, and the envelope at its position has role "tool", that
    very result serialized as content, and the id of the request; [w'] is
    the world the last handler leaves. *)
Inductive answered (json : JSON) (self : AdityaChatbot) (user_id : pyval)
  : World -> list ToolCall -> list pyval -> World -> Prop :=
| answered_nil (w : World) : answered json self user_id w [] [] w
| answered_cons (w w1 w' : World) (tool_call : ToolCall)
    (rest : list ToolCall) (arguments result : pyval)
    (results : list pyval) :
    json_loads json (function_arguments tool_call) = Ok arguments ->
    tool_result self (function_name tool_call) arguments user_id
      (printed [Text "Tool called: "; Text (function_name tool_call)] w)
    = (Ok result, w1) ->
    answered json self user_id w1 rest results w' ->
    answered json self user_id w (tool_call :: rest)
      (PDict [("role", PStr "tool");
              ("content", PStr (json_dumps json result));
              ("tool_call_id", PStr (call_id tool_call))] :: results)
      w'.

Definition supported_tool (tool_name : string) : bool :=
  String.eqb tool_name "record_user_details"
  || String.eqb tool_name "record_unknown_question".

(** The chatbot [__init__] builds when the store is not configured and the
    two documents are missing, and one with the store enabled. *)
Definition offline_chatbot : AdityaChatbot :=
  {| name := "Aditya Mazumdar";
     supabase_enabled := false;
     resume := "Resume information unavailable";
     summary := "" |}.

Definition online_chatbot : AdityaChatbot :=
  {| name := "Aditya Mazumdar";
     supabase_enabled := true;
     resume := "Resume information unavailable";
     summary := "" |}.

Definition quote (s : string) : string :=
  String DQ (s ++ String DQ EmptyString).

(** A batch of two requests: a supported tool with a well-formed payload,
    then an unsupported tool whose payload is cut off after the brace. *)
Definition batch_with_truncated_payload : list ToolCall :=
  [ {| call_id := "call_1";
       function_name := "record_unknown_question";
       function_arguments :=
         "{" ++ quote "question" ++ ": " ++ quote "Do you ski?" ++ "}" |};
    {| call_id := "call_2";
       function_name := "get_weather";
       function_arguments := "{" |} ].

(** A batch of three well-formed requests, the second for an unsupported
    tool. *)
Definition batch_of_three : list ToolCall :=
  [ {| call_id := "call_1";
       function_name := "record_user_details";
       function_arguments := "{" ++ quote "email" ++ ": " ++ quote "a@b.com" ++ "}" |};
    {| call_id := "call_2";
       function_name := "get_weather";
       function_arguments := "{}" |};
    {| call_id := "call_3";
       function_name := "record_unknown_question";
       function_arguments :=
         "{" ++ quote "question" ++ ": " ++ quote "Do you ski?" ++ "}" |} ].

(** The completion ends the loop of [chat]: the call raised, or the finish
    reason is not "tool_calls". *)
Definition ends_loop (r : outcome ChatCompletion) : bool :=
  match r with
  | Ok response => negb (String.eqb (finish_reason response) "tool_calls")
  | Raise _ => true
  end.

(** The world once one more request went to the provider. *)
Definition sent (w : World) : World :=
  {| store := store w; stdout := stdout w; requests := S (requests w) |}.

(** A computation keeps [R] when every run takes a world to one related to
    it by [R]. *)
Definition keeps (R : World -> World -> Prop) {A} (m : M A) : Prop :=
  forall w, R w (snd (m w)).

(** Nothing was sent to the provider between [w] and [w']. *)
Definition same_requests (w w' : World) : Prop :=
  requests w' = requests w.

(** No fault is scheduled. *)
Definition quiet (w : World) : Prop :=
  Forall (fun f => f = None) (faults (store w)).

(** Between [w] and [w'] the [documents] table was not written, nothing was
    sent to the provider, and no fault was added to the schedule. *)
Definition same_documents (w w' : World) : Prop :=
  documents_rows (store w') = documents_rows (store w)
  /\ requests w' = requests w
  /\ (quiet w -> quiet w').

Definition ask_again : ChatCompletion :=
  {| finish_reason := "tool_calls";
     choice_message :=
       {| message_content := PNone;
          tool_calls :=
            [ {| call_id := "call_1";
                 function_name := "record_unknown_question";
                 function_arguments :=
                   "{" ++ quote "question" ++ ": " ++ quote "Do you ski?"
                       ++ "}" |} ] |} |}.

Definition plain_answer (text : string) : ChatCompletion :=
  {| finish_reason := "stop";
     choice_message := {| message_content := PStr text; tool_calls := [] |} |}.

(** A model that signals tool-call intent on every completion. *)
Definition always_tools : OpenAI :=
  {| embeddings_create := fun _ _ => Ok (PList []);
     chat_completions_create := fun _ _ => Ok ask_again |}.

(** The model signals tool-call intent on every completion response, and the
    dispatcher of [self] can carry out every batch it asks for. *)
Definition keeps_requesting_tools (json : JSON) (self : AdityaChatbot)
    (openai : OpenAI) : Prop :=
  forall n messages,
  exists response,
    chat_completions_create openai n messages = Ok response
    /\ finish_reason response = "tool_calls"
    /\ forallb (dispatchable json self)
         (tool_calls (choice_message response)) = true.

(** A model that asks for a tool at its first two requests and answers in
    plain text from then on. *)
Definition tools_twice : OpenAI :=
  {| embeddings_create := fun _ _ => Ok (PList []);
     chat_completions_create :=
       fun n _ => if (n <? 2)%nat then Ok ask_again
                  else Ok (plain_answer "I do not ski.") |}.

(** A completion that carries no text: the provider's content filter
    withheld it, and the [content] of its message, an optional string in the
    client's type, is [None]. *)
Definition withheld_answer : ChatCompletion :=
  {| finish_reason := "content_filter";
     choice_message := {| message_content := PNone; tool_calls := [] |} |}.

(** A model whose completions carry no text. *)
Definition withholds_content : OpenAI :=
  {| embeddings_create := fun _ _ => Ok (PList []);
     chat_completions_create := fun _ _ => Ok withheld_answer |}.

(** A provider that is out of reach. *)
Definition provider_down : OpenAI :=
  {| embeddings_create := fun _ _ => Raise (RemoteError "Connection error.");
     chat_completions_create :=
       fun _ _ => Raise (RemoteError "Connection error.") |}.

(** A ranking under which every record matches, in table order. *)
Definition every_record (query_embedding match_threshold : pyval)
    (records : list pyval) : list pyval := records.

(** The next call to the store goes through. *)
Definition query_succeeds (w : World) : bool :=
  match hd None (faults (store w)) with
  | None => true
  | Some _ => false
  end.

Definition record_with_content (text : string) : pyval :=
  PDict [("content", PStr text);
         ("metadata", PDict [("source", PStr "resume");
                             ("chunk_id", PInt 0)]);
         ("embedding", PList [])].

(** A world whose [documents] table holds [texts], with a fault schedule. *)
Definition world_with_documents (texts : list string)
    (fs : list (option string)) : World :=
  {| store :=
       {| documents_rows := map record_with_content texts;
          conversations_rows := [];
          leads_rows := [];
          unknown_questions_rows := [];
          faults := fs |};
     stdout := [];
     requests := 0 |}.

(** The world a run ends in, [w] if it does not end. *)
Definition final_world {A} (run : option (A * World)) (w : World) : World :=
  match run with
  | Some (_, w') => w'
  | None => w
  end.

(** What a configured process finds at startup: a résumé of one page that
    holds one paragraph of 60 characters, and an empty summary. *)
Definition configured_environment : Environment :=
  {| openai_client := Ok tt;
     SUPABASE_URL := Some "https://abc.supabase.co";
     SUPABASE_KEY := Some "service-key";
     create_client := Ok tt;
     Resume_pdf := Ok [Ok (repeat_char "x"%char 60)];
     summary_txt := Ok "" |}.

(** The [documents] table holds at least one record. *)
Definition has_documents (w : World) : bool :=
  match documents_rows (store w) with
  | [] => false
  | _ :: _ => true
  end.

(** From a world with documents and no scheduled fault, [w'] is reached
    without a write to [documents] and without a request to the provider. *)
Definition initialized_stays (w w' : World) : Prop :=
  quiet w -> has_documents w = true -> same_documents w w'.

(** A store that already holds one record, answers the connection test, and
    fails the next query. *)
Definition populated_then_failing : World :=
  world_with_documents ["Experience at Example Corp"]
    [None; Some "timeout"].

(** ** Vocabulary of the further statements *)

(** The separator of [chunk_text]: two line feeds. *)
Definition blank_line : string := String LF (String LF EmptyString).

(** A paragraph of 600 characters on ten lines, without a blank line. *)
Fixpoint lines_of (n : nat) (line : string) : string :=
  match n with
  | O => EmptyString
  | S O => line
  | S n' => line ++ nl ++ lines_of n' line
  end.

Definition long_paragraph : string :=
  lines_of 10 (repeat_char "y"%char 59).

(** [s] is empty or starts with a character that is not whitespace. *)
Definition starts_clean (s : string) : Prop :=
  match s with
  | EmptyString => True
  | String c _ => isspace c = false
  end.

(** [p] is empty or starts with the character [text] starts with. *)
Definition same_head (p text : string) : Prop :=
  match p, text with
  | EmptyString, _ => True
  | String a _, String b _ => a = b
  | String _ _, EmptyString => False
  end.

(** The pieces [split_blank] cuts [text] into hold no blank line, and the
    first one starts as [text] does. *)
Definition pieces_clean (text : string) : Prop :=
  same_head (fst (split_blank text)) text
  /\ contains blank_line (fst (split_blank text)) = false
  /\ Forall (fun p => contains blank_line p = false) (snd (split_blank text)).

Definition table_eqb (t t' : table) : bool :=
  match t, t' with
  | documents, documents
  | conversations, conversations
  | leads, leads
  | unknown_questions, unknown_questions => true
  | _, _ => false
  end.

(** The rows of table [t'] once a computation that tried to insert [row]
    into [t] has run from [w]: the row is added when the table is [t] and the
    store took the insert. *)
Definition rows_after_insert (t : table) (row : pyval) (t' : table)
    (w : World) : list pyval :=
  if query_succeeds w && table_eqb t t' then (rows t' (store w) ++ [row])%list
  else rows t' (store w).

(** The tables are the same in [w] and [w']. *)
Definition same_tables (w w' : World) : Prop :=
  forall t, rows t (store w') = rows t (store w).

(** The record [embed_documents] stores for a chunk. *)
Definition document_record (chunk : DocumentChunk) (embedding : pyval)
  : pyval :=
  PDict [("content", PStr (content chunk));
         ("metadata",
          PDict [("source", PStr (source (metadata chunk)));
                 ("chunk_id", PInt (Z.of_nat (chunk_id (metadata chunk))))]);
         ("embedding", embedding)].

(** The records of chunks paired with their embeddings. *)
Definition document_records (chunks : list DocumentChunk)
    (embeddings : list pyval) : list pyval :=
  map (fun ce => document_record (fst ce) (snd ce)) (combine chunks embeddings).

(** The chunks [embed_documents] works on: those of the résumé, then those
    of the summary. *)
Definition all_chunks (resume_text summary_text : string)
  : list DocumentChunk :=
  (chunk_text resume_text "resume" 500
     ++ chunk_text summary_text "summary" 500)%list.

(** [embeddings] are what the provider answers for the contents of [chunks]
    at the requests numbered from [n] on. *)
Fixpoint embeddings_answered (openai : OpenAI) (n : nat)
    (chunks : list DocumentChunk) (embeddings : list pyval) : Prop :=
  match chunks, embeddings with
  | [], [] => True
  | chunk :: chunks', e :: embeddings' =>
      embeddings_create openai n (PStr (content chunk)) = Ok e
      /\ embeddings_answered openai (S n) chunks' embeddings'
  | _, _ => False
  end.

(** A provider whose embedding of a text is the length of the text. *)
Definition length_embeddings : OpenAI :=
  {| embeddings_create :=
       fun _ text =>
         match text with
         | PStr s => Ok (PList [PInt (Z.of_nat (String.length s))])
         | _ => Raise (RemoteError "Invalid input")
         end;
     chat_completions_create := fun _ _ => Ok (plain_answer "Hello!") |}.

Definition is_ok {A} (o : outcome A) : bool :=
  match o with Ok _ => true | Raise _ => false end.

(** The connection attempt of startup goes through: the configuration
    passes the test, [create_client] returns, and the store answers the test
    query. *)
Definition connects (env : Environment) (w : World) : bool :=
  configured env && is_ok (create_client env) && query_succeeds w.

(** What the loaders return in [env]. *)
Definition loaded_resume (env : Environment) : string :=
  match Resume_pdf env with
  | Ok pages =>
      match map_outcome (fun page => page) pages with
      | Ok texts => join_pages texts
      | Raise _ => "Resume information unavailable"
      end
  | Raise _ => "Resume information unavailable"
  end.

Definition loaded_summary (env : Environment) : string :=
  match summary_txt env with
  | Ok text => text
  | Raise _ => EmptyString
  end.

(** A process whose store is configured with the placeholder URL of the
    template, and whose documents are missing. *)
Definition template_environment : Environment :=
  {| openai_client := Ok tt;
     SUPABASE_URL := Some "https://your-project.supabase.co";
     SUPABASE_KEY := Some "your-anon-key";
     create_client := Ok tt;
     Resume_pdf := Raise (OSError "No such file: Resume.pdf");
     summary_txt := Raise (OSError "No such file: summary.txt") |}.

(** Between [w] and [w'] the store was not called and nothing was sent to
    the provider. *)
Definition same_store (w w' : World) : Prop :=
  store w' = store w /\ requests w' = requests w.

(** The payload of the tool call decodes to a JSON object. *)
Definition decodes_to_object (json : JSON) (tool_call : ToolCall) : bool :=
  match json_loads json (function_arguments tool_call) with
  | Ok (PDict _) => true
  | _ => false
  end.

(** The envelopes that report the failures [msgs] for the requests
    [tool_calls], pairwise. *)
Definition error_envelopes (json : JSON) (tool_calls : list ToolCall)
    (msgs : list string) : list pyval :=
  map (fun cm => envelope json (PDict [("error", PStr (snd cm))]) (fst cm))
    (combine tool_calls msgs).

(** A batch of two requests for [record_user_details], neither with an
    [email]. *)
Definition batch_without_email : list ToolCall :=
  [ {| call_id := "call_1";
       function_name := "record_user_details";
       function_arguments := "{}" |};
    {| call_id := "call_2";
       function_name := "record_user_details";
       function_arguments :=
         "{" ++ quote "name" ++ ": " ++ quote "Ada" ++ "}" |} ].

(** The row [chat] asks the store to keep for an exchange. *)
Definition conversation_row (user_id message response : pyval) : pyval :=
  PDict [("user_id", user_id); ("message", message);
         ("response", response); ("metadata", PDict [])].

(** A model that answers in plain text at once. *)
Definition answers_at_once : OpenAI :=
  {| embeddings_create := fun _ _ => Ok (PList []);
     chat_completions_create := fun _ _ => Ok (plain_answer "Hello!") |}.

(** [part] occurs in [whole]. *)
Definition occurs_in (part whole : string) : Prop :=
  exists before after, whole = before ++ part ++ after.

Definition is_str (v : pyval) : bool :=
  match v with PStr _ => true | _ => false end.

(** The closing instruction of the system prompt, for [self.name]. *)
Definition closing_instruction (n : string) : string :=
  "With this context, please chat with the user, always staying in character as "
  ++ n ++ ". Be helpful, professional, and engaging!".

(** Reading a declared tool: [v[key]], [None] when there is none. *)
Definition field (v : pyval) (key : string) : pyval :=
  match v with
  | PDict d => from_default (dict_get d key) PNone
  | _ => PNone
  end.

Definition declared_name (tool : pyval) : pyval :=
  field (field tool "function") "name".

Definition declared_parameters (tool : pyval) : pyval :=
  field (field tool "function") "parameters".

(** The names of the declared properties, and the required ones. *)
Definition declared_properties (tool : pyval) : list string :=
  match field (declared_parameters tool) "properties" with
  | PDict d => map fst d
  | _ => []
  end.

Definition declared_required (tool : pyval) : list string :=
  match field (declared_parameters tool) "required" with
  | PList l =>
      flat_map (fun v => match v with PStr s => [s] | _ => [] end) l
  | _ => []
  end.

(** The payload is a JSON object that names only declared properties and
    all required ones, as a declaration without additional properties
    asks. *)
Definition declaration_accepts (tool arguments : pyval) : bool :=
  accepts_keywords (declared_properties tool) (declared_required tool)
    arguments.

(** A store whose [documents] table holds one record without a [content]
    between two regular ones. *)
Definition world_with_a_bare_record : World :=
  {| store :=
       {| documents_rows :=
            [record_with_content "A"; PDict [("id", PInt 2)];
             record_with_content "C"];
          conversations_rows := [];
          leads_rows := [];
          unknown_questions_rows := [];
          faults := [] |};
     stdout := [];
     requests := 0 |}.

(** A request to record a lead with a name and no notes. *)
Definition lead_request : ToolCall :=
  {| call_id := "call_7";
     function_name := "record_user_details";
     function_arguments :=
       "{" ++ quote "email" ++ ": " ++ quote "ada@example.org" ++ ", "
           ++ quote "name" ++ ": " ++ quote "Ada" ++ "}" |}.

(** * Properties *)

(** ** chunk_text *)

Lemma chunks_from_contents (src : string) (secs : list string) :
  forall i, map content (chunks_from src i secs) = filter retained secs.
Proof.
  induction secs as [|s secs IH]; intros i; simpl.
  - reflexivity.
  - unfold retained at 1.
    destruct (50 <? String.length s)%nat; simpl; now rewrite IH.
Qed.

Lemma chunks_from_position (src : string) (secs : list string) :
  forall i chunk,
    In chunk (chunks_from src i secs) ->
    source (metadata chunk) = src
    /\ i <= chunk_id (metadata chunk)
    /\ nth_error secs (chunk_id (metadata chunk) - i) = Some (content chunk)
    /\ retained (content chunk) = true.
Proof.
  induction secs as [|s secs IH]; intros i chunk Hin; simpl in Hin.
  - contradiction.
  - destruct (50 <? String.length s)%nat eqn:Hlen.
    + destruct Hin as [<- | Hin]; simpl.
      * rewrite Nat.sub_diag. repeat split; auto.
      * destruct (IH _ _ Hin) as (Hs & Hle & Hnth & Hr).
        repeat split; auto; try lia.
        replace (chunk_id (metadata chunk) - i)
          with (S (chunk_id (metadata chunk) - S i)) by lia.
        exact Hnth.
    + destruct (IH _ _ Hin) as (Hs & Hle & Hnth & Hr).
      repeat split; auto; try lia.
      replace (chunk_id (metadata chunk) - i)
        with (S (chunk_id (metadata chunk) - S i)) by lia.
      exact Hnth.
Qed.

Lemma chunks_from_lower_bound (src : string) (secs : list string) :
  forall i, Forall (fun k => i <= k) (chunk_ids (chunks_from src i secs)).
Proof.
  induction secs as [|s secs IH]; intros i; simpl.
  - constructor.
  - assert (Hrest : Forall (fun k => i <= k)
                      (chunk_ids (chunks_from src (S i) secs))).
    { eapply Forall_impl; [|apply IH]. simpl. intros; lia. }
    destruct (50 <? String.length s)%nat; simpl; auto.
Qed.

Lemma chunks_from_increasing (src : string) (secs : list string) :
  forall i, StronglySorted lt (chunk_ids (chunks_from src i secs)).
Proof.
  induction secs as [|s secs IH]; intros i; simpl.
  - constructor.
  - destruct (50 <? String.length s)%nat; simpl; auto.
    constructor; auto.
    eapply Forall_impl; [|apply chunks_from_lower_bound].
    simpl. intros; lia.
Qed.

Lemma chunks_from_cons (src : string) (i : nat) (s : string)
    (secs : list string) :
  chunks_from src i (s :: secs)
  = if retained s then
      {| content := s; metadata := {| source := src; chunk_id := i |} |}
        :: chunks_from src (S i) secs
    else chunks_from src (S i) secs.
Proof. reflexivity. Qed.

Lemma chunks_from_dense_iff (src : string) (secs : list string) :
  forall i,
    chunk_ids (chunks_from src i secs)
      = seq i (length (chunks_from src i secs))
    <-> forallb retained (firstn (length (chunks_from src i secs)) secs)
        = true.
Proof.
  induction secs as [|s secs IH]; intros i.
  - split; reflexivity.
  - rewrite chunks_from_cons.
    destruct (retained s) eqn:Hlen.
    + cbn [length chunk_ids map seq firstn forallb metadata chunk_id].
      rewrite Hlen, andb_true_l.
      fold (chunk_ids (chunks_from src (S i) secs)).
      rewrite <- IH.
      split; [intros H; now injection H | intros ->; reflexivity].
    + pose proof (chunks_from_lower_bound src secs (S i)) as Hlb.
      destruct (chunks_from src (S i) secs) as [|c cs].
      * split; reflexivity.
      * cbn [length chunk_ids map seq firstn forallb].
        rewrite Hlen, andb_false_l.
        split; [|discriminate].
        intros H. injection H as H _.
        inversion Hlb; subst. lia.
Qed.

(** C1, as the code has it.  For every text and source label, the [chunk_id]
    of a returned chunk is the zero-based position of the chunk's section
    among all the non-empty trimmed sections of the text, retained and
    discarded alike; the chunk carries the source label; the [chunk_id]s are
    strictly increasing; and they are exactly 0, 1, ..., n-1 if and only if
    the first n sections are all retained, that is, no discarded section
    comes before a retained one. *)
Theorem chunk_id_is_section_position (text src : string) (chunk_size : nat) :
  let chunks := chunk_text text src chunk_size in
  (forall chunk, In chunk chunks ->
     source (metadata chunk) = src
     /\ nth_error (sections text) (chunk_id (metadata chunk))
        = Some (content chunk))
  /\ StronglySorted lt (chunk_ids chunks)
  /\ (chunk_ids chunks = seq 0 (length chunks)
      <-> forallb retained (firstn (length chunks) (sections text)) = true).
Proof.
  unfold chunk_text. cbv zeta. split; [|split].
  - intros chunk Hin.
    destruct (chunks_from_position _ _ _ _ Hin) as (Hs & _ & Hnth & _).
    rewrite Nat.sub_0_r in Hnth. now split.
  - apply chunks_from_increasing.
  - apply chunks_from_dense_iff.
Qed.

(** C1, counterexample.  A short heading followed by one paragraph of 60
    characters: one chunk is returned, and its [chunk_id] is 1, not 0. *)
Lemma chunk_ids_not_dense :
  chunk_ids (chunk_text heading_then_paragraph "resume" 500) = [1]
  /\ chunk_ids (chunk_text heading_then_paragraph "resume" 500)
     <> seq 0 (length (chunk_text heading_then_paragraph "resume" 500)).
Proof.
  split; [reflexivity | vm_compute; discriminate].
Qed.

(** The contents of the chunks are the sections longer than 50 characters, in
    order: a section is retained exactly when its length exceeds 50. *)
Lemma chunk_text_contents (text src : string) (chunk_size : nat) :
  map content (chunk_text text src chunk_size)
  = filter (fun section => (50 <? String.length section)%nat) (sections text).
Proof.
  unfold chunk_text. apply chunks_from_contents.
Qed.

(** C3, at the failing input.  A text that is one section of exactly 50
    characters: the section has the minimum chunk size, and no chunk is
    returned; with one character more the section is retained. *)
Theorem section_of_50_characters_is_discarded :
  sections (repeat_char "x"%char 50) = [repeat_char "x"%char 50]
  /\ String.length (repeat_char "x"%char 50) = 50
  /\ chunk_text (repeat_char "x"%char 50) "resume" 500 = []
  /\ map content (chunk_text (repeat_char "x"%char 51) "resume" 500)
     = [repeat_char "x"%char 51].
Proof.
  repeat split; reflexivity.
Qed.

(** ** The store's calls *)

Lemma execute_fails (msg : string) (w : World) :
  hd None (faults (store w)) = Some msg ->
  execute w = (Raise (RemoteError msg), after_call w).
Proof. unfold execute. intros ->. reflexivity. Qed.

Lemma execute_succeeds (w : World) :
  hd None (faults (store w)) = None ->
  execute w = (Ok tt, after_call w).
Proof. unfold execute. intros ->. reflexivity. Qed.

Lemma insert_fails (t : table) (row : pyval) (msg : string) (w : World) :
  hd None (faults (store w)) = Some msg ->
  insert t row w = (Raise (RemoteError msg), after_call w).
Proof.
  intros H. unfold insert, bind. now rewrite (execute_fails _ H).
Qed.

Lemma insert_succeeds (t : table) (row : pyval) (w : World) :
  hd None (faults (store w)) = None ->
  insert t row w = (Ok tt, stored t row (after_call w)).
Proof.
  intros H. unfold insert, bind. now rewrite (execute_succeeds _ H).
Qed.

(** ** ConversationStore *)

(** C4, as the code has it.  When the insert of a write operation fails with
    message [msg], the operation prints its error line and does not raise;
    [record_user_details] and [record_unknown_question] return
    [{error: msg}], and [save_conversation] returns [None], as it does when
    the insert succeeds.  No table changes. *)
Theorem failed_writes_are_logged_not_raised
    (user_id message response email question : pyval)
    (metadata name notes : option pyval) (msg : string) (w : World) :
  hd None (faults (store w)) = Some msg ->
  save_conversation user_id message response metadata w
  = (Ok PNone,
     printed [Text "Error saving conversation: "; Text msg] (after_call w))
  /\ record_user_details user_id email name notes w
     = (Ok (PDict [("error", PStr msg)]),
        printed [Text "Error recording user: "; Text msg] (after_call w))
  /\ record_unknown_question question w
     = (Ok (PDict [("error", PStr msg)]),
        printed [Text "Error recording question: "; Text msg] (after_call w)).
Proof.
  intros H. repeat split.
  - unfold save_conversation, bind, try_except.
    now rewrite (insert_fails _ _ _ H).
  - unfold record_user_details, bind, try_except.
    now rewrite (insert_fails _ _ _ H).
  - unfold record_unknown_question, bind, try_except.
    now rewrite (insert_fails _ _ _ H).
Qed.

Lemma failed_writes_witness :
  let w := world_with_faults [Some "connection refused"] in
  save_conversation (PStr "u1") (PStr "Hi") (PStr "Hello!") None w
  = (Ok PNone,
     printed [Text "Error saving conversation: "; Text "connection refused"]
       (after_call w))
  /\ record_user_details (PStr "u1") (PStr "a@b.com") None None w
     = (Ok (PDict [("error", PStr "connection refused")]),
        printed [Text "Error recording user: "; Text "connection refused"]
          (after_call w))
  /\ record_unknown_question (PStr "Who?") w
     = (Ok (PDict [("error", PStr "connection refused")]),
        printed [Text "Error recording question: "; Text "connection refused"]
          (after_call w)).
Proof.
  exact (@failed_writes_are_logged_not_raised
           (PStr "u1") (PStr "Hi") (PStr "Hello!") (PStr "a@b.com")
           (PStr "Who?") None None None "connection refused"
           (world_with_faults [Some "connection refused"]) eq_refl).
Defined.

(** C4, counterexample.  With the store refusing the insert,
    [save_conversation] returns [None], not [{error: message}]. *)
Lemma save_conversation_returns_none_on_failure :
  fst (save_conversation (PStr "u1") (PStr "Hi") (PStr "Hello!") None
         (world_with_faults [Some "connection refused"]))
  = Ok PNone
  /\ fst (save_conversation (PStr "u1") (PStr "Hi") (PStr "Hello!") None
            (world_with_faults [Some "connection refused"]))
     <> Ok (PDict [("error", PStr "connection refused")]).
Proof.
  split; [reflexivity | vm_compute; discriminate].
Qed.

(** The lead the store receives from [record_user_details] when both optional
    arguments are omitted. *)
Lemma record_user_details_defaults (user_id email : pyval) (w : World) :
  hd None (faults (store w)) = None ->
  record_user_details user_id email None None w
  = (Ok (PDict [("recorded", PStr "ok"); ("email", email)]),
     printed [Text "✓ Recorded lead: "; StrOf email]
       (stored leads
          (PDict [("user_id", user_id); ("email", email);
                  ("name", PStr "Not provided"); ("notes", PStr "")])
          (after_call w))).
Proof.
  intros H. unfold record_user_details, bind, try_except.
  now rewrite (insert_succeeds _ _ _ H).
Qed.

(** ** Calling with keyword arguments *)

Lemma check_keywords_raises (fname : string) (taken allowed : list string)
    (d : dict) (e : exn) :
  check_keywords fname taken allowed d = Raise e ->
  exists msg, e = TypeError msg.
Proof.
  induction d as [|[k v] d IH]; cbn [check_keywords]; [discriminate|].
  destruct (existsb (String.eqb k) allowed); [exact IH|].
  destruct (existsb (String.eqb k) taken); intros H; injection H as <-; eauto.
Qed.

Lemma check_keywords_ok (fname : string) (taken allowed : list string)
    (d : dict) :
  check_keywords fname taken allowed d = Ok tt
  <-> forallb (fun kv => existsb (String.eqb (fst kv)) allowed) d = true.
Proof.
  induction d as [|[k v] d IH]; cbn [check_keywords forallb fst].
  - split; reflexivity.
  - destruct (existsb (String.eqb k) allowed); cbn [andb]; [exact IH|].
    destruct (existsb (String.eqb k) taken); split; discriminate.
Qed.

Lemma check_required_raises (fname : string) (required : list string)
    (d : dict) (e : exn) :
  check_required fname required d = Raise e ->
  exists msg, e = TypeError msg.
Proof.
  induction required as [|k required IH]; cbn [check_required];
    [discriminate|].
  destruct (dict_get d k); [exact IH|].
  intros H; injection H as <-; eauto.
Qed.

Lemma check_required_ok (fname : string) (required : list string) (d : dict) :
  check_required fname required d = Ok tt
  <-> forallb (fun k => match dict_get d k with
                        | Some _ => true
                        | None => false
                        end) required = true.
Proof.
  induction required as [|k required IH]; cbn [check_required forallb].
  - split; reflexivity.
  - destruct (dict_get d k); cbn [andb]; [exact IH|].
    split; discriminate.
Qed.

(** Binding succeeds exactly on the payloads [accepts_keywords] describes,
    and a payload that does not bind raises [TypeError]. *)
Lemma bind_keywords_spec (fname : string)
    (taken allowed required : list string) (arguments : pyval) :
  (accepts_keywords allowed required arguments = true
   /\ exists d, arguments = PDict d
                /\ bind_keywords fname taken allowed required arguments = Ok d)
  \/ (accepts_keywords allowed required arguments = false
      /\ exists msg, bind_keywords fname taken allowed required arguments
                     = Raise (TypeError msg)).
Proof.
  destruct arguments as [| | | | | |d];
    try (right; split; [reflexivity | cbn [bind_keywords]; eauto]).
  cbn [bind_keywords accepts_keywords].
  destruct (check_keywords fname taken allowed d) as [[]|e] eqn:Hk.
  - apply check_keywords_ok in Hk. rewrite Hk, andb_true_l.
    destruct (check_required fname required d) as [[]|e] eqn:Hr.
    + apply check_required_ok in Hr. rewrite Hr. left. eauto.
    + right. split.
      * destruct (forallb _ required) eqn:Hf; [|reflexivity].
        apply (check_required_ok fname) in Hf. congruence.
      * destruct (check_required_raises _ _ _ Hr) as [msg ->]. eauto.
  - right. split.
    + destruct (forallb _ d) eqn:Hf; [|reflexivity].
      apply (check_keywords_ok fname taken) in Hf. congruence.
    + destruct (check_keywords_raises _ _ _ _ Hk) as [msg ->]. eauto.
Qed.

Lemma accepts_requires (allowed : list string) (k : string) (d : dict) :
  dict_get d k = None ->
  accepts_keywords allowed [k] (PDict d) = false.
Proof.
  intros H. cbn [accepts_keywords forallb]. rewrite H.
  now rewrite andb_false_r.
Qed.

(** C9.  [record_user_details] called with a user id and only an email: the
    call binds (a payload that holds only [email] is enough), and when the
    store takes the insert, the lead added to [leads] has [name] "Not
    provided" and [notes] empty.  A payload without [email] does not bind:
    the call raises [TypeError]. *)
Theorem lead_with_only_email (user_id email : pyval) (w : World) :
  hd None (faults (store w)) = None ->
  call_record_user_details user_id (PDict [("email", email)]) w
  = record_user_details user_id email None None w
  /\ (exists w',
        record_user_details user_id email None None w
        = (Ok (PDict [("recorded", PStr "ok"); ("email", email)]), w')
        /\ leads_rows (store w')
           = (leads_rows (store w)
                ++ [PDict [("user_id", user_id); ("email", email);
                           ("name", PStr "Not provided");
                           ("notes", PStr "")]])%list)
  /\ (forall d, dict_get d "email" = None ->
        exists msg,
          call_record_user_details user_id (PDict d) w
          = (Raise (TypeError msg), w)).
Proof.
  intros H. split; [reflexivity | split].
  - eexists. split; [apply (record_user_details_defaults _ _ _ H)|].
    reflexivity.
  - intros d Hd. unfold call_record_user_details, bind, lift.
    destruct (bind_keywords_spec "ConversationStore.record_user_details"
                ["self"; "user_id"] ["email"; "name"; "notes"] ["email"]
                (PDict d)) as [[Ha _] | [_ [msg ->]]]; [|eauto].
    rewrite (accepts_requires _ _ _ Hd) in Ha. discriminate.
Qed.

Lemma lead_with_only_email_witness :
  exists w',
    record_user_details (PStr "visitor-1") (PStr "a@b.com") None None
      (world_with_faults [])
    = (Ok (PDict [("recorded", PStr "ok"); ("email", PStr "a@b.com")]), w')
    /\ leads_rows (store w')
       = [PDict [("user_id", PStr "visitor-1"); ("email", PStr "a@b.com");
                 ("name", PStr "Not provided"); ("notes", PStr "")]].
Proof.
  exact (proj1 (proj2 (@lead_with_only_email
                         (PStr "visitor-1") (PStr "a@b.com")
                         (world_with_faults []) eq_refl))).
Defined.

(** ** The tool dispatcher *)

Lemma record_user_details_returns (user_id email : pyval)
    (name notes : option pyval) (w : World) :
  exists result w',
    record_user_details user_id email name notes w = (Ok result, w').
Proof.
  unfold record_user_details, try_except, bind, ret.
  destruct (insert leads _ w) as [[[]|e] w1]; cbn; eauto.
Qed.

Lemma record_unknown_question_returns (question : pyval) (w : World) :
  exists result w', record_unknown_question question w = (Ok result, w').
Proof.
  unfold record_unknown_question, try_except, bind, ret.
  destruct (insert unknown_questions _ w) as [[[]|e] w1]; cbn; eauto.
Qed.

Lemma tool_result_returns (self : AdityaChatbot) (tool_name : string)
    (arguments user_id : pyval) (w : World) :
  fits self tool_name arguments = true ->
  exists result w',
    tool_result self tool_name arguments user_id w = (Ok result, w').
Proof.
  unfold fits, tool_result.
  destruct (String.eqb tool_name "record_user_details").
  { destruct (supabase_enabled self); [|unfold bind, print, ret; eauto].
    intros Ha. unfold call_record_user_details, bind, lift.
    destruct (bind_keywords_spec "ConversationStore.record_user_details"
                ["self"; "user_id"] ["email"; "name"; "notes"] ["email"]
                arguments) as [[_ (d & _ & ->)] | [Hn _]]; [|congruence].
    apply record_user_details_returns. }
  destruct (String.eqb tool_name "record_unknown_question").
  { destruct (supabase_enabled self).
    - intros Ha. unfold call_record_unknown_question, bind, lift.
      destruct (bind_keywords_spec "ConversationStore.record_unknown_question"
                  ["self"] ["question"] ["question"] arguments)
        as [[_ (d & _ & ->)] | [Hn _]]; [|congruence].
      apply record_unknown_question_returns.
    - destruct arguments; try discriminate. intros _.
      unfold bind, lift, py_get, print, ret. eauto. }
  intros _. unfold ret. eauto.
Qed.

Lemma tool_result_raises (self : AdityaChatbot) (tool_name : string)
    (arguments user_id : pyval) (w : World) :
  fits self tool_name arguments = false ->
  exists e, tool_result self tool_name arguments user_id w = (Raise e, w).
Proof.
  unfold fits, tool_result.
  destruct (String.eqb tool_name "record_user_details").
  { destruct (supabase_enabled self); [|discriminate].
    intros Ha. unfold call_record_user_details, bind, lift.
    destruct (bind_keywords_spec "ConversationStore.record_user_details"
                ["self"; "user_id"] ["email"; "name"; "notes"] ["email"]
                arguments) as [[Hy _] | [_ [msg ->]]]; [congruence|eauto]. }
  destruct (String.eqb tool_name "record_unknown_question").
  { destruct (supabase_enabled self).
    - intros Ha. unfold call_record_unknown_question, bind, lift.
      destruct (bind_keywords_spec "ConversationStore.record_unknown_question"
                  ["self"] ["question"] ["question"] arguments)
        as [[Hy _] | [_ [msg ->]]]; [congruence|eauto].
    - destruct arguments; try discriminate; intros _;
        unfold bind, lift, py_get; eauto. }
  discriminate.
Qed.

Lemma tool_result_unknown (self : AdityaChatbot) (tool_name : string)
    (arguments user_id : pyval) (w : World) :
  supported_tool tool_name = false ->
  tool_result self tool_name arguments user_id w
  = (Ok (PDict [("error", PStr "Unknown tool")]), w).
Proof.
  unfold supported_tool, tool_result. intros H.
  apply orb_false_elim in H as [-> ->]. reflexivity.
Qed.

Lemma dispatchable_fits (json : JSON) (self : AdityaChatbot)
    (tool_call : ToolCall) :
  dispatchable json self tool_call
  = match json_loads json (function_arguments tool_call) with
    | Ok arguments => fits self (function_name tool_call) arguments
    | Raise _ => false
    end.
Proof. reflexivity. Qed.

Lemma handle_tool_call_returns (json : JSON) (self : AdityaChatbot)
    (tool_call : ToolCall) (user_id : pyval) (w : World) :
  dispatchable json self tool_call = true ->
  exists arguments result w',
    json_loads json (function_arguments tool_call) = Ok arguments
    /\ tool_result self (function_name tool_call) arguments user_id
         (printed [Text "Tool called: "; Text (function_name tool_call)] w)
       = (Ok result, w')
    /\ handle_tool_call json self tool_call user_id w
       = (Ok (PDict [("role", PStr "tool");
                     ("content", PStr (json_dumps json result));
                     ("tool_call_id", PStr (call_id tool_call))]), w')
    /\ (supported_tool (function_name tool_call) = false ->
        result = PDict [("error", PStr "Unknown tool")]).
Proof.
  rewrite dispatchable_fits. unfold handle_tool_call, bind, lift.
  destruct (json_loads json (function_arguments tool_call))
    as [arguments|e] eqn:Hl; [|discriminate].
  intros Hf. cbn [print].
  fold (printed [Text "Tool called: "; Text (function_name tool_call)] w).
  destruct (tool_result_returns self (function_name tool_call) arguments
              user_id
              (printed [Text "Tool called: "; Text (function_name tool_call)]
                 w) Hf) as (result & w' & Hr).
  exists arguments, result, w'. rewrite Hr. cbn [ret].
  repeat split.
  intros Hs.
  rewrite (tool_result_unknown self (function_name tool_call) arguments
             user_id _ Hs) in Hr.
  now injection Hr as <- _.
Qed.

Lemma handle_tool_call_raises (json : JSON) (self : AdityaChatbot)
    (tool_call : ToolCall) (user_id : pyval) (w : World) :
  dispatchable json self tool_call = false ->
  exists e w', handle_tool_call json self tool_call user_id w = (Raise e, w').
Proof.
  rewrite dispatchable_fits. unfold handle_tool_call, bind, lift.
  destruct (json_loads json (function_arguments tool_call))
    as [arguments|e] eqn:Hl; [|eauto].
  intros Hf. cbn [print].
  match goal with
  | |- context [tool_result _ _ _ _ ?w1] =>
      destruct (tool_result_raises self (function_name tool_call) arguments
                  user_id w1 Hf) as (e & ->)
  end.
  eauto.
Qed.

Lemma handle_tool_calls_cons (json : JSON) (self : AdityaChatbot)
    (tool_call : ToolCall) (rest : list ToolCall) (user_id : pyval)
    (w : World) :
  _handle_tool_calls json self (tool_call :: rest) user_id w
  = match handle_tool_call json self tool_call user_id w with
    | (Raise e, w1) => (Raise e, w1)
    | (Ok r, w1) =>
        match _handle_tool_calls json self rest user_id w1 with
        | (Raise e, w2) => (Raise e, w2)
        | (Ok results, w2) => (Ok (r :: results), w2)
        end
    end.
Proof.
  cbn [_handle_tool_calls]. unfold bind at 1.
  destruct (handle_tool_call json self tool_call user_id w) as [[r|e] w1];
    [|reflexivity].
  unfold bind.
  destruct (_handle_tool_calls json self rest user_id w1) as [[rs|e] w2];
    reflexivity.
Qed.

(** The dispatcher either answers the whole batch or raises; it answers when
    every request is dispatchable. *)
Lemma dispatcher_raises_or_returns (json : JSON) (self : AdityaChatbot)
    (tool_calls : list ToolCall) (user_id : pyval) (w : World) :
  (exists results w',
     _handle_tool_calls json self tool_calls user_id w = (Ok results, w'))
  \/ (exists e w',
        _handle_tool_calls json self tool_calls user_id w = (Raise e, w')
        /\ forallb (dispatchable json self) tool_calls = false).
Proof.
  revert w. induction tool_calls as [|tool_call rest IH]; intros w.
  - left. exists [], w. reflexivity.
  - rewrite handle_tool_calls_cons. cbn [forallb].
    destruct (dispatchable json self tool_call) eqn:Hd; cbn [andb].
    + destruct (handle_tool_call_returns json self tool_call user_id w Hd)
        as (arguments & result & w1 & _ & _ & -> & _).
      destruct (IH w1) as [(results & w' & ->) | (e & w' & -> & Hnd)];
        [left | right]; eauto.
    + destruct (handle_tool_call_raises json self tool_call user_id w Hd)
        as (e & w' & ->).
      right. eauto.
Qed.

(** One request that is not dispatchable makes the whole batch raise: no
    envelope is returned, not even for the requests before it. *)
Lemma dispatcher_raises_on_undispatchable_request
    (json : JSON) (self : AdityaChatbot) (tool_calls : list ToolCall)
    (user_id : pyval) :
  forallb (dispatchable json self) tool_calls = false ->
  forall w,
  exists e w', _handle_tool_calls json self tool_calls user_id w = (Raise e, w').
Proof.
  induction tool_calls as [|tool_call rest IH]; intros Hall w;
    [discriminate|].
  cbn [forallb] in Hall. cbn [_handle_tool_calls]. unfold bind at 1.
  destruct (dispatchable json self tool_call) eqn:Hd.
  - destruct (handle_tool_call_returns json self tool_call user_id w Hd)
      as (arguments & result & w1 & _ & _ & -> & _).
    destruct (IH Hall w1) as (e & w' & Hrs).
    unfold bind at 1. rewrite Hrs. eauto.
  - destruct (handle_tool_call_raises json self tool_call user_id w Hd)
      as (e & w' & ->).
    eauto.
Qed.

(** C5, as the code has it.  For every sequence of N requested tool calls
    each of which is dispatchable (its payload decodes as JSON and, for a
    supported tool, fits the handler) and every user id, the dispatcher
    returns exactly N envelopes, in the order of the requests, each with role
    "tool", the id of its request, and as content the serialization of the
    result its handler returned in this very run, in the world the requests
    before it left; a dispatchable request for a tool that is neither
    [record_user_details] nor [record_unknown_question] gets the result
    [{error: "Unknown tool"}].  A batch with a request that is not
    dispatchable makes the dispatcher raise, and no envelope is returned. *)
Theorem dispatcher_answers_every_dispatchable_request
    (json : JSON) (self : AdityaChatbot) (tool_calls : list ToolCall)
    (user_id : pyval) :
  (forallb (dispatchable json self) tool_calls = true ->
   forall w,
   exists results w',
     _handle_tool_calls json self tool_calls user_id w = (Ok results, w')
     /\ length results = length tool_calls
     /\ answered json self user_id w tool_calls results w'
     /\ (forall i tool_call,
           nth_error tool_calls i = Some tool_call ->
           supported_tool (function_name tool_call) = false ->
           nth_error results i
           = Some (PDict [("role", PStr "tool");
                          ("content",
                           PStr (json_dumps json
                                   (PDict [("error", PStr "Unknown tool")])));
                          ("tool_call_id", PStr (call_id tool_call))])))
  /\ (forallb (dispatchable json self) tool_calls = false ->
      forall w,
      exists e w',
        _handle_tool_calls json self tool_calls user_id w = (Raise e, w')).
Proof.
  split; [|apply dispatcher_raises_on_undispatchable_request].
  induction tool_calls as [|tool_call rest IH]; intros Hall w.
  - exists [], w. repeat split; [constructor|].
    intros [|i] tc H; discriminate.
  - cbn [forallb] in Hall. apply andb_prop in Hall as [Hd Hrest].
    destruct (handle_tool_call_returns json self tool_call user_id w Hd)
      as (arguments & result & w1 & Hl & Hr & Hrun & Hunk).
    destruct (IH Hrest w1) as (results & w' & Hrs & Hlen & Hans & Hnth).
    rewrite handle_tool_calls_cons, Hrun, Hrs.
    do 2 eexists. split; [reflexivity|].
    split; [cbn [length]; now rewrite Hlen|].
    split; [eapply answered_cons; eassumption|].
    intros [|i] tc Hi Hs; cbn [nth_error] in *.
    + injection Hi as <-. now rewrite (Hunk Hs).
    + eauto.
Qed.

Lemma dispatcher_answers_witness :
  exists results w',
    _handle_tool_calls reference_json online_chatbot batch_of_three
      (PStr "visitor-1") (world_with_faults [])
    = (Ok results, w')
    /\ length results = 3
    /\ answered reference_json online_chatbot (PStr "visitor-1")
         (world_with_faults []) batch_of_three results w'
    /\ nth_error results 1
       = Some (PDict [("role", PStr "tool");
                      ("content",
                       PStr (reference_dumps
                               (PDict [("error", PStr "Unknown tool")])));
                      ("tool_call_id", PStr "call_2")]).
Proof.
  assert (Hd : forallb (dispatchable reference_json online_chatbot)
                 batch_of_three = true) by (vm_compute; reflexivity).
  destruct (proj1 (@dispatcher_answers_every_dispatchable_request
                     reference_json online_chatbot batch_of_three
                     (PStr "visitor-1")) Hd (world_with_faults []))
    as (results & w' & Hrun & Hlen & Hans & Hunknown).
  exists results, w'. split; [exact Hrun|]. split; [exact Hlen|].
  split; [exact Hans|].
  exact (Hunknown 1 _ eq_refl eq_refl).
Defined.

(** C5, counterexample.  A batch of two requests whose second payload is cut
    off after its brace: the decoding of that payload raises, so the
    dispatcher raises and returns no envelope at all, although the second
    request names an unsupported tool and the first request was carried
    out. *)
Lemma truncated_payload_fails_the_batch :
  fst (_handle_tool_calls reference_json offline_chatbot
         batch_with_truncated_payload (PStr "visitor-1")
         (world_with_faults []))
  = Raise (JSONDecodeError
             ("Expecting property name enclosed in double quotes: "
                ++ "line 1 column 2 (char 1)"))
  /\ ~ (exists results,
          fst (_handle_tool_calls reference_json offline_chatbot
                 batch_with_truncated_payload (PStr "visitor-1")
                 (world_with_faults []))
          = Ok results
          /\ length results = length batch_with_truncated_payload).
Proof.
  assert (H : fst (_handle_tool_calls reference_json offline_chatbot
                     batch_with_truncated_payload (PStr "visitor-1")
                     (world_with_faults []))
              = Raise (JSONDecodeError
                         ("Expecting property name enclosed in double "
                            ++ "quotes: line 1 column 2 (char 1)")))
    by (vm_compute; reflexivity).
  split; [exact H|].
  intros (results & Hr & _). rewrite H in Hr. discriminate.
Qed.

(** ** What a computation leaves as it was *)

Section Frame.

Variable R : World -> World -> Prop.
Hypothesis R_refl : forall w, R w w.
Hypothesis R_trans : forall a b c, R a b -> R b c -> R a c.

Lemma keeps_ret {A} (a : A) : keeps R (ret a).
Proof. intros w. apply R_refl. Qed.

Lemma keeps_raise {A} (e : exn) : keeps R (@raise A e).
Proof. intros w. apply R_refl. Qed.

Lemma keeps_lift {A} (o : outcome A) : keeps R (lift o).
Proof. intros w. apply R_refl. Qed.

Lemma keeps_bind {A B} (m : M A) (k : A -> M B) :
  keeps R m -> (forall a, keeps R (k a)) -> keeps R (bind m k).
Proof.
  intros Hm Hk w. unfold bind. specialize (Hm w).
  destruct (m w) as [[a|e] w1]; cbn [snd] in *; [|exact Hm].
  exact (R_trans Hm (Hk a w1)).
Qed.

Lemma keeps_try_except {A} (m : M A) (h : exn -> M A) :
  keeps R m -> (forall e, keeps R (h e)) -> keeps R (try_except m h).
Proof.
  intros Hm Hh w. unfold try_except. specialize (Hm w).
  destruct (m w) as [[a|e] w1]; cbn [snd] in *; [exact Hm|].
  exact (R_trans Hm (Hh e w1)).
Qed.

End Frame.

Lemma same_requests_refl (w : World) : same_requests w w.
Proof. reflexivity. Qed.

Lemma same_requests_trans (a b c : World) :
  same_requests a b -> same_requests b c -> same_requests a c.
Proof. unfold same_requests. congruence. Qed.

Lemma same_documents_refl (w : World) : same_documents w w.
Proof. repeat split; auto. Qed.

Lemma same_documents_trans (a b c : World) :
  same_documents a b -> same_documents b c -> same_documents a c.
Proof.
  unfold same_documents. intros (Hd & Hr & Hq) (Hd' & Hr' & Hq').
  repeat split; try congruence. auto.
Qed.

Lemma print_same_requests (line : list fragment) :
  keeps same_requests (print line).
Proof. intros w. reflexivity. Qed.

Lemma print_same_documents (line : list fragment) :
  keeps same_documents (print line).
Proof. intros w. repeat split; auto. Qed.

Lemma execute_same_requests : keeps same_requests execute.
Proof.
  intros w. unfold execute. now destruct (hd None (faults (store w))).
Qed.

Lemma execute_same_documents : keeps same_documents execute.
Proof.
  intros w. unfold execute, same_documents, quiet.
  assert (Hq : Forall (fun f => f = None) (faults (store w)) ->
               Forall (fun f : option string => f = None)
                 (tl (faults (store w)))).
  { intros H. destruct H; cbn [tl]; auto. }
  destruct (hd None (faults (store w))); repeat split; exact Hq.
Qed.

Lemma insert_same_requests (t : table) (row : pyval) :
  keeps same_requests (insert t row).
Proof.
  unfold insert.
  apply (@keeps_bind same_requests same_requests_trans); [apply execute_same_requests|].
  intros _ w. reflexivity.
Qed.

Lemma select_same_documents (t : table) :
  keeps same_documents (select_id_limit_1 t).
Proof.
  unfold select_id_limit_1.
  apply (@keeps_bind same_documents same_documents_trans); [apply execute_same_documents|].
  intros _ w. apply same_documents_refl.
Qed.

Create HintDb frame.

#[local] Hint Resolve same_requests_refl same_documents_refl
  print_same_requests print_same_documents execute_same_requests
  execute_same_documents insert_same_requests select_same_documents : frame.
#[local] Hint Extern 1 (keeps same_requests (ret _)) =>
  apply (@keeps_ret same_requests same_requests_refl) : frame.
#[local] Hint Extern 1 (keeps same_documents (ret _)) =>
  apply (@keeps_ret same_documents same_documents_refl) : frame.
#[local] Hint Extern 1 (keeps same_requests (lift _)) =>
  apply (@keeps_lift same_requests same_requests_refl) : frame.
#[local] Hint Extern 1 (keeps same_documents (lift _)) =>
  apply (@keeps_lift same_documents same_documents_refl) : frame.
#[local] Hint Extern 2 (keeps same_requests (bind _ _)) =>
  apply (@keeps_bind same_requests same_requests_trans); [|intros ?; cbv beta] : frame.
#[local] Hint Extern 2 (keeps same_documents (bind _ _)) =>
  apply (@keeps_bind same_documents same_documents_trans); [|intros ?; cbv beta] : frame.
#[local] Hint Extern 2 (keeps same_requests (try_except _ _)) =>
  apply (@keeps_try_except same_requests same_requests_trans); [|intros ?; cbv beta] : frame.
#[local] Hint Extern 2 (keeps same_documents (try_except _ _)) =>
  apply (@keeps_try_except same_documents same_documents_trans); [|intros ?; cbv beta] : frame.

Lemma keeps_save_conversation (user_id message response : pyval)
    (metadata : option pyval) :
  keeps same_requests
    (save_conversation user_id message response metadata).
Proof. unfold save_conversation. auto 8 with frame. Qed.

Lemma keeps_record_user_details (user_id email : pyval)
    (name notes : option pyval) :
  keeps same_requests (record_user_details user_id email name notes).
Proof. unfold record_user_details. auto 8 with frame. Qed.

Lemma keeps_record_unknown_question (question : pyval) :
  keeps same_requests (record_unknown_question question).
Proof. unfold record_unknown_question. auto 8 with frame. Qed.

#[local] Hint Resolve keeps_save_conversation keeps_record_user_details
  keeps_record_unknown_question : frame.

Lemma keeps_tool_result (self : AdityaChatbot) (tool_name : string)
    (arguments user_id : pyval) :
  keeps same_requests (tool_result self tool_name arguments user_id).
Proof.
  unfold tool_result, call_record_user_details, call_record_unknown_question.
  destruct (String.eqb tool_name "record_user_details");
    [|destruct (String.eqb tool_name "record_unknown_question")];
    try destruct (supabase_enabled self); auto 8 with frame.
Qed.

Lemma keeps_handle_tool_calls (json : JSON) (self : AdityaChatbot)
    (tool_calls : list ToolCall) (user_id : pyval) :
  keeps same_requests (_handle_tool_calls json self tool_calls user_id).
Proof.
  induction tool_calls as [|tool_call rest IH]; cbn [_handle_tool_calls].
  - auto with frame.
  - unfold handle_tool_call.
    pose proof (keeps_tool_result self) as Ht.
    auto 10 with frame.
Qed.

(** ** The loop of [chat] *)

Lemma tool_loop_step (json : JSON) (openai : OpenAI) (self : AdityaChatbot)
    (fuel : nat) (user_id : pyval) (messages : list chat_message)
    (w : World) :
  tool_loop json openai self (S fuel) user_id messages w
  = match chat_completions_create openai (requests w) messages with
    | Raise e => Some (Raise e, sent w)
    | Ok response =>
        if String.eqb (finish_reason response) "tool_calls" then
          match
            _handle_tool_calls json self
              (tool_calls (choice_message response)) user_id (sent w)
          with
          | (Raise e, w2) => Some (Raise e, w2)
          | (Ok tool_results, w2) =>
              tool_loop json openai self fuel user_id
                (messages ++ [Reply (choice_message response)]
                          ++ map Plain tool_results)%list
                w2
          end
        else Some (Ok response, sent w)
    end.
Proof.
  cbn [tool_loop]. unfold create_completion. fold (sent w).
  destruct (chat_completions_create openai (requests w) messages);
    reflexivity.
Qed.

(** Under a model that keeps requesting tool calls the dispatcher can carry
    out, no number of rounds ends the loop. *)
Lemma requesting_tools_never_ends
    (json : JSON) (openai : OpenAI) (self : AdityaChatbot) :
  keeps_requesting_tools json self openai ->
  forall fuel user_id messages w,
    tool_loop json openai self fuel user_id messages w = None.
Proof.
  intros Hkeeps fuel.
  induction fuel as [|fuel IH]; intros user_id messages w; [reflexivity|].
  rewrite tool_loop_step.
  destruct (Hkeeps (requests w) messages) as (response & -> & -> & Hd).
  rewrite String.eqb_refl.
  destruct (dispatcher_raises_or_returns json self
              (tool_calls (choice_message response)) user_id (sent w))
    as [(results & w2 & ->) | (e & w2 & _ & Hnd)].
  - apply IH.
  - congruence.
Qed.

(** C2, as the code has it.  The loop has no bound of its own.  Each round
    sends one completion request, and the loop ends at the first round whose
    request raises, whose completion does not signal tool-call intent, or
    whose batch of tool calls makes the dispatcher raise; otherwise it goes
    on with the reply and the envelopes appended to the messages.  If the
    model stops signalling tool-call intent from its request number [N] on,
    then the loop, run for more than [N - requests w] rounds, has ended: it
    sent at least one and at most [max N (requests w) + 1 - requests w]
    requests, and what it returns ends the loop.  Under a model that signals
    tool-call intent on every completion response, with tool calls the
    dispatcher can carry out, no number of rounds ends it. *)
Theorem tool_loop_has_no_bound_of_its_own
    (json : JSON) (openai : OpenAI) (self : AdityaChatbot) :
  (forall fuel user_id messages w,
     tool_loop json openai self (S fuel) user_id messages w
     = match chat_completions_create openai (requests w) messages with
       | Raise e => Some (Raise e, sent w)
       | Ok response =>
           if String.eqb (finish_reason response) "tool_calls" then
             match
               _handle_tool_calls json self
                 (tool_calls (choice_message response)) user_id (sent w)
             with
             | (Raise e, w2) => Some (Raise e, w2)
             | (Ok tool_results, w2) =>
                 tool_loop json openai self fuel user_id
                   (messages ++ [Reply (choice_message response)]
                             ++ map Plain tool_results)%list
                   w2
             end
           else Some (Ok response, sent w)
       end)
  /\ (forall N,
        (forall n messages,
           N <= n ->
           ends_loop (chat_completions_create openai n messages) = true) ->
        forall fuel user_id messages w,
          N - requests w < fuel ->
          exists result w',
            tool_loop json openai self fuel user_id messages w
            = Some (result, w')
            /\ requests w < requests w' <= Nat.max N (requests w) + 1
            /\ (forall response,
                  result = Ok response ->
                  finish_reason response <> "tool_calls"))
  /\ (keeps_requesting_tools json self openai ->
      forall fuel user_id messages w,
        tool_loop json openai self fuel user_id messages w = None).
Proof.
  split; [intros; apply tool_loop_step|].
  split; [|apply requesting_tools_never_ends].
  intros N Hstop fuel.
  induction fuel as [|fuel IH]; intros user_id messages w Hfuel; [lia|].
  rewrite tool_loop_step.
  pose proof (Hstop (requests w) messages) as Hnow.
  destruct (chat_completions_create openai (requests w) messages)
    as [response|e].
  - cbn [ends_loop] in Hnow.
    destruct (String.eqb (finish_reason response) "tool_calls") eqn:Hfr.
    + assert (Hlt : requests w < N).
      { destruct (Nat.le_gt_cases N (requests w)) as [Hle|]; [|assumption].
        specialize (Hnow Hle). discriminate. }
      pose proof (keeps_handle_tool_calls json self
                    (tool_calls (choice_message response)) user_id (sent w))
        as Hkeep.
      destruct (_handle_tool_calls json self _ user_id (sent w))
        as [[tool_results|e] w2];
        unfold same_requests in Hkeep; cbn [snd sent requests] in Hkeep.
      * destruct (IH user_id
                    (messages ++ [Reply (choice_message response)]
                              ++ map Plain tool_results)%list w2)
          as (result & w' & Hrun & Hreq & Hend); [lia|].
        exists result, w'. repeat split; auto; lia.
      * exists (Raise e), w2. repeat split; try lia. discriminate.
    + exists (Ok response), (sent w). cbn [sent requests].
      repeat split; try lia.
      intros ? [= <-] Heq. apply String.eqb_neq in Hfr. contradiction.
  - exists (Raise e), (sent w). cbn [sent requests].
    repeat split; try lia. discriminate.
Qed.

Lemma always_tools_keeps_requesting :
  keeps_requesting_tools reference_json offline_chatbot always_tools.
Proof.
  intros n messages. exists ask_again.
  split; [reflexivity|]. split; [reflexivity|].
  vm_compute. reflexivity.
Qed.

Lemma tool_loop_ends_witness :
  (exists result w',
     tool_loop reference_json tools_twice offline_chatbot 3
       (PStr "visitor-1") [] (world_with_faults [])
     = Some (result, w')
     /\ 0 < requests w' <= 3)
  /\ (forall fuel,
        tool_loop reference_json always_tools offline_chatbot fuel
          (PStr "visitor-1") [] (world_with_faults [])
        = None).
Proof.
  pose proof (@tool_loop_has_no_bound_of_its_own
                reference_json tools_twice offline_chatbot)
    as (_ & Hends & _).
  pose proof (@tool_loop_has_no_bound_of_its_own
                reference_json always_tools offline_chatbot)
    as (_ & _ & Hnever).
  split.
  - assert (Hstop : forall n messages,
               2 <= n ->
               ends_loop (chat_completions_create tools_twice n messages)
               = true).
    { intros n messages Hn. cbn [chat_completions_create tools_twice].
      destruct (Nat.ltb_spec n 2); [lia | reflexivity]. }
    destruct (Hends 2 Hstop 3 (PStr "visitor-1") []
                (world_with_faults []))
      as (result & w' & Hrun & Hreq & _).
    + cbn. lia.
    + exists result, w'. split; [exact Hrun | exact Hreq].
  - intros fuel. apply Hnever. exact always_tools_keeps_requesting.
Defined.

(** Once the model has stopped signalling tool-call intent, enough rounds
    let the loop, and then [chat], return. *)
Lemma tool_loop_returns
    (json : JSON) (openai : OpenAI) (self : AdityaChatbot) (N : nat) :
  (forall n messages,
     N <= n -> ends_loop (chat_completions_create openai n messages) = true) ->
  forall fuel user_id messages w,
    N - requests w < fuel ->
    exists run, tool_loop json openai self fuel user_id messages w = Some run.
Proof.
  intros Hstop fuel.
  induction fuel as [|fuel IH]; intros user_id messages w Hfuel; [lia|].
  rewrite tool_loop_step.
  pose proof (Hstop (requests w) messages) as Hnow.
  destruct (chat_completions_create openai (requests w) messages)
    as [response|e]; [|eauto].
  cbn [ends_loop] in Hnow.
  destruct (String.eqb (finish_reason response) "tool_calls"); [|eauto].
  assert (Hlt : requests w < N).
  { destruct (Nat.le_gt_cases N (requests w)) as [Hle|]; [|assumption].
    specialize (Hnow Hle). discriminate. }
  pose proof (@keeps_handle_tool_calls json self
                (tool_calls (choice_message response)) user_id (sent w))
    as Hkeep.
  destruct (_handle_tool_calls json self _ user_id (sent w))
    as [[tool_results|e] w2]; [|eauto].
  unfold same_requests in Hkeep; cbn [snd sent requests] in Hkeep.
  apply IH. lia.
Qed.

Lemma chat_returns
    (json : JSON) (openai : OpenAI)
    (similar : pyval -> pyval -> list pyval -> list pyval)
    (self : AdityaChatbot) (N : nat) :
  (forall n messages,
     N <= n -> ends_loop (chat_completions_create openai n messages) = true) ->
  forall fuel message history user_id w,
    N < fuel ->
    exists run,
      chat json openai similar self fuel message history user_id w = Some run.
Proof.
  intros Hstop fuel message history user_id w Hfuel. unfold chat.
  destruct (initial_messages openai similar self message history w)
    as [[messages|e] w1]; [|eauto].
  destruct (@tool_loop_returns json openai self N Hstop fuel user_id
              messages w1) as [[[response|e] w2] ->]; [lia| |]; eauto.
Qed.

(** C2, counterexample.  Under a model that signals tool-call intent on
    every completion, no number of rounds lets the loop end, and [chat]
    never returns. *)
Lemma loop_does_not_end_when_the_model_always_requests_tools :
  ~ (exists fuel result,
       tool_loop reference_json always_tools offline_chatbot fuel
         (PStr "visitor-1") [] (world_with_faults [])
       = Some result)
  /\ ~ (exists fuel result,
          chat reference_json always_tools every_record offline_chatbot fuel
            (PStr "Hi") (PList []) (PStr "visitor-1") (world_with_faults [])
          = Some result).
Proof.
  split; intros (fuel & result & H).
  - rewrite (requesting_tools_never_ends always_tools_keeps_requesting)
      in H.
    discriminate.
  - unfold chat in H.
    destruct (initial_messages _ _ _ _ _ _) as [[messages|e] w1] eqn:Hi.
    + rewrite (requesting_tools_never_ends always_tools_keeps_requesting)
        in H.
      discriminate.
    + vm_compute in Hi. discriminate.
Qed.

(** ** retrieve_context *)






(** ** The route *)

Lemma read_request_object (d : dict) :
  read_request (Ok (PDict d))
  = Ok (from_default (dict_get d "message") (PStr ""),
        from_default (dict_get d "history") (PList []),
        from_default (dict_get d "user_id") (PStr "anonymous")).
Proof. reflexivity. Qed.

(** A body whose [message] is missing or falsy is answered with 400, and the
    world is left as it was. *)
Lemma falsy_message_is_rejected
    (json : JSON) (openai : OpenAI)
    (similar : pyval -> pyval -> list pyval -> list pyval)
    (self : AdityaChatbot) (fuel : nat) (d : dict) (w : World) :
  truthy (from_default (dict_get d "message") (PStr "")) = false ->
  api_chat json openai similar self fuel (Ok (PDict d)) w
  = Some ({| status := 400;
             body := PDict [("error", PStr "Message is required")] |}, w).
Proof.
  intros H. unfold api_chat. rewrite read_request_object, H. reflexivity.
Qed.

(** A failure before the orchestrator is reached (evaluating [request.json]
    raises, or the body is not a JSON object) is answered with 500 as well. *)
Lemma unreadable_request_is_a_500
    (json : JSON) (openai : OpenAI)
    (similar : pyval -> pyval -> list pyval -> list pyval)
    (self : AdityaChatbot) (fuel : nat) (request_json : outcome pyval)
    (e : exn) (w : World) :
  read_request request_json = Raise e ->
  api_chat json openai similar self fuel request_json w
  = Some ({| status := 500;
             body := PDict [("error", PStr (str_exn e));
                            ("success", PBool false)] |},
          printed [Text "Error in chat endpoint: "; Text (str_exn e)] w).
Proof.
  intros H. unfold api_chat. rewrite H. reflexivity.
Qed.

(** Once the loop has ended with a completion, [chat] returns the content of
    its message, whatever the store does with the conversation. *)
Lemma chat_returns_the_content
    (json : JSON) (openai : OpenAI)
    (similar : pyval -> pyval -> list pyval -> list pyval)
    (self : AdityaChatbot) (fuel : nat) (message history user_id : pyval)
    (w w1 w2 : World) (messages : list chat_message)
    (completion : ChatCompletion) :
  initial_messages openai similar self message history w
  = (Ok messages, w1) ->
  tool_loop json openai self fuel user_id messages w1
  = Some (Ok completion, w2) ->
  exists w',
    chat json openai similar self fuel message history user_id w
    = Some (Ok (message_content (choice_message completion)), w').
Proof.
  intros Hinit Hloop. unfold chat. rewrite Hinit, Hloop.
  destruct (supabase_enabled self).
  - unfold bind, save_conversation, try_except, bind, ret.
    destruct (insert conversations _ w2) as [[[]|e] w3]; cbn; eauto.
  - unfold bind, ret. eauto.
Qed.

(** C8, as the code has it.  [POST /api/chat] with a JSON object [d] as
    body.  When [d] has no [message] field, the answer is 400 with
    [{error: "Message is required"}].  When [d] has a truthy [message], the
    orchestrator is called with the message, the history (default [[]]) and
    the user id (default "anonymous"): a failure it raises is answered with
    500 and [{error: str(e), success: false}], and the response it returns
    with 200 and [{response: response, success: true}].  That response is
    the content of the message of the completion the loop ended with, as the
    provider gave it: a string when the completion carries text, [None] when
    it carries none.  The route answers, with one of these three statuses,
    as soon as the model has stopped signalling tool-call intent. *)
Theorem api_chat_status_codes
    (json : JSON) (openai : OpenAI)
    (similar : pyval -> pyval -> list pyval -> list pyval)
    (self : AdityaChatbot) (fuel : nat) (d : dict) (w : World) :
  (dict_get d "message" = None ->
   api_chat json openai similar self fuel (Ok (PDict d)) w
   = Some ({| status := 400;
              body := PDict [("error", PStr "Message is required")] |}, w))
  /\ (forall message,
        dict_get d "message" = Some message ->
        truthy message = true ->
        let history := from_default (dict_get d "history") (PList []) in
        let user_id :=
          from_default (dict_get d "user_id") (PStr "anonymous") in
        (forall e w',
           chat json openai similar self fuel message history user_id w
           = Some (Raise e, w') ->
           api_chat json openai similar self fuel (Ok (PDict d)) w
           = Some ({| status := 500;
                      body := PDict [("error", PStr (str_exn e));
                                     ("success", PBool false)] |},
                   printed [Text "Error in chat endpoint: ";
                            Text (str_exn e)] w'))
        /\ (forall response w',
              chat json openai similar self fuel message history user_id w
              = Some (Ok response, w') ->
              api_chat json openai similar self fuel (Ok (PDict d)) w
              = Some ({| status := 200;
                         body := PDict [("response", response);
                                        ("success", PBool true)] |}, w'))
        /\ (forall messages w1 completion w2,
              initial_messages openai similar self message history w
              = (Ok messages, w1) ->
              tool_loop json openai self fuel user_id messages w1
              = Some (Ok completion, w2) ->
              exists w',
                api_chat json openai similar self fuel (Ok (PDict d)) w
                = Some ({| status := 200;
                           body :=
                             PDict [("response",
                                     message_content
                                       (choice_message completion));
                                    ("success", PBool true)] |}, w')))
  /\ (forall N,
        (forall n messages,
           N <= n ->
           ends_loop (chat_completions_create openai n messages) = true) ->
        N < fuel ->
        exists answer w',
          api_chat json openai similar self fuel (Ok (PDict d)) w
          = Some (answer, w')
          /\ (status answer = 200 \/ status answer = 400
              \/ status answer = 500)).
Proof.
  split; [|split].
  - intros H. apply falsy_message_is_rejected. now rewrite H.
  - intros message Hm Ht history user_id.
    unfold api_chat. rewrite read_request_object, Hm.
    cbn [from_default]. rewrite Ht. cbn [negb].
    fold history user_id.
    split; [|split]; try (intros ? w' ->; reflexivity).
    intros messages w1 completion w2 Hinit Hloop.
    destruct (@chat_returns_the_content json openai similar self fuel
                message history user_id w w1 w2 messages completion
                Hinit Hloop) as [w' ->].
    eauto.
  - intros N Hstop Hfuel.
    unfold api_chat. rewrite read_request_object.
    destruct (truthy (from_default (dict_get d "message") (PStr "")));
      cbn [negb]; [|do 2 eexists; split; [reflexivity | auto]].
    destruct (@chat_returns json openai similar self N Hstop fuel
                (from_default (dict_get d "message") (PStr ""))
                (from_default (dict_get d "history") (PList []))
                (from_default (dict_get d "user_id") (PStr "anonymous"))
                w Hfuel) as [[[response|e] w'] ->];
      do 2 eexists; (split; [reflexivity | cbn; auto]).
Qed.

Lemma api_chat_status_codes_witness :
  api_chat reference_json provider_down every_record offline_chatbot 5
    (Ok (PDict [])) (world_with_faults [])
  = Some ({| status := 400;
             body := PDict [("error", PStr "Message is required")] |},
          world_with_faults [])
  /\ (exists w',
        api_chat reference_json provider_down every_record offline_chatbot 5
          (Ok (PDict [("message", PStr "Hi")])) (world_with_faults [])
        = Some ({| status := 500;
                   body := PDict [("error", PStr "Connection error.");
                                  ("success", PBool false)] |}, w'))
  /\ (exists w',
        api_chat reference_json tools_twice every_record offline_chatbot 5
          (Ok (PDict [("message", PStr "Hi")])) (world_with_faults [])
        = Some ({| status := 200;
                   body := PDict [("response", PStr "I do not ski.");
                                  ("success", PBool true)] |}, w')).
Proof.
  split; [|split].
  - exact (proj1 (@api_chat_status_codes reference_json provider_down
                    every_record offline_chatbot 5 [] (world_with_faults []))
             eq_refl).
  - destruct (proj1 (proj2 (@api_chat_status_codes reference_json
                              provider_down every_record offline_chatbot 5
                              [("message", PStr "Hi")]
                              (world_with_faults [])))
                (PStr "Hi") eq_refl eq_refl) as [H500 _].
    eexists. apply H500 with (e := RemoteError "Connection error.")
      (w' := final_world
               (chat reference_json provider_down every_record
                  offline_chatbot 5 (PStr "Hi") (PList [])
                  (PStr "anonymous") (world_with_faults []))
               (world_with_faults [])).
    vm_compute. reflexivity.
  - destruct (proj1 (proj2 (@api_chat_status_codes reference_json
                              tools_twice every_record offline_chatbot 5
                              [("message", PStr "Hi")]
                              (world_with_faults [])))
                (PStr "Hi") eq_refl eq_refl) as (_ & H200 & _).
    eexists. apply H200 with
      (w' := final_world
               (chat reference_json tools_twice every_record
                  offline_chatbot 5 (PStr "Hi") (PList [])
                  (PStr "anonymous") (world_with_faults []))
               (world_with_faults [])).
    vm_compute. reflexivity.
Defined.

(** C8, counterexample.  The completion the loop ends with carries no text
    (its content is [None]): the route answers 200 with [response] null and
    [success] true, so the response of a success is not always a string. *)
Lemma response_is_null_when_the_completion_has_no_content :
  api_chat reference_json withholds_content every_record offline_chatbot 1
    (Ok (PDict [("message", PStr "Hi")])) (world_with_faults [])
  = Some ({| status := 200;
             body := PDict [("response", PNone);
                            ("success", PBool true)] |},
          sent (world_with_faults []))
  /\ ~ (exists text w',
          api_chat reference_json withholds_content every_record
            offline_chatbot 1 (Ok (PDict [("message", PStr "Hi")]))
            (world_with_faults [])
          = Some ({| status := 200;
                     body := PDict [("response", PStr text);
                                    ("success", PBool true)] |}, w')).
Proof.
  assert (H : api_chat reference_json withholds_content every_record
                offline_chatbot 1 (Ok (PDict [("message", PStr "Hi")]))
                (world_with_faults [])
              = Some ({| status := 200;
                         body := PDict [("response", PNone);
                                        ("success", PBool true)] |},
                      sent (world_with_faults [])))
    by (vm_compute; reflexivity).
  split; [exact H|].
  intros (text & w' & H'). rewrite H in H'. discriminate.
Qed.

(** C10.  A body whose [message] field is present and is the empty string
    is answered like a missing one: 400 with
    [{error: "Message is required"}].  The world is left as it was (nothing
    is sent to the provider or the store, nothing is printed), whatever the
    provider would answer and even with no round allowed to the loop: the
    orchestrator is not called. *)
Theorem empty_message_is_rejected
    (json : JSON) (openai : OpenAI)
    (similar : pyval -> pyval -> list pyval -> list pyval)
    (self : AdityaChatbot) (fuel : nat) (d : dict) (w : World) :
  dict_get d "message" = Some (PStr "") ->
  api_chat json openai similar self fuel (Ok (PDict d)) w
  = Some ({| status := 400;
             body := PDict [("error", PStr "Message is required")] |}, w).
Proof.
  intros H. apply falsy_message_is_rejected. now rewrite H.
Qed.

Lemma empty_message_witness :
  api_chat reference_json always_tools every_record online_chatbot 0
    (Ok (PDict [("message", PStr ""); ("user_id", PStr "visitor-1")]))
    (world_with_faults [])
  = Some ({| status := 400;
             body := PDict [("error", PStr "Message is required")] |},
          world_with_faults []).
Proof.
  exact (@empty_message_is_rejected reference_json always_tools every_record
           online_chatbot 0
           [("message", PStr ""); ("user_id", PStr "visitor-1")]
           (world_with_faults []) eq_refl).
Defined.

(** ** Startup *)

Lemma is_initialized_spec (w : World) :
  is_initialized w
  = (Ok (query_succeeds w && has_documents w), after_call w).
Proof.
  unfold is_initialized, try_except, bind, select_id_limit_1, bind, execute,
    query_succeeds, has_documents, ret.
  fold (after_call w).
  destruct (hd None (faults (store w))); [reflexivity|].
  cbn [after_call set_store store with_faults rows documents_rows andb].
  destruct (documents_rows (store w)); reflexivity.
Qed.

Lemma quiet_query_succeeds (w : World) : quiet w -> query_succeeds w = true.
Proof.
  unfold quiet, query_succeeds. intros H.
  destruct H as [|f fs Hf _]; [reflexivity|]. now rewrite Hf.
Qed.

Lemma after_call_same_documents (w : World) :
  same_documents w (after_call w).
Proof.
  pose proof (execute_same_documents w) as H. unfold execute in H.
  fold (after_call w) in H. now destruct (hd None (faults (store w))).
Qed.

Lemma is_initialized_same_documents : keeps same_documents is_initialized.
Proof.
  intros w. rewrite is_initialized_spec. apply after_call_same_documents.
Qed.

Lemma connect_same_documents (env : Environment) :
  keeps same_documents (connect env).
Proof.
  unfold connect. destruct (configured env); auto 10 with frame.
Qed.

Lemma load_resume_same_documents (env : Environment) :
  keeps same_documents (_load_resume env).
Proof. unfold _load_resume. auto 10 with frame. Qed.

Lemma load_summary_same_documents (env : Environment) :
  keeps same_documents (_load_summary env).
Proof. unfold _load_summary. auto 10 with frame. Qed.

Lemma initialized_stays_refl (w : World) : initialized_stays w w.
Proof. intros _ _. apply same_documents_refl. Qed.

Lemma initialized_stays_trans (a b c : World) :
  initialized_stays a b -> initialized_stays b c -> initialized_stays a c.
Proof.
  unfold initialized_stays, has_documents. intros Hab Hbc Hq Hd.
  specialize (Hab Hq Hd).
  apply (same_documents_trans Hab). apply Hbc.
  - now apply Hab.
  - destruct Hab as (-> & _). exact Hd.
Qed.

Lemma same_documents_stays {A} (m : M A) :
  keeps same_documents m -> keeps initialized_stays m.
Proof. intros H w _ _. apply H. Qed.

(** The last step of startup when the store is off, or the query goes
    through and finds a record: nothing is embedded. *)
Lemma initialization_skipped (openai : OpenAI) (enabled : bool)
    (resume_text summary_text : string) (w : World) :
  enabled = false \/ (query_succeeds w = true /\ has_documents w = true) ->
  exists w',
    initialize_vector_database openai enabled resume_text summary_text w
    = (Ok tt, w')
    /\ same_documents w w'.
Proof.
  unfold initialize_vector_database.
  intros [-> | [Hq Hd]].
  - eexists. split; [reflexivity|]. apply print_same_documents.
  - destruct enabled.
    + unfold bind. rewrite is_initialized_spec, Hq, Hd. cbn [andb negb].
      eexists. split; [reflexivity|].
      apply (same_documents_trans (after_call_same_documents w)).
      apply print_same_documents.
    + eexists. split; [reflexivity|]. apply print_same_documents.
Qed.

Lemma initialization_stays (openai : OpenAI) (enabled : bool)
    (resume_text summary_text : string) :
  keeps initialized_stays
    (initialize_vector_database openai enabled resume_text summary_text).
Proof.
  intros w Hq Hd.
  destruct (@initialization_skipped openai enabled resume_text summary_text w)
    as (w' & -> & Hs); [|exact Hs].
  right. split; [now apply quiet_query_succeeds | exact Hd].
Qed.

Lemma init_stays (openai : OpenAI) (env : Environment) :
  keeps initialized_stays (__init__ openai env).
Proof.
  unfold __init__.
  apply (@keeps_bind initialized_stays initialized_stays_trans);
    [apply (@keeps_lift initialized_stays initialized_stays_refl)|].
  intros _.
  apply (@keeps_bind initialized_stays initialized_stays_trans);
    [apply same_documents_stays, connect_same_documents|].
  intros enabled.
  apply (@keeps_bind initialized_stays initialized_stays_trans);
    [apply same_documents_stays, load_resume_same_documents|].
  intros resume_text.
  apply (@keeps_bind initialized_stays initialized_stays_trans);
    [apply same_documents_stays, load_summary_same_documents|].
  intros summary_text.
  apply (@keeps_bind initialized_stays initialized_stays_trans);
    [apply initialization_stays|].
  intros _. apply (@keeps_ret initialized_stays initialized_stays_refl).
Qed.

(** C6, as the code has it.  [is_initialized] does not raise; it returns
    true exactly when its query goes through and the documents table holds
    at least one record, and false when the query fails, whatever the table
    holds.  At startup [embed_documents] is run only when the store is
    enabled and [is_initialized] returned false: with the store off, or with
    a query that goes through and finds a record, nothing is embedded, and
    otherwise the documents are embedded.  So a non-empty documents table is
    not re-populated by a startup during which no call to the store
    fails. *)
Theorem initialization_is_idempotent_while_the_query_succeeds
    (openai : OpenAI) (w : World) :
  is_initialized w
  = (Ok (query_succeeds w && has_documents w), after_call w)
  /\ (forall enabled resume_text summary_text,
        enabled = false
        \/ (query_succeeds w = true /\ has_documents w = true) ->
        exists w',
          initialize_vector_database openai enabled resume_text summary_text w
          = (Ok tt, w')
          /\ documents_rows (store w') = documents_rows (store w)
          /\ requests w' = requests w)
  /\ (forall resume_text summary_text,
        query_succeeds w && has_documents w = false ->
        initialize_vector_database openai true resume_text summary_text w
        = (print [Text "Initializing vector database..."] ;;
           embed_documents openai resume_text summary_text) (after_call w))
  /\ (forall env,
        quiet w ->
        has_documents w = true ->
        documents_rows (store (snd (__init__ openai env w)))
        = documents_rows (store w)
        /\ requests (snd (__init__ openai env w)) = requests w).
Proof.
  split; [apply is_initialized_spec|]. split; [|split].
  - intros enabled resume_text summary_text H.
    destruct (@initialization_skipped openai enabled resume_text summary_text
                w H) as (w' & Hrun & Hd & Hr & _).
    eauto.
  - intros resume_text summary_text H.
    unfold initialize_vector_database. unfold bind at 1.
    rewrite is_initialized_spec, H. reflexivity.
  - intros env Hq Hd.
    destruct (@init_stays openai env w Hq Hd) as (Hdocs & Hreq & _).
    split; assumption.
Qed.

Lemma initialization_witness :
  documents_rows
    (store (snd (__init__ tools_twice configured_environment
                   (world_with_documents ["Experience at Example Corp"] []))))
  = documents_rows
      (store (world_with_documents ["Experience at Example Corp"] []))
  /\ requests
       (snd (__init__ tools_twice configured_environment
               (world_with_documents ["Experience at Example Corp"] [])))
     = 0.
Proof.
  refine (proj2 (proj2 (proj2
            (@initialization_is_idempotent_while_the_query_succeeds
               tools_twice
               (world_with_documents ["Experience at Example Corp"] []))))
            configured_environment _ eq_refl).
  constructor.
Defined.

(** C6, counterexample.  The documents table holds a record, the store
    answers the connection test and fails the query of [is_initialized]:
    [is_initialized] returns false although the table is not empty, and
    startup embeds the résumé again, so the table grows to two records. *)
Lemma failed_query_repopulates_a_non_empty_table :
  has_documents (after_call populated_then_failing) = true
  /\ fst (is_initialized (after_call populated_then_failing)) = Ok false
  /\ length (documents_rows (store populated_then_failing)) = 1
  /\ length (documents_rows
               (store (snd (__init__ tools_twice configured_environment
                              populated_then_failing)))) = 2.
Proof.
  repeat split; vm_compute; reflexivity.
Qed.

(** * Further properties *)

(** ** Trimming and splitting *)

Lemma contains_cons (needle : string) (c : ascii) (hay : string) :
  contains needle (String c hay)
  = String.prefix needle (String c hay) || contains needle hay.
Proof. reflexivity. Qed.

Lemma blank_line_prefix (c : ascii) (s : string) :
  String.prefix blank_line (String c s)
  = Ascii.eqb c LF
    && match s with
       | String c' _ => Ascii.eqb c' LF
       | EmptyString => false
       end.
Proof.
  unfold blank_line.
  assert (Heq : forall a, Ascii.eqb a LF = if ascii_dec LF a then true else false).
  { intros a. destruct (ascii_dec LF a) as [<-|H]; [apply Ascii.eqb_refl|].
    apply Ascii.eqb_neq. congruence. }
  destruct s as [|c' s]; cbn [String.prefix]; rewrite ?Heq.
  - destruct (ascii_dec LF c); reflexivity.
  - destruct (ascii_dec LF c), (ascii_dec LF c'); try reflexivity.
    now destruct s.
Qed.

(** ** Leading and trailing whitespace *)

Lemma lstrip_starts_clean (s : string) : starts_clean (lstrip s).
Proof.
  induction s as [|c s IH]; cbn [lstrip]; [exact I|].
  destruct (isspace c) eqn:Hc; [exact IH | exact Hc].
Qed.

Lemma lstrip_clean (s : string) : starts_clean s -> lstrip s = s.
Proof.
  destruct s as [|c s]; cbn [starts_clean lstrip]; [reflexivity|].
  now intros ->.
Qed.

Lemma rstrip_cons (c : ascii) (s : string) :
  rstrip (String c s)
  = match rstrip s with
    | EmptyString => if isspace c then EmptyString else String c EmptyString
    | r => String c r
    end.
Proof. reflexivity. Qed.

Lemma rstrip_starts_clean (s : string) :
  starts_clean s -> starts_clean (rstrip s).
Proof.
  destruct s as [|c s]; [auto|].
  cbn [starts_clean]. intros Hc. rewrite rstrip_cons.
  destruct (rstrip s); [rewrite Hc|]; exact Hc.
Qed.

Lemma rstrip_idempotent (s : string) : rstrip (rstrip s) = rstrip s.
Proof.
  induction s as [|c s IH]; [reflexivity|].
  rewrite rstrip_cons.
  destruct (rstrip s) as [|c' r] eqn:Hr.
  - destruct (isspace c) eqn:Hc; [reflexivity|].
    rewrite rstrip_cons. cbn [rstrip]. now rewrite Hc.
  - rewrite rstrip_cons, IH. reflexivity.
Qed.

Lemma strip_idempotent (s : string) : strip (strip s) = strip s.
Proof.
  unfold strip.
  rewrite (@lstrip_clean _ (@rstrip_starts_clean _ (lstrip_starts_clean s))).
  apply rstrip_idempotent.
Qed.

Lemma contains_lstrip (needle s : string) :
  contains needle (lstrip s) = true -> contains needle s = true.
Proof.
  induction s as [|c s IH]; cbn [lstrip]; [auto|].
  destruct (isspace c); [|auto].
  intros H. rewrite contains_cons, (IH H). apply orb_true_r.
Qed.

Lemma blank_line_rstrip (s : string) :
  contains blank_line (rstrip s) = true -> contains blank_line s = true.
Proof.
  induction s as [|c s IH]; [auto|].
  rewrite rstrip_cons, (contains_cons blank_line c s).
  destruct (rstrip s) as [|c' r] eqn:Hr.
  - destruct (isspace c); [discriminate|].
    rewrite contains_cons, blank_line_prefix, andb_false_r. discriminate.
  - rewrite contains_cons. intros H. apply orb_true_iff in H as [H|H].
    + rewrite blank_line_prefix in H. apply andb_prop in H as [Hc Hc'].
      destruct s as [|c2 s2]; [discriminate|].
      rewrite rstrip_cons in Hr.
      assert (c2 = c') as ->.
      { destruct (rstrip s2); [destruct (isspace c2)|]; congruence. }
      rewrite blank_line_prefix, Hc, Hc'. reflexivity.
    + rewrite (IH H). apply orb_true_r.
Qed.

Lemma blank_line_strip (s : string) :
  contains blank_line s = false -> contains blank_line (strip s) = false.
Proof.
  intros H. unfold strip.
  destruct (contains blank_line (rstrip (lstrip s))) eqn:Hc; [|reflexivity].
  apply blank_line_rstrip, contains_lstrip in Hc. congruence.
Qed.
(** ** Pieces of a text *)

Lemma split_blank_two (c c' : ascii) (rest : string) :
  split_blank (String c (String c' rest))
  = if Ascii.eqb c LF && Ascii.eqb c' LF then
      let (p, ps) := split_blank rest in (EmptyString, p :: ps)
    else
      let (p, ps) := split_blank (String c' rest) in (String c p, ps).
Proof. reflexivity. Qed.

Lemma split_blank_pieces (text : string) :
  pieces_clean text /\ forall c, pieces_clean (String c text).
Proof.
  unfold pieces_clean.
  induction text as [|c' rest [IH0 IH1]].
  - split; [repeat split; constructor|].
    intros c. repeat split; try constructor.
    cbn [split_blank fst]. rewrite contains_cons, blank_line_prefix.
    now rewrite andb_false_r.
  - split; [apply IH1|]. intros c. rewrite split_blank_two.
    destruct (Ascii.eqb c LF && Ascii.eqb c' LF) eqn:Hsep.
    + destruct (split_blank rest) as [p ps]. cbn [fst snd] in *.
      destruct IH0 as (_ & Hp & Hps). repeat split; auto.
    + specialize (IH1 c'). destruct (split_blank (String c' rest)) as [p ps].
      cbn [fst snd] in *. destruct IH1 as (Hhead & Hp & Hps).
      repeat split; auto.
      rewrite contains_cons, blank_line_prefix, Hp, orb_false_r.
      destruct p as [|c2 p]; [apply andb_false_r|].
      cbn [same_head] in Hhead. subst c2. exact Hsep.
Qed.

Lemma split_nn_pieces (text : string) :
  Forall (fun p => contains blank_line p = false) (split_nn text).
Proof.
  unfold split_nn. destruct (split_blank_pieces text) as [(_ & Hp & Hps) _].
  destruct (split_blank text) as [p ps]. constructor; assumption.
Qed.

Lemma split_blank_whole (text : string) :
  contains blank_line text = false -> split_blank text = (text, []).
Proof.
  induction text as [|c rest IH]; [reflexivity|].
  rewrite contains_cons, blank_line_prefix. intros H.
  apply orb_false_elim in H as [Hsep Hrest].
  destruct rest as [|c' rest]; [reflexivity|].
  rewrite split_blank_two, Hsep, (IH Hrest). reflexivity.
Qed.

Lemma sections_pieces (text section : string) :
  In section (sections text) ->
  exists p, In p (split_nn text) /\ section = strip p.
Proof.
  unfold sections. intros H. apply in_map_iff in H as (p & <- & Hp).
  apply filter_In in Hp as [Hp _]. eauto.
Qed.

(** X1.  Every chunk [chunk_text] returns is a trimmed paragraph: it is
    longer than 50 characters, it has no leading or trailing whitespace, and
    it holds no blank line. *)
Theorem chunks_are_trimmed_paragraphs (text src : string) (chunk_size : nat) :
  Forall (fun chunk =>
            50 < String.length (content chunk)
            /\ strip (content chunk) = content chunk
            /\ contains blank_line (content chunk) = false)
    (chunk_text text src chunk_size).
Proof.
  apply Forall_forall. intros chunk Hin. unfold chunk_text in Hin.
  destruct (chunks_from_position _ _ _ _ Hin) as (_ & _ & Hnth & Hlen).
  apply nth_error_In, sections_pieces in Hnth as (p & Hp & Hs).
  repeat split.
  - unfold retained in Hlen. apply Nat.ltb_lt in Hlen. exact Hlen.
  - rewrite Hs. apply strip_idempotent.
  - rewrite Hs. apply blank_line_strip.
    pose proof (split_nn_pieces text) as Hall.
    rewrite Forall_forall in Hall. now apply Hall.
Qed.

(** X2.  A text without a blank line is never split, however long it is and
    whatever [chunk_size] says: it gives one chunk, the whole trimmed text
    with [chunk_id] 0, when the trimmed text is longer than 50 characters,
    and no chunk otherwise. *)
Theorem text_without_blank_line_is_one_chunk
    (text src : string) (chunk_size : nat) :
  contains blank_line text = false ->
  chunk_text text src chunk_size
  = if (50 <? String.length (strip text))%nat then
      [{| content := strip text;
          metadata := {| source := src; chunk_id := 0 |} |}]
    else [].
Proof.
  intros H. unfold chunk_text, sections, split_nn.
  rewrite (split_blank_whole _ H). cbn [filter].
  destruct (strip text) as [|c s] eqn:Hs; [reflexivity|].
  cbn [str_truthy map]. rewrite Hs. reflexivity.
Qed.

Lemma text_without_blank_line_witness :
  String.length long_paragraph = 599
  /\ chunk_text long_paragraph "summary" 500
     = [{| content := long_paragraph;
           metadata := {| source := "summary"; chunk_id := 0 |} |}].
Proof.
  split; [reflexivity|].
  exact (@text_without_blank_line_is_one_chunk long_paragraph "summary" 500
           eq_refl).
Defined.
(** ** What the store's calls change *)

Lemma execute_rows (t : table) (w : World) :
  rows t (store (snd (execute w))) = rows t (store w).
Proof.
  unfold execute. destruct (hd None (faults (store w))); now destruct t.
Qed.

Lemma insert_rows (t : table) (row : pyval) (t' : table) (w : World) :
  rows t' (store (snd (insert t row w))) = rows_after_insert t row t' w.
Proof.
  unfold rows_after_insert, query_succeeds.
  destruct (hd None (faults (store w))) as [msg|] eqn:Hq.
  - rewrite (@insert_fails t row msg w Hq). now destruct t'.
  - rewrite (@insert_succeeds t row w Hq). now destruct t, t'.
Qed.

Lemma insert_requests (t : table) (row : pyval) (w : World) :
  requests (snd (insert t row w)) = requests w.
Proof. apply insert_same_requests. Qed.

Lemma print_rows (line : list fragment) (t : table) (w : World) :
  rows t (store (snd (print line w))) = rows t (store w).
Proof. reflexivity. Qed.

(** X3.  A write operation of the conversation store never raises, sends
    nothing to the provider, and changes at most its own table, by the one
    row it was asked to store: the row is added when the store takes the
    insert, and otherwise no table changes.  [save_conversation] stores
    [{}] as metadata when the metadata is omitted or falsy. *)
Theorem writes_change_only_their_table
    (user_id message response email question : pyval)
    (metadata name notes : option pyval) (t : table) (w : World) :
  (exists result w',
     save_conversation user_id message response metadata w = (Ok result, w')
     /\ requests w' = requests w
     /\ rows t (store w')
        = rows_after_insert conversations
            (PDict [("user_id", user_id); ("message", message);
                    ("response", response);
                    ("metadata",
                     match metadata with
                     | Some m => if truthy m then m else PDict []
                     | None => PDict []
                     end)])
            t w)
  /\ (exists result w',
        record_user_details user_id email name notes w = (Ok result, w')
        /\ requests w' = requests w
        /\ rows t (store w')
           = rows_after_insert leads
               (PDict [("user_id", user_id); ("email", email);
                       ("name", from_default name (PStr "Not provided"));
                       ("notes", from_default notes (PStr ""))])
               t w)
  /\ (exists result w',
        record_unknown_question question w = (Ok result, w')
        /\ requests w' = requests w
        /\ rows t (store w')
           = rows_after_insert unknown_questions
               (PDict [("question", question)]) t w).
Proof.
  split; [|split].
  - pose proof (insert_rows conversations
                  (PDict [("user_id", user_id); ("message", message);
                          ("response", response);
                          ("metadata",
                           py_or (from_default metadata PNone) (PDict []))])
                  t w) as Hrows.
    pose proof (insert_requests conversations
                  (PDict [("user_id", user_id); ("message", message);
                          ("response", response);
                          ("metadata",
                           py_or (from_default metadata PNone) (PDict []))])
                  w) as Hreq.
    assert (Hmeta : py_or (from_default metadata PNone) (PDict [])
                    = match metadata with
                      | Some m => if truthy m then m else PDict []
                      | None => PDict []
                      end) by (destruct metadata; reflexivity).
    rewrite Hmeta in Hrows, Hreq.
    unfold save_conversation, try_except, bind, print, ret. rewrite Hmeta.
    destruct (insert conversations _ w) as [[[]|e] w1];
      cbn [snd] in *; do 2 eexists; (split; [reflexivity|]);
      split; assumption.
  - pose proof (insert_rows leads
                  (PDict [("user_id", user_id); ("email", email);
                          ("name", from_default name (PStr "Not provided"));
                          ("notes", from_default notes (PStr ""))]) t w)
      as Hrows.
    pose proof (insert_requests leads
                  (PDict [("user_id", user_id); ("email", email);
                          ("name", from_default name (PStr "Not provided"));
                          ("notes", from_default notes (PStr ""))]) w)
      as Hreq.
    unfold record_user_details, try_except, bind, print, ret.
    destruct (insert leads _ w) as [[[]|e] w1];
      cbn [snd] in *; do 2 eexists; (split; [reflexivity|]);
      split; assumption.
  - pose proof (insert_rows unknown_questions
                  (PDict [("question", question)]) t w) as Hrows.
    pose proof (insert_requests unknown_questions
                  (PDict [("question", question)]) w) as Hreq.
    unfold record_unknown_question, try_except, bind, print, ret.
    destruct (insert unknown_questions _ w) as [[[]|e] w1];
      cbn [snd] in *; do 2 eexists; (split; [reflexivity|]);
      split; assumption.
Qed.
(** ** embed_documents *)

Lemma generate_embedding_run (openai : OpenAI) (text : pyval) (w : World) :
  generate_embedding openai text w
  = (embeddings_create openai (requests w) text, sent w).
Proof. reflexivity. Qed.

Lemma embed_chunks_cons (openai : OpenAI) (chunk : DocumentChunk)
    (rest : list DocumentChunk) (w : World) :
  embed_chunks openai (chunk :: rest) w
  = match embeddings_create openai (requests w) (PStr (content chunk)) with
    | Raise e => (Raise e, sent w)
    | Ok embedding =>
        match insert documents (document_record chunk embedding) (sent w) with
        | (Raise e, w1) => (Raise e, w1)
        | (Ok _, w1) => embed_chunks openai rest w1
        end
    end.
Proof.
  cbn [embed_chunks]. unfold bind at 1. rewrite generate_embedding_run.
  destruct (embeddings_create openai (requests w) (PStr (content chunk)));
    [|reflexivity].
  unfold bind at 1. unfold document_record, metadata_value.
  destruct (insert documents _ (sent w)) as [[[]|e] w1]; reflexivity.
Qed.

Lemma quiet_after_call (w : World) : quiet w -> quiet (after_call w).
Proof. apply after_call_same_documents. Qed.

Lemma embed_chunks_all (openai : OpenAI) (chunks : list DocumentChunk) :
  forall embeddings w,
    quiet w ->
    embeddings_answered openai (requests w) chunks embeddings ->
    exists w',
      embed_chunks openai chunks w = (Ok tt, w')
      /\ quiet w'
      /\ requests w' = requests w + length chunks
      /\ stdout w' = stdout w
      /\ forall t,
           rows t (store w')
           = if table_eqb documents t then
               (rows t (store w) ++ document_records chunks embeddings)%list
             else rows t (store w).
Proof.
  induction chunks as [|chunk rest IH]; intros [|e embeddings] w Hq Hans;
    cbn [embeddings_answered] in Hans; try contradiction.
  - exists w. repeat split; auto.
    intros t. destruct (table_eqb documents t); [|reflexivity].
    cbn. now rewrite app_nil_r.
  - destruct Hans as [He Hrest].
    rewrite embed_chunks_cons, He.
    assert (Hq1 : hd None (faults (store (sent w))) = None).
    { apply quiet_query_succeeds in Hq. unfold query_succeeds in Hq.
      cbn [sent store]. now destruct (hd None (faults (store w))). }
    rewrite (@insert_succeeds documents (document_record chunk e) (sent w) Hq1).
    destruct (IH embeddings
                (stored documents (document_record chunk e)
                   (after_call (sent w))))
      as (w' & Hrun & Hq' & Hreq & Hout & Hrows).
    + apply (quiet_after_call (w := sent w)). exact Hq.
    + exact Hrest.
    + exists w'. split; [exact Hrun|]. split; [exact Hq'|].
      split; [rewrite Hreq; cbn; lia|]. split; [rewrite Hout; reflexivity|].
      intros t. rewrite Hrows. destruct t; cbn [table_eqb]; try reflexivity.
      cbn. now rewrite <- app_assoc.
Qed.

(** X4.  When no call to the store is scheduled to fail and the provider
    answers every embedding request, [embed_documents] appends one record per
    chunk to [documents], the chunks of the résumé first and those of the
    summary after them, each record holding the chunk's content, its source
    and [chunk_id], and the embedding the provider gave for that content; it
    sends one request per chunk, changes no other table, and prints the
    number of chunks before and after. *)
Theorem embed_documents_stores_every_chunk
    (openai : OpenAI) (resume_text summary_text : string)
    (embeddings : list pyval) (w : World) :
  quiet w ->
  embeddings_answered openai (requests w)
    (all_chunks resume_text summary_text) embeddings ->
  exists w',
    embed_documents openai resume_text summary_text w = (Ok tt, w')
    /\ documents_rows (store w')
       = (documents_rows (store w)
            ++ document_records (all_chunks resume_text summary_text)
                 embeddings)%list
    /\ conversations_rows (store w') = conversations_rows (store w)
    /\ leads_rows (store w') = leads_rows (store w)
    /\ unknown_questions_rows (store w') = unknown_questions_rows (store w)
    /\ requests w'
       = requests w + length (all_chunks resume_text summary_text)
    /\ stdout w'
       = (stdout w
            ++ [[Text "Embedding ";
                 StrOf (PInt (Z.of_nat
                                (length (all_chunks resume_text
                                           summary_text))));
                 Text " document chunks..."];
                [Text "✓ Embedded ";
                 StrOf (PInt (Z.of_nat
                                (length (all_chunks resume_text
                                           summary_text))));
                 Text " chunks successfully"]])%list.
Proof.
  intros Hq Hans. unfold embed_documents. fold (all_chunks resume_text summary_text).
  cbv zeta. set (chunks := all_chunks resume_text summary_text) in *.
  unfold bind at 1. cbn [print].
  match goal with
  | |- context [bind (embed_chunks openai chunks) _ ?w1] =>
      destruct (@embed_chunks_all openai chunks embeddings w1)
        as (w' & Hrun & _ & Hreq & Hout & Hrows); [exact Hq | exact Hans |]
  end.
  unfold bind. rewrite Hrun. cbn [print].
  eexists. split; [reflexivity|]. cbn [store stdout requests] in *.
  pose proof (Hrows documents) as Hd. pose proof (Hrows conversations) as Hc.
  pose proof (Hrows leads) as Hl. pose proof (Hrows unknown_questions) as Hu.
  cbn [rows table_eqb] in Hd, Hc, Hl, Hu.
  repeat split; try assumption.
  rewrite Hout, <- app_assoc. reflexivity.
Qed.

Lemma embed_documents_witness :
  exists w',
    embed_documents length_embeddings heading_then_paragraph
      long_paragraph (world_with_faults [])
    = (Ok tt, w')
    /\ documents_rows (store w')
       = [document_record
            {| content := repeat_char "x"%char 60;
               metadata := {| source := "resume"; chunk_id := 1 |} |}
            (PList [PInt 60]);
          document_record
            {| content := long_paragraph;
               metadata := {| source := "summary"; chunk_id := 0 |} |}
            (PList [PInt 599])]
    /\ requests w' = 2.
Proof.
  destruct (@embed_documents_stores_every_chunk length_embeddings
              heading_then_paragraph long_paragraph
              [PList [PInt 60]; PList [PInt 599]] (world_with_faults []))
    as (w' & Hrun & Hdocs & _ & _ & _ & Hreq & _).
  - constructor.
  - vm_compute. auto.
  - exists w'. split; [exact Hrun|]. split; [exact Hdocs | exact Hreq].
Defined.
Lemma document_records_cons (chunk : DocumentChunk)
    (chunks : list DocumentChunk) (e : pyval) (embeddings : list pyval) :
  document_records (chunk :: chunks) (e :: embeddings)
  = document_record chunk e :: document_records chunks embeddings.
Proof. reflexivity. Qed.

Lemma document_records_length (chunks : list DocumentChunk)
    (embeddings : list pyval) :
  length embeddings = length chunks ->
  length (document_records chunks embeddings) = length chunks.
Proof.
  intros H. unfold document_records.
  rewrite length_map, length_combine, H. apply Nat.min_id.
Qed.

(** Whatever fails, [embed_chunks] has stored the records of the chunks
    before the failing one. *)
Lemma embed_chunks_prefix (openai : OpenAI) (chunks : list DocumentChunk) :
  forall w,
  exists k embeddings,
    k <= length chunks
    /\ length embeddings = k
    /\ documents_rows (store (snd (embed_chunks openai chunks w)))
       = (documents_rows (store w)
            ++ document_records (firstn k chunks) embeddings)%list
    /\ (fst (embed_chunks openai chunks w) = Ok tt -> k = length chunks)
    /\ (forall e, fst (embed_chunks openai chunks w) = Raise e ->
                  k < length chunks).
Proof.
  induction chunks as [|chunk rest IH]; intros w.
  - exists 0, []. cbn. rewrite app_nil_r. repeat split; auto; discriminate.
  - rewrite embed_chunks_cons.
    destruct (embeddings_create openai (requests w) (PStr (content chunk)))
      as [e|err].
    + pose proof (insert_rows documents (document_record chunk e) documents
                    (sent w)) as Hrows.
      unfold rows_after_insert in Hrows. cbn [rows table_eqb] in Hrows.
      rewrite andb_true_r in Hrows.
      destruct (insert documents (document_record chunk e) (sent w))
        as [[[]|err] w1] eqn:Hins; cbn [snd] in Hrows.
      * destruct (query_succeeds (sent w)) eqn:Hq.
        -- destruct (IH w1) as (k & es & Hk & Hlen & Hdocs & Hok & Hraise).
           exists (S k), (e :: es). cbn [length firstn].
           rewrite document_records_cons, Hdocs, Hrows. cbn [sent store].
           rewrite <- app_assoc.
           split; [lia|]. split; [lia|]. split; [reflexivity|]. split.
           ++ intros H. rewrite (Hok H). reflexivity.
           ++ intros err H. specialize (Hraise err H). lia.
        -- exfalso. unfold query_succeeds in Hq.
           destruct (hd None (faults (store (sent w)))) as [msg|] eqn:Hh;
             [|discriminate].
           rewrite (@insert_fails documents (document_record chunk e) msg
                      (sent w) Hh) in Hins. discriminate.
      * exists 0, []. cbn [length firstn fst snd].
        assert (Hsame : documents_rows (store w1) = documents_rows (store w)).
        { destruct (query_succeeds (sent w)) eqn:Hq; [|exact Hrows].
          exfalso. unfold query_succeeds in Hq.
          destruct (hd None (faults (store (sent w)))) eqn:Hh;
            [discriminate|].
          rewrite (@insert_succeeds documents (document_record chunk e)
                     (sent w) Hh) in Hins. discriminate. }
        rewrite Hsame. cbn. rewrite app_nil_r.
        repeat split; auto; try lia. discriminate.
    + exists 0, []. cbn [length firstn fst snd sent store].
      cbn. rewrite app_nil_r. repeat split; auto; try lia. discriminate.
Qed.

Lemma embed_documents_run (openai : OpenAI) (resume_text summary_text : string)
    (w : World) :
  let chunks := all_chunks resume_text summary_text in
  let started :=
    printed [Text "Embedding "; StrOf (PInt (Z.of_nat (length chunks)));
             Text " document chunks..."] w in
  embed_documents openai resume_text summary_text w
  = match embed_chunks openai chunks started with
    | (Raise e, w1) => (Raise e, w1)
    | (Ok _, w1) =>
        (Ok tt,
         printed [Text "✓ Embedded "; StrOf (PInt (Z.of_nat (length chunks)));
                  Text " chunks successfully"] w1)
    end.
Proof.
  cbv zeta. unfold embed_documents. fold (all_chunks resume_text summary_text).
  cbv zeta. unfold bind at 1. cbn [print].
  fold (printed [Text "Embedding ";
                 StrOf (PInt (Z.of_nat
                                (length (all_chunks resume_text
                                           summary_text))));
                 Text " document chunks..."] w).
  unfold bind.
  destruct (embed_chunks openai _ _) as [[[]|e] w1]; reflexivity.
Qed.


(** X6.  After [embed_documents] has returned, [is_initialized] answers
    true exactly when its query goes through and the table held a record
    before or there was at least one chunk to embed: documents without any
    section longer than 50 characters leave an empty store uninitialized. *)
Theorem is_initialized_after_embedding
    (openai : OpenAI) (resume_text summary_text : string) (w w' : World) :
  embed_documents openai resume_text summary_text w = (Ok tt, w') ->
  is_initialized w'
  = (Ok (query_succeeds w'
         && (has_documents w
             || match all_chunks resume_text summary_text with
                | [] => false
                | _ :: _ => true
                end)),
     after_call w').
Proof.
  intros Hrun. rewrite is_initialized_spec.
  assert (Hhas : has_documents w'
                 = has_documents w
                   || match all_chunks resume_text summary_text with
                      | [] => false
                      | _ :: _ => true
                      end); [|now rewrite Hhas].
  rewrite embed_documents_run in Hrun. cbv zeta in Hrun.
  set (chunks := all_chunks resume_text summary_text) in *.
  destruct (embed_chunks_prefix openai chunks
              (printed [Text "Embedding ";
                        StrOf (PInt (Z.of_nat (length chunks)));
                        Text " document chunks..."] w))
    as (k & es & _ & Hlen & Hdocs & Hok & _).
  destruct (embed_chunks openai chunks _) as [[[]|e] w1]; [|discriminate].
  injection Hrun as <-. cbn [fst snd printed store] in *.
  specialize (Hok eq_refl). rewrite Hok in Hdocs, Hlen.
  rewrite firstn_all in Hdocs.
  pose proof (@document_records_length chunks es Hlen) as Hrec.
  unfold has_documents. cbn [printed store]. rewrite Hdocs.
  destruct (documents_rows (store w)); [|reflexivity].
  cbn [app orb].
  destruct chunks; destruct (document_records _ es); cbn in Hrec;
    try discriminate; reflexivity.
Qed.

Lemma is_initialized_after_embedding_witness :
  (exists w',
     embed_documents length_embeddings "Short." "" (world_with_faults [])
     = (Ok tt, w')
     /\ fst (is_initialized w') = Ok false)
  /\ (exists w',
        embed_documents length_embeddings heading_then_paragraph ""
          (world_with_faults [])
        = (Ok tt, w')
        /\ fst (is_initialized w') = Ok true).
Proof.
  assert (H1 : embed_documents length_embeddings "Short." ""
                 (world_with_faults [])
               = (Ok tt,
                  snd (embed_documents length_embeddings "Short." ""
                         (world_with_faults []))))
    by (vm_compute; reflexivity).
  assert (H2 : embed_documents length_embeddings heading_then_paragraph ""
                 (world_with_faults [])
               = (Ok tt,
                  snd (embed_documents length_embeddings
                         heading_then_paragraph "" (world_with_faults []))))
    by (vm_compute; reflexivity).
  split; eexists; (split; [eassumption|]).
  - rewrite (is_initialized_after_embedding _ _ _ _ H1).
    vm_compute. reflexivity.
  - rewrite (is_initialized_after_embedding _ _ _ _ H2).
    vm_compute. reflexivity.
Defined.
(** ** retrieve_context and the loaders *)

(** X7.  [retrieve_context] only reads: it leaves every table as it was,
    sends exactly one request to the provider, and calls the store once, and
    not at all when the embedding request failed. *)
Theorem retrieve_context_only_reads
    (openai : OpenAI) (similar : pyval -> pyval -> list pyval -> list pyval)
    (query : pyval) (top_k : nat) (w : World) :
  let w' := snd (retrieve_context openai similar query top_k w) in
  same_tables w w'
  /\ requests w' = S (requests w)
  /\ (forall e,
        embeddings_create openai (requests w) query = Raise e ->
        faults (store w') = faults (store w))
  /\ (forall embedding,
        embeddings_create openai (requests w) query = Ok embedding ->
        faults (store w') = tl (faults (store w))).
Proof.
  cbv zeta.
  unfold retrieve_context, try_except, bind, generate_embedding, same_tables.
  assert (Hrows : forall db fs t, rows t (with_faults fs db) = rows t db)
    by (intros db fs t; now destruct t).
  destruct (embeddings_create openai (requests w) query) as [embedding|e].
  - unfold match_documents, bind, execute. cbn [store].
    destruct (hd None (faults (store w))) as [msg|].
    + cbn [print ret snd store set_store requests with_faults faults].
      split; [intros t; apply Hrows|].
      repeat split; auto; discriminate.
    + cbn [set_store store with_faults rows documents_rows lift].
      destruct (map_outcome _ _);
        cbn [print ret snd store set_store requests with_faults faults];
        (split; [intros t; apply Hrows|]);
        repeat split; auto; discriminate.
  - cbn [print ret snd store requests].
    repeat split; auto; discriminate.
Qed.

Lemma join_pages_concat (texts : list string) :
  join_pages texts = String.concat "" texts.
Proof.
  induction texts as [|text rest IH]; [reflexivity|].
  cbn [join_pages String.concat]. rewrite IH.
  destruct rest as [|text' rest].
  - cbn [String.concat].
    destruct text; cbn [str_truthy]; [reflexivity|].
    clear. generalize (String a text). intros s.
    induction s as [|c s IHs]; [reflexivity|]. cbn. now rewrite IHs.
  - destruct text; reflexivity.
Qed.

Lemma map_outcome_all_ok {A} (l : list A) :
  map_outcome (fun page => page) (map (@Ok A) l) = Ok l.
Proof.
  induction l as [|a l IH]; [reflexivity|].
  cbn [map map_outcome]. now rewrite IH.
Qed.

Lemma map_outcome_first_failure {A} (before : list A) (e : exn)
    (rest : list (outcome A)) :
  map_outcome (fun page => page) (map (@Ok A) before ++ Raise e :: rest)%list
  = Raise e.
Proof.
  induction before as [|a before IH]; [reflexivity|].
  cbn [map app map_outcome]. now rewrite IH.
Qed.

(** X8.  The two loaders never raise.  [_load_resume] returns the texts of
    the pages joined in order when the file opens and every page extracts;
    when the file does not open, or one page fails, it prints the error and
    returns "Resume information unavailable", dropping the texts of the pages
    before the failing one.  [_load_summary] returns the text of
    the file, or prints the error and returns the empty string. *)
Theorem loaders_fall_back (env : Environment) (w : World) :
  (forall texts,
     Resume_pdf env = Ok (map Ok texts) ->
     _load_resume env w = (Ok (String.concat "" texts), w))
  /\ (forall e,
        Resume_pdf env = Raise e ->
        _load_resume env w
        = (Ok "Resume information unavailable",
           printed [Text "Error reading Resume.pdf: "; Text (str_exn e)] w))
  /\ (forall before e rest,
        Resume_pdf env = Ok (map Ok before ++ Raise e :: rest)%list ->
        _load_resume env w
        = (Ok "Resume information unavailable",
           printed [Text "Error reading Resume.pdf: "; Text (str_exn e)] w))
  /\ (forall text,
        summary_txt env = Ok text -> _load_summary env w = (Ok text, w))
  /\ (forall e,
        summary_txt env = Raise e ->
        _load_summary env w
        = (Ok "",
           printed [Text "Error reading summary.txt: "; Text (str_exn e)] w)).
Proof.
  unfold _load_resume, _load_summary, try_except, bind, lift, ret.
  repeat split.
  - intros texts ->. rewrite map_outcome_all_ok, join_pages_concat.
    reflexivity.
  - intros e ->. reflexivity.
  - intros before e rest ->. rewrite map_outcome_first_failure. reflexivity.
  - intros text ->. reflexivity.
  - intros e ->. reflexivity.
Qed.

Lemma loaders_witness :
  _load_resume
    {| openai_client := Ok tt;
       SUPABASE_URL := None;
       SUPABASE_KEY := None;
       create_client := Ok tt;
       Resume_pdf := Ok [Ok "Page one."; Raise (OSError "bad page"); Ok "3"];
       summary_txt := Raise (OSError "No such file") |}
    (world_with_faults [])
  = (Ok "Resume information unavailable",
     printed [Text "Error reading Resume.pdf: "; Text "bad page"]
       (world_with_faults []))
  /\ _load_resume configured_environment (world_with_faults [])
     = (Ok (repeat_char "x"%char 60), world_with_faults []).
Proof.
  split.
  - exact (proj1 (proj2 (proj2
             (@loaders_fall_back
                {| openai_client := Ok tt;
                   SUPABASE_URL := None;
                   SUPABASE_KEY := None;
                   create_client := Ok tt;
                   Resume_pdf :=
                     Ok [Ok "Page one."; Raise (OSError "bad page"); Ok "3"];
                   summary_txt := Raise (OSError "No such file") |}
                (world_with_faults []))))
             ["Page one."] (OSError "bad page") [Ok "3"] eq_refl).
  - exact (proj1 (@loaders_fall_back configured_environment
                    (world_with_faults []))
             [repeat_char "x"%char 60] eq_refl).
Defined.
(** ** Startup, continued *)

Lemma same_tables_refl (w : World) : same_tables w w.
Proof. intros t. reflexivity. Qed.

Lemma same_tables_trans (a b c : World) :
  same_tables a b -> same_tables b c -> same_tables a c.
Proof. intros Hab Hbc t. now rewrite Hbc, Hab. Qed.

Lemma same_tables_has_documents (w w' : World) :
  same_tables w w' -> has_documents w' = has_documents w.
Proof.
  intros H. unfold has_documents. pose proof (H documents) as Hd.
  cbn [rows] in Hd. now rewrite Hd.
Qed.

Lemma after_call_same_tables (w : World) : same_tables w (after_call w).
Proof. intros t. now destruct t. Qed.

Lemma connect_run (env : Environment) (w : World) :
  exists w1,
    connect env w = (Ok (connects env w), w1)
    /\ same_tables w w1
    /\ requests w1 = requests w
    /\ faults (store w1)
       = if configured env && is_ok (create_client env)
         then tl (faults (store w)) else faults (store w).
Proof.
  unfold connect, connects, try_except, bind, lift, query_succeeds.
  destruct (configured env); cbn [andb].
  - destruct (create_client env) as [[]|e]; cbn [is_ok andb].
    + unfold select_id_limit_1, bind, execute. fold (after_call w).
      destruct (hd None (faults (store w)));
        eexists; (split; [reflexivity|]);
        repeat split; try reflexivity; apply after_call_same_tables.
    + eexists. split; [reflexivity|].
      repeat split; try reflexivity.
  - eexists. split; [reflexivity|]. repeat split; reflexivity.
Qed.

Lemma load_resume_run (env : Environment) (w : World) :
  exists w1,
    _load_resume env w = (Ok (loaded_resume env), w1)
    /\ store w1 = store w /\ requests w1 = requests w.
Proof.
  unfold _load_resume, loaded_resume, try_except, bind, lift, ret.
  destruct (Resume_pdf env) as [pages|e].
  - destruct (map_outcome _ pages); eexists; split; reflexivity || auto.
  - eexists; split; reflexivity || auto.
Qed.

Lemma load_summary_run (env : Environment) (w : World) :
  exists w1,
    _load_summary env w = (Ok (loaded_summary env), w1)
    /\ store w1 = store w /\ requests w1 = requests w.
Proof.
  unfold _load_summary, loaded_summary, try_except, bind, lift, ret.
  destruct (summary_txt env); eexists; split; reflexivity || auto.
Qed.

(** What [__init__] does up to the last step. *)
Lemma init_run (openai : OpenAI) (env : Environment) (w : World) :
  openai_client env = Ok tt ->
  exists w3,
    same_tables w w3
    /\ requests w3 = requests w
    /\ faults (store w3)
       = (if configured env && is_ok (create_client env)
          then tl (faults (store w)) else faults (store w))
    /\ __init__ openai env w
       = match
           initialize_vector_database openai (connects env w)
             (loaded_resume env) (loaded_summary env) w3
         with
         | (Raise e, w4) => (Raise e, w4)
         | (Ok _, w4) =>
             (Ok {| name := "Aditya Mazumdar";
                    supabase_enabled := connects env w;
                    resume := loaded_resume env;
                    summary := loaded_summary env |}, w4)
         end.
Proof.
  intros Hopenai.
  destruct (connect_run env w) as (w1 & Hc & Ht1 & Hr1 & Hf1).
  destruct (load_resume_run env w1) as (w2 & Hl & Hs2 & Hr2).
  destruct (load_summary_run env w2) as (w3 & Hm & Hs3 & Hr3).
  exists w3. split; [|split; [|split]].
  - intros t. rewrite Hs3, Hs2. apply Ht1.
  - congruence.
  - rewrite Hs3, Hs2. exact Hf1.
  - unfold __init__. rewrite Hopenai. unfold bind at 1. cbn [lift].
    unfold bind at 1. rewrite Hc. unfold bind at 1. rewrite Hl.
    unfold bind at 1. rewrite Hm. unfold bind, ret.
    destruct (initialize_vector_database _ _ _ _ w3) as [[[]|e] w4];
      reflexivity.
Qed.

(** X9.  A store that is not configured, cannot be created or does not
    answer never keeps the chatbot from starting: when the provider's client
    is constructed and the connection attempt does not go through,
    [__init__] returns a chatbot with the store disabled and the documents
    the loaders return; no table is changed and nothing is sent to the
    provider.  When the configuration does not pass the test or
    [create_client] raises, the store is not called at all. *)
Theorem startup_without_store (openai : OpenAI) (env : Environment)
    (w : World) :
  openai_client env = Ok tt ->
  connects env w = false ->
  exists w',
    __init__ openai env w
    = (Ok {| name := "Aditya Mazumdar";
             supabase_enabled := false;
             resume := loaded_resume env;
             summary := loaded_summary env |}, w')
    /\ same_tables w w'
    /\ requests w' = requests w
    /\ (configured env && is_ok (create_client env) = false ->
        faults (store w') = faults (store w)).
Proof.
  intros Hopenai Hoff.
  destruct (init_run openai env w Hopenai) as (w3 & Ht & Hr & Hf & Hrun).
  rewrite Hoff in Hrun. cbn [initialize_vector_database print] in Hrun.
  eexists. split; [exact Hrun|]. cbn [store requests].
  repeat split; auto.
  intros Hno. now rewrite Hno in Hf.
Qed.

Lemma startup_without_store_witness :
  exists w',
    __init__ provider_down template_environment
      (world_with_documents ["Experience at Example Corp"] [Some "timeout"])
    = (Ok offline_chatbot, w')
    /\ store w'
       = store (world_with_documents ["Experience at Example Corp"]
                  [Some "timeout"]).
Proof.
  destruct (@startup_without_store provider_down template_environment
              (world_with_documents ["Experience at Example Corp"]
                 [Some "timeout"]) eq_refl eq_refl)
    as (w' & Hrun & _).
  exists w'. split; [exact Hrun|].
  vm_compute in Hrun. now injection Hrun as <-.
Defined.

(** X10.  Whenever [__init__] returns, the chatbot it built has the store
    enabled exactly when the connection attempt went through, is named
    "Aditya Mazumdar", and holds the documents the loaders return. *)
Theorem startup_result (openai : OpenAI) (env : Environment)
    (w w' : World) (bot : AdityaChatbot) :
  __init__ openai env w = (Ok bot, w') ->
  bot = {| name := "Aditya Mazumdar";
           supabase_enabled := connects env w;
           resume := loaded_resume env;
           summary := loaded_summary env |}.
Proof.
  intros Hrun.
  destruct (openai_client env) as [[]|e] eqn:Hopenai.
  - destruct (init_run openai env w Hopenai) as (w3 & _ & _ & _ & Hrun').
    rewrite Hrun' in Hrun.
    destruct (initialize_vector_database _ _ _ _ w3) as [[[]|e] w4];
      [|discriminate].
    now injection Hrun as <- _.
  - unfold __init__ in Hrun. rewrite Hopenai in Hrun. discriminate.
Qed.

Lemma startup_result_witness :
  exists bot w',
    __init__ length_embeddings configured_environment (world_with_faults [])
    = (Ok bot, w')
    /\ bot = {| name := "Aditya Mazumdar";
                supabase_enabled := true;
                resume := repeat_char "x"%char 60;
                summary := "" |}.
Proof.
  destruct (__init__ length_embeddings configured_environment
              (world_with_faults [])) as [[bot|e] w'] eqn:Hrun.
  - exists bot, w'. split; [reflexivity|].
    exact (startup_result _ _ _ Hrun).
  - vm_compute in Hrun. discriminate.
Defined.

(** X11.  A failure of the provider while the documents are embedded at
    startup is not caught: when the connection attempt goes through, the
    [documents] table is empty, there is a chunk to embed and the provider
    fails the first embedding request with [e], [__init__] raises [e] and no
    chatbot is built. *)
Theorem startup_raises_when_embedding_fails
    (openai : OpenAI) (env : Environment) (w : World)
    (chunk : DocumentChunk) (rest : list DocumentChunk) (e : exn) :
  openai_client env = Ok tt ->
  connects env w = true ->
  has_documents w = false ->
  all_chunks (loaded_resume env) (loaded_summary env) = chunk :: rest ->
  embeddings_create openai (requests w) (PStr (content chunk)) = Raise e ->
  fst (__init__ openai env w) = Raise e.
Proof.
  intros Hopenai Hon Hempty Hchunks Hfail.
  destruct (init_run openai env w Hopenai) as (w3 & Ht & Hr & _ & Hrun).
  rewrite Hrun, Hon. unfold initialize_vector_database.
  unfold bind at 1. rewrite is_initialized_spec.
  rewrite (same_tables_has_documents Ht), Hempty, andb_false_r.
  cbn [negb]. unfold bind at 1. cbn [print].
  rewrite embed_documents_run. cbv zeta. rewrite Hchunks.
  rewrite embed_chunks_cons.
  cbn [printed requests after_call set_store]. rewrite Hr, Hfail.
  reflexivity.
Qed.

Lemma startup_raises_witness :
  fst (__init__ provider_down configured_environment (world_with_faults []))
  = Raise (RemoteError "Connection error.").
Proof.
  exact (@startup_raises_when_embedding_fails provider_down
           configured_environment (world_with_faults [])
           {| content := repeat_char "x"%char 60;
              metadata := {| source := "resume"; chunk_id := 0 |} |}
           [] (RemoteError "Connection error.")
           eq_refl eq_refl eq_refl eq_refl eq_refl).
Defined.
(** ** The dispatcher, continued *)

Lemma same_store_refl (w : World) : same_store w w.
Proof. split; reflexivity. Qed.

Lemma same_store_trans (a b c : World) :
  same_store a b -> same_store b c -> same_store a c.
Proof. unfold same_store. intros [] []. split; congruence. Qed.

Lemma print_same_store (line : list fragment) : keeps same_store (print line).
Proof. intros w. split; reflexivity. Qed.

Ltac keeps_same_store :=
  repeat first
    [ apply (@keeps_ret same_store same_store_refl)
    | apply (@keeps_lift same_store same_store_refl)
    | apply print_same_store
    | apply (@keeps_bind same_store same_store_trans); [|intros ?; cbv beta]
    | apply (@keeps_try_except same_store same_store_trans);
        [|intros ?; cbv beta] ].

Lemma tool_result_same_store (self : AdityaChatbot) (tool_name : string)
    (arguments user_id : pyval) :
  supabase_enabled self = false ->
  keeps same_store (tool_result self tool_name arguments user_id).
Proof.
  intros Hoff. unfold tool_result. rewrite Hoff.
  destruct (String.eqb tool_name "record_user_details");
    [|destruct (String.eqb tool_name "record_unknown_question")];
    keeps_same_store.
Qed.

Lemma handle_tool_calls_same_store (json : JSON) (self : AdityaChatbot)
    (tool_calls : list ToolCall) (user_id : pyval) :
  supabase_enabled self = false ->
  keeps same_store (_handle_tool_calls json self tool_calls user_id).
Proof.
  intros Hoff.
  induction tool_calls as [|tool_call rest IH]; cbn [_handle_tool_calls].
  - keeps_same_store.
  - unfold handle_tool_call. keeps_same_store.
    + now apply tool_result_same_store.
    + exact IH.
Qed.

Lemma tool_result_local_ack (self : AdityaChatbot) (tool_name : string)
    (d : dict) (user_id : pyval) (w : World) :
  supabase_enabled self = false ->
  supported_tool tool_name = true ->
  exists w', tool_result self tool_name (PDict d) user_id w
             = (Ok local_ack, w').
Proof.
  intros Hoff Hs. unfold tool_result, supported_tool in *. rewrite Hoff.
  destruct (String.eqb tool_name "record_user_details").
  - unfold bind, print, ret. eauto.
  - cbn [orb] in Hs. rewrite Hs. unfold bind, lift, py_get, print, ret. eauto.
Qed.

(** X12.  With the store disabled the dispatcher never calls the store and
    sends nothing to the provider, whatever the batch and whether it raises
    or not; and it validates nothing: every request for a supported tool
    whose payload decodes to a JSON object, an empty one included, gets the
    same local acknowledgment. *)
Theorem dispatcher_without_store
    (json : JSON) (self : AdityaChatbot) (tool_calls : list ToolCall)
    (user_id : pyval) (w : World) :
  supabase_enabled self = false ->
  same_store w (snd (_handle_tool_calls json self tool_calls user_id w))
  /\ (forallb (fun tool_call =>
                 supported_tool (function_name tool_call)
                 && decodes_to_object json tool_call) tool_calls = true ->
      fst (_handle_tool_calls json self tool_calls user_id w)
      = Ok (map (envelope json local_ack) tool_calls)).
Proof.
  intros Hoff. split; [now apply handle_tool_calls_same_store|].
  revert w. induction tool_calls as [|tool_call rest IH]; intros w Hall;
    [reflexivity|].
  cbn [forallb] in Hall. apply andb_prop in Hall as [Hcall Hrest].
  apply andb_prop in Hcall as [Hs Hd]. unfold decodes_to_object in Hd.
  rewrite handle_tool_calls_cons. unfold handle_tool_call, bind, lift.
  destruct (json_loads json (function_arguments tool_call)) as [[| | | | | |d]|e];
    try discriminate.
  cbn [print].
  match goal with
  | |- context [tool_result _ _ _ _ ?w1] =>
      destruct (@tool_result_local_ack self (function_name tool_call) d
                  user_id w1 Hoff Hs) as (w2 & ->)
  end.
  cbn [ret]. specialize (IH w2 Hrest).
  destruct (_handle_tool_calls json self rest user_id w2) as [[results|e] w3];
    cbn [fst] in *; [|discriminate].
  injection IH as ->. reflexivity.
Qed.

Lemma dispatcher_without_store_witness :
  fst (_handle_tool_calls reference_json offline_chatbot batch_without_email
         (PStr "visitor-1") (world_with_faults [Some "timeout"]))
  = Ok (map (envelope reference_json local_ack) batch_without_email)
  /\ store (snd (_handle_tool_calls reference_json offline_chatbot
                   batch_without_email (PStr "visitor-1")
                   (world_with_faults [Some "timeout"])))
     = store (world_with_faults [Some "timeout"]).
Proof.
  destruct (@dispatcher_without_store reference_json offline_chatbot
              batch_without_email (PStr "visitor-1")
              (world_with_faults [Some "timeout"]) eq_refl)
    as [[Hstore _] Hack].
  split; [|exact Hstore].
  apply Hack. vm_compute. reflexivity.
Defined.

Lemma record_user_details_fails (user_id email : pyval)
    (name notes : option pyval) (msg : string) (w : World) :
  hd None (faults (store w)) = Some msg ->
  record_user_details user_id email name notes w
  = (Ok (PDict [("error", PStr msg)]),
     printed [Text "Error recording user: "; Text msg] (after_call w)).
Proof.
  intros H. unfold record_user_details, bind, try_except.
  now rewrite (@insert_fails leads _ msg w H).
Qed.

Lemma record_unknown_question_fails (question : pyval) (msg : string)
    (w : World) :
  hd None (faults (store w)) = Some msg ->
  record_unknown_question question w
  = (Ok (PDict [("error", PStr msg)]),
     printed [Text "Error recording question: "; Text msg] (after_call w)).
Proof.
  intros H. unfold record_unknown_question, bind, try_except.
  now rewrite (@insert_fails unknown_questions _ msg w H).
Qed.

Lemma tool_result_store_failure (self : AdityaChatbot) (tool_name : string)
    (arguments user_id : pyval) (msg : string) (w : World) :
  supabase_enabled self = true ->
  supported_tool tool_name = true ->
  fits self tool_name arguments = true ->
  hd None (faults (store w)) = Some msg ->
  exists line,
    tool_result self tool_name arguments user_id w
    = (Ok (PDict [("error", PStr msg)]), printed line (after_call w)).
Proof.
  intros Hon Hs Hfit Hfail. unfold tool_result, fits, supported_tool in *.
  rewrite Hon in *.
  destruct (String.eqb tool_name "record_user_details").
  - unfold call_record_user_details, bind, lift.
    destruct (bind_keywords_spec "ConversationStore.record_user_details"
                ["self"; "user_id"] ["email"; "name"; "notes"] ["email"]
                arguments) as [[_ (d & _ & ->)] | [Hn _]]; [|congruence].
    rewrite (@record_user_details_fails _ _ _ _ msg w Hfail). eauto.
  - cbn [orb] in Hs. rewrite Hs in *.
    unfold call_record_unknown_question, bind, lift.
    destruct (bind_keywords_spec "ConversationStore.record_unknown_question"
                ["self"] ["question"] ["question"] arguments)
      as [[_ (d & _ & ->)] | [Hn _]]; [|congruence].
    rewrite (@record_unknown_question_fails _ msg w Hfail). eauto.
Qed.

(** X13.  A failure of the store during a tool call does not fail the
    batch: with the store enabled, when every request is dispatchable and
    for a supported tool and the store fails the call of each with the
    messages [msgs], the dispatcher returns one envelope per request, in
    order, whose content is the serialization of [{error: message}]; no
    table changes and the schedule moves on by one entry per request. *)
Theorem store_failures_are_reported_to_the_model
    (json : JSON) (self : AdityaChatbot) (user_id : pyval)
    (tool_calls : list ToolCall) :
  supabase_enabled self = true ->
  forallb (fun tool_call =>
             supported_tool (function_name tool_call)
             && dispatchable json self tool_call) tool_calls = true ->
  forall msgs later w,
    length msgs = length tool_calls ->
    faults (store w) = (map Some msgs ++ later)%list ->
    exists w',
      _handle_tool_calls json self tool_calls user_id w
      = (Ok (error_envelopes json tool_calls msgs), w')
      /\ same_tables w w'
      /\ faults (store w') = later.
Proof.
  intros Hon. induction tool_calls as [|tool_call rest IH];
    intros Hall [|msg msgs] later w Hlen Hfaults; try discriminate.
  - exists w. repeat split; auto.
  - cbn [forallb] in Hall. apply andb_prop in Hall as [Hcall Hrest].
    apply andb_prop in Hcall as [Hs Hd]. rewrite dispatchable_fits in Hd.
    rewrite handle_tool_calls_cons. unfold handle_tool_call, bind, lift.
    destruct (json_loads json (function_arguments tool_call))
      as [arguments|e]; [|discriminate].
    cbn [print].
    match goal with
    | |- context [tool_result _ _ _ _ ?w1] =>
        destruct (@tool_result_store_failure self (function_name tool_call)
                    arguments user_id msg w1 Hon Hs Hd)
          as (line & ->); [cbn [store]; now rewrite Hfaults|];
        set (w2 := printed line (after_call w1))
    end.
    cbn [ret]. cbn [length] in Hlen.
    destruct (IH Hrest msgs later w2) as (w' & -> & Ht & Hf); [lia| |].
    + unfold w2. cbn [printed after_call set_store store with_faults faults].
      now rewrite Hfaults.
    + exists w'. split; [reflexivity|]. split; [|exact Hf].
      intros t. rewrite (Ht t). unfold w2. now destruct t.
Qed.

Lemma store_failures_witness :
  exists w',
    _handle_tool_calls reference_json online_chatbot
      [ {| call_id := "call_1";
           function_name := "record_unknown_question";
           function_arguments :=
             "{" ++ quote "question" ++ ": " ++ quote "Do you ski?" ++ "}" |} ]
      (PStr "visitor-1") (world_with_faults [Some "timeout"])
    = (Ok [PDict [("role", PStr "tool");
                  ("content",
                   PStr (reference_dumps (PDict [("error", PStr "timeout")])));
                  ("tool_call_id", PStr "call_1")]], w')
    /\ unknown_questions_rows (store w') = [].
Proof.
  destruct (@store_failures_are_reported_to_the_model reference_json
              online_chatbot (PStr "visitor-1")
              [ {| call_id := "call_1";
                   function_name := "record_unknown_question";
                   function_arguments :=
                     "{" ++ quote "question" ++ ": " ++ quote "Do you ski?"
                         ++ "}" |} ]
              eq_refl eq_refl ["timeout"] []
              (world_with_faults [Some "timeout"]) eq_refl eq_refl)
    as (w' & Hrun & Ht & _).
  exists w'. split; [exact Hrun|]. exact (Ht unknown_questions).
Defined.
(** ** chat, continued *)

Lemma save_conversation_run (user_id message response : pyval) (w : World) :
  exists w',
    save_conversation user_id message response None w = (Ok PNone, w')
    /\ requests w' = requests w
    /\ forall t,
         rows t (store w')
         = rows_after_insert conversations
             (conversation_row user_id message response) t w.
Proof.
  pose proof (insert_rows conversations
                (conversation_row user_id message response)) as Hrows.
  pose proof (insert_requests conversations
                (conversation_row user_id message response) w) as Hreq.
  unfold save_conversation, try_except, bind, print, ret.
  change (PDict [("user_id", user_id); ("message", message);
                 ("response", response);
                 ("metadata", py_or (from_default None PNone) (PDict []))])
    with (conversation_row user_id message response).
  destruct (insert conversations _ w) as [[[]|e] w1] eqn:Hins;
    eexists; (split; [reflexivity|]); cbn [snd store requests] in *;
    (split; [exact Hreq|]); intros t; specialize (Hrows t w);
    rewrite Hins in Hrows; exact Hrows.
Qed.

(** X14.  Persistence never costs the visitor the answer: once the loop has
    ended with a completion, [chat] returns the content of that completion
    whether or not the store takes the conversation.  With the store enabled
    one row [{user_id, message, response, metadata: {}}] is added to
    [conversations] when the insert goes through; with the store disabled,
    or when the insert fails, no table changes. *)
Theorem chat_answers_whatever_persistence_does
    (json : JSON) (openai : OpenAI)
    (similar : pyval -> pyval -> list pyval -> list pyval)
    (self : AdityaChatbot) (fuel : nat) (message history user_id : pyval)
    (w w1 w2 : World) (messages : list chat_message)
    (response : ChatCompletion) :
  initial_messages openai similar self message history w
  = (Ok messages, w1) ->
  tool_loop json openai self fuel user_id messages w1
  = Some (Ok response, w2) ->
  exists w3,
    chat json openai similar self fuel message history user_id w
    = Some (Ok (message_content (choice_message response)), w3)
    /\ requests w3 = requests w2
    /\ forall t,
         rows t (store w3)
         = if supabase_enabled self then
             rows_after_insert conversations
               (conversation_row user_id message
                  (message_content (choice_message response))) t w2
           else rows t (store w2).
Proof.
  intros Hinit Hloop. unfold chat. rewrite Hinit, Hloop.
  destruct (supabase_enabled self).
  - destruct (save_conversation_run user_id message
                (message_content (choice_message response)) w2)
      as (w3 & Hsave & Hreq & Hrows).
    exists w3. unfold bind. rewrite Hsave. cbn [ret]. auto.
  - exists w2. unfold bind, ret. auto.
Qed.

Lemma chat_persistence_witness :
  exists w3,
    chat reference_json answers_at_once every_record online_chatbot 1
      (PStr "Hi") (PList []) (PStr "visitor-1")
      (world_with_faults [None; Some "timeout"])
    = Some (Ok (PStr "Hello!"), w3)
    /\ conversations_rows (store w3) = [].
Proof.
  pose (w := world_with_faults [None; Some "timeout"]).
  pose (run := initial_messages answers_at_once every_record online_chatbot
                 (PStr "Hi") (PList []) w).
  assert (Hinit : initial_messages answers_at_once every_record
                    online_chatbot (PStr "Hi") (PList []) w
                  = (Ok match fst run with Ok m => m | Raise _ => [] end,
                     snd run)) by (vm_compute; reflexivity).
  pose (loop := tool_loop reference_json answers_at_once online_chatbot 1
                  (PStr "visitor-1")
                  match fst run with Ok m => m | Raise _ => [] end (snd run)).
  assert (Hloop : loop
                  = Some (Ok (plain_answer "Hello!"), final_world loop w))
    by (vm_compute; reflexivity).
  destruct (@chat_answers_whatever_persistence_does reference_json
              answers_at_once every_record online_chatbot 1 (PStr "Hi")
              (PList []) (PStr "visitor-1") w (snd run) (final_world loop w)
              _ (plain_answer "Hello!") Hinit Hloop)
    as (w3 & Hchat & _ & Hrows).
  exists w3. split; [exact Hchat|].
  exact (Hrows conversations).
Defined.

Lemma initial_messages_without_store
    (openai : OpenAI) (similar : pyval -> pyval -> list pyval -> list pyval)
    (self : AdityaChatbot) (message history : pyval) (w : World) :
  supabase_enabled self = false ->
  snd (initial_messages openai similar self message history w) = w.
Proof.
  intros Hoff. unfold initial_messages. rewrite Hoff.
  unfold bind, ret, lift.
  destruct (_build_system_prompt self []); [|reflexivity].
  destruct (py_iter history); reflexivity.
Qed.

Lemma tool_loop_without_store (json : JSON) (openai : OpenAI)
    (self : AdityaChatbot) (user_id : pyval) (fuel : nat) :
  supabase_enabled self = false ->
  forall messages w run,
    tool_loop json openai self fuel user_id messages w = Some run ->
    store (snd run) = store w /\ requests w < requests (snd run).
Proof.
  intros Hoff. induction fuel as [|fuel IH]; intros messages w run;
    [discriminate|].
  rewrite tool_loop_step.
  destruct (chat_completions_create openai (requests w) messages)
    as [response|e].
  - destruct (String.eqb (finish_reason response) "tool_calls").
    + pose proof (@handle_tool_calls_same_store json self
                    (tool_calls (choice_message response)) user_id Hoff
                    (sent w)) as [Hs Hr].
      destruct (_handle_tool_calls json self _ user_id (sent w))
        as [[tool_results|e] w2]; cbn [snd sent store requests] in *.
      * intros Hrun. destruct (IH _ _ _ Hrun) as [Hs' Hr'].
        split; [congruence | lia].
      * intros [= <-]. cbn [snd]. split; [exact Hs | lia].
    + intros [= <-]. cbn. split; [reflexivity | lia].
  - intros [= <-]. cbn. split; [reflexivity | lia].
Qed.

(** X15.  Without the store, [chat] talks to the completion provider only:
    in every run that ends, the store is exactly as it was (no retrieval, no
    lead, no question, no conversation is written or even attempted). *)
Theorem chat_without_store_leaves_the_store_alone
    (json : JSON) (openai : OpenAI)
    (similar : pyval -> pyval -> list pyval -> list pyval)
    (self : AdityaChatbot) (fuel : nat) (message history user_id : pyval)
    (w : World) (run : outcome pyval * World) :
  supabase_enabled self = false ->
  chat json openai similar self fuel message history user_id w = Some run ->
  store (snd run) = store w /\ requests w <= requests (snd run).
Proof.
  intros Hoff. unfold chat.
  pose proof (@initial_messages_without_store openai similar self message
                history w Hoff) as Hw.
  destruct (initial_messages openai similar self message history w)
    as [[messages|e] w1]; cbn [snd] in Hw; subst w1.
  - destruct (tool_loop json openai self fuel user_id messages w)
      as [[[response|e] w2]|] eqn:Hloop; try discriminate;
      destruct (@tool_loop_without_store json openai self user_id fuel Hoff
                  _ _ _ Hloop) as [Hs Hr]; cbn [snd] in Hs, Hr.
    + rewrite Hoff. unfold bind, ret. intros [= <-]. cbn [snd].
      split; [exact Hs | lia].
    + intros [= <-]. cbn [snd]. split; [exact Hs | lia].
  - intros [= <-]. cbn [snd]. split; [reflexivity | lia].
Qed.

Lemma chat_without_store_witness :
  store (final_world
           (chat reference_json tools_twice every_record offline_chatbot 5
              (PStr "Hi") (PList []) (PStr "visitor-1")
              (world_with_faults [Some "timeout"]))
           (world_with_faults []))
  = store (world_with_faults [Some "timeout"]).
Proof.
  destruct (chat reference_json tools_twice every_record offline_chatbot 5
              (PStr "Hi") (PList []) (PStr "visitor-1")
              (world_with_faults [Some "timeout"])) as [run|] eqn:Hrun.
  - destruct (@chat_without_store_leaves_the_store_alone reference_json
                tools_twice every_record offline_chatbot 5 (PStr "Hi")
                (PList []) (PStr "visitor-1")
                (world_with_faults [Some "timeout"]) run eq_refl Hrun)
      as [Hs _].
    destruct run as [r w']. exact Hs.
  - vm_compute in Hrun. discriminate.
Defined.
(** ** The route, continued *)

(** X16.  A message that is present but falsy is not a message: a body
    whose [message] is [null], [false], [0], an empty list or an empty
    object is answered with 400 and [{error: "Message is required"}], and
    the world is left as it was. *)
Theorem falsy_message_is_a_400
    (json : JSON) (openai : OpenAI)
    (similar : pyval -> pyval -> list pyval -> list pyval)
    (self : AdityaChatbot) (fuel : nat) (d : dict) (message : pyval)
    (w : World) :
  dict_get d "message" = Some message ->
  truthy message = false ->
  api_chat json openai similar self fuel (Ok (PDict d)) w
  = Some ({| status := 400;
             body := PDict [("error", PStr "Message is required")] |}, w).
Proof.
  intros Hm Hf. apply falsy_message_is_rejected. now rewrite Hm.
Qed.

Lemma falsy_message_witness :
  api_chat reference_json answers_at_once every_record offline_chatbot 5
    (Ok (PDict [("message", PInt 0)])) (world_with_faults [])
  = Some ({| status := 400;
             body := PDict [("error", PStr "Message is required")] |},
          world_with_faults [])
  /\ api_chat reference_json answers_at_once every_record offline_chatbot 5
       (Ok (PDict [("message", PList [])])) (world_with_faults [])
     = Some ({| status := 400;
                body := PDict [("error", PStr "Message is required")] |},
             world_with_faults []).
Proof.
  split.
  - exact (@falsy_message_is_a_400 reference_json answers_at_once
             every_record offline_chatbot 5 [("message", PInt 0)] (PInt 0)
             (world_with_faults []) eq_refl eq_refl).
  - exact (@falsy_message_is_a_400 reference_json answers_at_once
             every_record offline_chatbot 5 [("message", PList [])]
             (PList []) (world_with_faults []) eq_refl eq_refl).
Defined.

(** X17.  A request the route cannot read is answered with 500, not 400:
    when evaluating [request.json] raises, and when the body is JSON but not
    an object (its [get] raises [AttributeError]).  The error is printed,
    the orchestrator is not called, and the body of the answer carries the
    text of the error. *)
Theorem unreadable_body_is_a_500
    (json : JSON) (openai : OpenAI)
    (similar : pyval -> pyval -> list pyval -> list pyval)
    (self : AdityaChatbot) (fuel : nat) (w : World) :
  (forall e,
     api_chat json openai similar self fuel (Raise e) w
     = Some ({| status := 500;
                body := PDict [("error", PStr (str_exn e));
                               ("success", PBool false)] |},
             printed [Text "Error in chat endpoint: "; Text (str_exn e)] w))
  /\ (forall data,
        is_dict data = false ->
        api_chat json openai similar self fuel (Ok data) w
        = Some ({| status := 500;
                   body :=
                     PDict [("error",
                             PStr ("'" ++ type_name data
                                       ++ "' object has no attribute 'get'"));
                            ("success", PBool false)] |},
                printed [Text "Error in chat endpoint: ";
                         Text ("'" ++ type_name data
                                   ++ "' object has no attribute 'get'")] w)).
Proof.
  split.
  - intros e. reflexivity.
  - intros data Hd.
    apply (@unreadable_request_is_a_500 json openai similar self fuel
             (Ok data)
             (AttributeError
                ("'" ++ type_name data ++ "' object has no attribute 'get'"))).
    destruct data; try reflexivity. discriminate.
Qed.

Lemma unreadable_body_witness :
  api_chat reference_json answers_at_once every_record offline_chatbot 5
    (Ok (PList [PStr "Hi"])) (world_with_faults [])
  = Some ({| status := 500;
             body :=
               PDict [("error",
                       PStr "'list' object has no attribute 'get'");
                      ("success", PBool false)] |},
          printed [Text "Error in chat endpoint: ";
                   Text "'list' object has no attribute 'get'"]
            (world_with_faults [])).
Proof.
  exact (proj2 (@unreadable_body_is_a_500 reference_json answers_at_once
                  every_record offline_chatbot 5 (world_with_faults []))
           (PList [PStr "Hi"]) eq_refl).
Defined.

Lemma retrieve_context_returns
    (openai : OpenAI) (similar : pyval -> pyval -> list pyval -> list pyval)
    (query : pyval) (top_k : nat) (w : World) :
  exists contents w',
    retrieve_context openai similar query top_k w = (Ok contents, w').
Proof.
  unfold retrieve_context, try_except, bind, print, ret.
  destruct (generate_embedding openai query w) as [[embedding|e] w1];
    [|eauto].
  destruct (match_documents similar embedding threshold_0_7 top_k w1)
    as [[data|e] w2]; [|eauto].
  unfold lift. destruct (map_outcome _ data); eauto.
Qed.

Lemma retrieve_context_requests
    (openai : OpenAI) (similar : pyval -> pyval -> list pyval -> list pyval)
    (query : pyval) (top_k : nat) (w : World) :
  requests (snd (retrieve_context openai similar query top_k w))
  = S (requests w).
Proof.
  unfold retrieve_context, try_except, bind, generate_embedding.
  destruct (embeddings_create openai (requests w) query) as [embedding|e];
    [|reflexivity].
  unfold match_documents, bind, execute. cbn [store].
  destruct (hd None (faults (store w))); [reflexivity|].
  cbn [set_store store with_faults rows documents_rows lift].
  destruct (map_outcome _ _); reflexivity.
Qed.

(** X18.  The history is used as supplied.  With a truthy message and a
    [history] in the body, the retrieval (when the store is enabled) costs
    one request and gives the contents for the system prompt.  When the
    history is iterable, its items (the items of an array, the characters of
    a string, the keys of an object) are placed unchecked and in order
    between the system prompt and the user's message, and these are the
    messages of the first completion request: when that request raises the
    route answers 500 with its error, and when its completion does not
    signal tool-call intent the route answers 200 with its content.  When
    the history is [null], a boolean or a number, the route answers 500 for
    every model and every number of rounds, with the [TypeError] of the
    iteration whenever the system prompt could be built, as it always can
    with the store disabled; no completion request has been sent. *)
Theorem history_is_used_as_supplied
    (json : JSON) (openai : OpenAI)
    (similar : pyval -> pyval -> list pyval -> list pyval)
    (self : AdityaChatbot) (fuel : nat) (d : dict)
    (message history : pyval) (w : World) :
  dict_get d "message" = Some message ->
  truthy message = true ->
  dict_get d "history" = Some history ->
  exists contents w1,
    (if supabase_enabled self then
       retrieve_context openai similar message 3 w = (Ok contents, w1)
     else contents = [] /\ w1 = w)
    /\ requests w1 <= S (requests w)
    /\ (forall items prompt,
          py_iter history = Ok items ->
          _build_system_prompt self contents = Ok prompt ->
          let messages :=
            (Plain (PDict [("role", PStr "system");
                           ("content", PStr prompt)])
               :: map Plain items
               ++ [Plain (PDict [("role", PStr "user");
                                 ("content", message)])])%list in
          initial_messages openai similar self message history w
          = (Ok messages, w1)
          /\ (forall e,
                chat_completions_create openai (requests w1) messages
                = Raise e ->
                api_chat json openai similar self (S fuel) (Ok (PDict d)) w
                = Some ({| status := 500;
                           body := PDict [("error", PStr (str_exn e));
                                          ("success", PBool false)] |},
                        printed [Text "Error in chat endpoint: ";
                                 Text (str_exn e)] (sent w1)))
          /\ (forall completion,
                chat_completions_create openai (requests w1) messages
                = Ok completion ->
                finish_reason completion <> "tool_calls" ->
                exists w',
                  api_chat json openai similar self (S fuel) (Ok (PDict d)) w
                  = Some ({| status := 200;
                             body :=
                               PDict [("response",
                                       message_content
                                         (choice_message completion));
                                      ("success", PBool true)] |}, w')))
    /\ (forall e,
          py_iter history = Raise e ->
          exists e',
            api_chat json openai similar self fuel (Ok (PDict d)) w
            = Some ({| status := 500;
                       body := PDict [("error", PStr (str_exn e'));
                                      ("success", PBool false)] |},
                    printed [Text "Error in chat endpoint: ";
                             Text (str_exn e')] w1)
            /\ (forall prompt,
                  _build_system_prompt self contents = Ok prompt -> e' = e)
            /\ (supabase_enabled self = false -> e' = e)).
Proof.
  intros Hm Ht Hh.
  assert (Hroute : forall fuel',
             api_chat json openai similar self fuel' (Ok (PDict d)) w
             = match
                 chat json openai similar self fuel' message history
                   (from_default (dict_get d "user_id") (PStr "anonymous")) w
               with
               | None => None
               | Some (Raise e, w') => Some (internal_error e w')
               | Some (Ok response, w') =>
                   Some ({| status := 200;
                            body := PDict [("response", response);
                                           ("success", PBool true)] |}, w')
               end).
  { intros fuel'. unfold api_chat.
    rewrite read_request_object, Hm, Hh. cbn [from_default].
    now rewrite Ht. }
  assert (Hretrieval : exists contents w1,
             (if supabase_enabled self then
                retrieve_context openai similar message 3 w
                = (Ok contents, w1)
              else contents = [] /\ w1 = w)
             /\ requests w1 <= S (requests w)
             /\ initial_messages openai similar self message history w
                = (match _build_system_prompt self contents with
                   | Raise e => Raise e
                   | Ok prompt =>
                       match py_iter history with
                       | Raise e => Raise e
                       | Ok items =>
                           Ok (Plain (PDict [("role", PStr "system");
                                             ("content", PStr prompt)])
                                 :: map Plain items
                                 ++ [Plain (PDict [("role", PStr "user");
                                                   ("content", message)])])%list
                       end
                   end, w1)
             /\ (supabase_enabled self = false ->
                 exists prompt, _build_system_prompt self contents = Ok prompt)).
  { unfold initial_messages.
    destruct (supabase_enabled self) eqn:Hon.
    - pose proof (@retrieve_context_requests openai similar message 3 w)
        as Hreq.
      destruct (@retrieve_context_returns openai similar message 3 w)
        as (contents & w1 & Hret).
      rewrite Hret in Hreq. cbn [snd] in Hreq.
      exists contents, w1. split; [exact Hret|]. split; [lia|].
      split; [|discriminate].
      unfold bind at 1. rewrite Hret. unfold bind, lift, ret.
      destruct (_build_system_prompt self contents); [|reflexivity].
      destruct (py_iter history); reflexivity.
    - exists [], w. split; [auto|]. split; [lia|]. split.
      + unfold bind, lift, ret.
        destruct (_build_system_prompt self []); [|reflexivity].
        destruct (py_iter history); reflexivity.
      + intros _. unfold _build_system_prompt.
        destruct (str_truthy (summary self)), (str_truthy (resume self));
          eauto. }
  destruct Hretrieval as (contents & w1 & Hret & Hreq & Hinit & Hoff).
  exists contents, w1. split; [exact Hret|]. split; [exact Hreq|]. split.
  - intros items prompt Hitems Hprompt messages.
    rewrite Hprompt, Hitems in Hinit. fold messages in Hinit.
    split; [exact Hinit|]. split.
    + intros e He. rewrite Hroute. unfold chat. rewrite Hinit.
      rewrite tool_loop_step, He. reflexivity.
    + intros completion Hc Hfr.
      assert (Hloop : tool_loop json openai self (S fuel)
                        (from_default (dict_get d "user_id")
                           (PStr "anonymous")) messages w1
                      = Some (Ok completion, sent w1)).
      { rewrite tool_loop_step, Hc.
        apply String.eqb_neq in Hfr. now rewrite Hfr. }
      destruct (@chat_returns_the_content json openai similar self (S fuel)
                  message history
                  (from_default (dict_get d "user_id") (PStr "anonymous"))
                  w w1 (sent w1) messages completion Hinit Hloop)
        as [w' Hchat].
      exists w'. now rewrite Hroute, Hchat.
  - intros e Hiter. rewrite Hiter in Hinit.
    destruct (_build_system_prompt self contents) as [prompt|e1] eqn:Hp.
    + exists e. rewrite Hroute. unfold chat. rewrite Hinit.
      repeat split; auto.
    + exists e1. rewrite Hroute. unfold chat. rewrite Hinit.
      repeat split; [discriminate|].
      intros Hno. destruct (Hoff Hno) as [prompt Hprompt]. discriminate.
Qed.

Lemma history_witness :
  (exists prompt,
     initial_messages always_tools every_record offline_chatbot (PStr "Hi")
       (PList [PDict [("role", PStr "user"); ("content", PStr "Hello")];
               PInt 7])
       (world_with_faults [])
     = (Ok [Plain (PDict [("role", PStr "system");
                          ("content", PStr prompt)]);
            Plain (PDict [("role", PStr "user");
                          ("content", PStr "Hello")]);
            Plain (PInt 7);
            Plain (PDict [("role", PStr "user");
                          ("content", PStr "Hi")])],
        world_with_faults []))
  /\ api_chat reference_json always_tools every_record offline_chatbot 0
       (Ok (PDict [("message", PStr "Hi"); ("history", PInt 7)]))
       (world_with_faults [])
     = Some ({| status := 500;
                body :=
                  PDict [("error", PStr "'int' object is not iterable");
                         ("success", PBool false)] |},
             printed [Text "Error in chat endpoint: ";
                      Text "'int' object is not iterable"]
               (world_with_faults [])).
Proof.
  split.
  - destruct (@history_is_used_as_supplied reference_json always_tools
                every_record offline_chatbot 0
                [("message", PStr "Hi");
                 ("history",
                  PList [PDict [("role", PStr "user");
                                ("content", PStr "Hello")];
                         PInt 7])]
                (PStr "Hi")
                (PList [PDict [("role", PStr "user");
                               ("content", PStr "Hello")];
                        PInt 7])
                (world_with_faults []) eq_refl eq_refl eq_refl)
      as (contents & w1 & Hret & _ & Hiterable & _).
    cbn [supabase_enabled offline_chatbot] in Hret.
    destruct Hret as [-> ->].
    destruct (_build_system_prompt offline_chatbot []) as [prompt|e] eqn:Hp;
      [|vm_compute in Hp; discriminate].
    exists prompt.
    exact (proj1 (Hiterable _ prompt eq_refl eq_refl)).
  - destruct (@history_is_used_as_supplied reference_json always_tools
                every_record offline_chatbot 0
                [("message", PStr "Hi"); ("history", PInt 7)]
                (PStr "Hi") (PInt 7) (world_with_faults [])
                eq_refl eq_refl eq_refl)
      as (contents & w1 & Hret & _ & _ & Hnot).
    cbn [supabase_enabled offline_chatbot] in Hret.
    destruct Hret as [-> ->].
    destruct (Hnot (TypeError "'int' object is not iterable") eq_refl)
      as (e' & Hrun & _ & Hoff).
    rewrite (Hoff eq_refl) in Hrun. exact Hrun.
Defined.

(** ** The system prompt *)

Lemma append_nil_r (s : string) : s ++ "" = s.
Proof. induction s as [|c s IH]; [reflexivity|]. cbn. now rewrite IH. Qed.

Lemma append_assoc (a b c : string) : (a ++ b) ++ c = a ++ b ++ c.
Proof. induction a as [|x a IH]; [reflexivity|]. cbn. now rewrite IH. Qed.

Lemma occurs_in_refl (s : string) : occurs_in s s.
Proof. exists "", "". cbn. now rewrite append_nil_r. Qed.

Lemma occurs_in_empty (s : string) : occurs_in "" s.
Proof. exists "", s. reflexivity. Qed.

Lemma occurs_in_left (p a b : string) : occurs_in p a -> occurs_in p (a ++ b).
Proof.
  intros (x & y & ->). exists x, (y ++ b). now rewrite !append_assoc.
Qed.

Lemma occurs_in_right (p a b : string) : occurs_in p b -> occurs_in p (a ++ b).
Proof.
  intros (x & y & ->). exists (a ++ x), y. now rewrite !append_assoc.
Qed.

Lemma py_join_from_cons (i : nat) (sep s : string) (v : pyval)
    (rest : list pyval) :
  py_join_from i sep (PStr s :: v :: rest)
  = match py_join_from (S i) sep (v :: rest) with
    | Ok r => Ok (s ++ sep ++ r)
    | Raise e => Raise e
    end.
Proof. reflexivity. Qed.

Lemma py_join_from_strings (sep : string) (items : list pyval) :
  forall i,
    forallb is_str items = true ->
    exists joined,
      py_join_from i sep items = Ok joined
      /\ forall s, In (PStr s) items -> occurs_in s joined.
Proof.
  induction items as [|v items IH]; intros i Hall.
  - exists "". split; [reflexivity|]. intros s [].
  - cbn [forallb] in Hall. apply andb_prop in Hall as [Hv Hrest].
    destruct v as [| | | |s| |]; try discriminate.
    destruct items as [|v' items].
    + exists s. split; [reflexivity|].
      intros s' [[= <-]|[]]. apply occurs_in_refl.
    + rewrite py_join_from_cons.
      destruct (IH (S i) Hrest) as (joined & -> & Hin).
      eexists. split; [reflexivity|].
      intros s' [[= <-]|H].
      * apply occurs_in_left, occurs_in_refl.
      * apply occurs_in_right, occurs_in_right, Hin, H.
Qed.

Lemma py_join_from_other (sep : string) (items : list pyval) :
  forall i,
    forallb is_str items = false ->
    exists msg, py_join_from i sep items = Raise (TypeError msg).
Proof.
  induction items as [|v items IH]; intros i Hall; [discriminate|].
  cbn [forallb] in Hall.
  destruct v as [| | | |s| |]; try (cbn [py_join_from]; solve [eauto]).
  cbn [is_str andb] in Hall.
  destruct items as [|v' items]; [discriminate|].
  rewrite py_join_from_cons.
  destruct (IH (S i) Hall) as (msg & ->). eauto.
Qed.

(** X19.  [_build_system_prompt] succeeds exactly when every retrieved item
    is a string, and raises [TypeError] otherwise.  The prompt it returns
    starts with the persona instructions and ends with the closing
    instruction; the summary, the résumé and every retrieved item occur in
    it verbatim, whatever was retrieved. *)
Theorem system_prompt_is_grounded (self : AdityaChatbot)
    (rag_context : list pyval) :
  (forallb is_str rag_context = true ->
   exists prompt,
     _build_system_prompt self rag_context = Ok prompt
     /\ (exists rest, prompt = persona (name self) ++ rest)
     /\ (exists before, prompt = before ++ closing_instruction (name self))
     /\ occurs_in (summary self) prompt
     /\ occurs_in (resume self) prompt
     /\ forall s, In (PStr s) rag_context -> occurs_in s prompt)
  /\ (forallb is_str rag_context = false ->
      exists msg,
        _build_system_prompt self rag_context = Raise (TypeError msg)).
Proof.
  split.
  - intros Hall.
    assert (Hbase : exists base,
               match rag_context with
               | [] => Ok (persona (name self))
               | _ :: _ =>
                   match py_join (nl ++ nl) rag_context with
                   | Raise e => Raise e
                   | Ok joined =>
                       Ok (persona (name self)
                             ++ (nl ++ nl ++ "## Retrieved Context:" ++ nl
                                    ++ joined))
                   end
               end = Ok base
               /\ (exists rest, base = persona (name self) ++ rest)
               /\ forall s, In (PStr s) rag_context -> occurs_in s base).
    { destruct rag_context as [|v items].
      - eexists. split; [reflexivity|]. split.
        + exists "". now rewrite append_nil_r.
        + intros s [].
      - destruct (@py_join_from_strings (nl ++ nl) (v :: items) 0 Hall)
          as (joined & Hj & Hin).
        unfold py_join. rewrite Hj. eexists. split; [reflexivity|]. split.
        + eauto.
        + intros s Hs. do 5 apply occurs_in_right. now apply Hin. }
    destruct Hbase as (base & Hb & (r1 & Hr1) & Hitems).
    unfold _build_system_prompt. rewrite Hb.
    fold (closing_instruction (name self)).
    set (base2 := if str_truthy (summary self) then _ else base).
    assert (H2 : (exists rest, base2 = persona (name self) ++ rest)
                 /\ occurs_in (summary self) base2
                 /\ forall p, occurs_in p base -> occurs_in p base2).
    { unfold base2. destruct (summary self) as [|c s] eqn:Hs;
        cbn [str_truthy].
      - split; [eauto|]. split; [apply occurs_in_empty | auto].
      - split; [|split].
        + rewrite Hr1, append_assoc. eauto.
        + do 5 apply occurs_in_right. apply occurs_in_left, occurs_in_refl.
        + intros p Hp. now apply occurs_in_left. }
    destruct H2 as ((r2 & Hr2) & Hsum & Hkeep2).
    set (base3 := if str_truthy (resume self) then _ else base2).
    assert (H3 : (exists rest, base3 = persona (name self) ++ rest)
                 /\ occurs_in (resume self) base3
                 /\ forall p, occurs_in p base2 -> occurs_in p base3).
    { unfold base3. destruct (resume self) as [|c s] eqn:Hs;
        cbn [str_truthy].
      - split; [eauto|]. split; [apply occurs_in_empty | auto].
      - split; [|split].
        + rewrite Hr2, append_assoc. eauto.
        + do 3 apply occurs_in_right. apply occurs_in_left, occurs_in_refl.
        + intros p Hp. now apply occurs_in_left. }
    destruct H3 as ((r3 & Hr3) & Hres & Hkeep3).
    eexists. split; [reflexivity|]. repeat split.
    + rewrite Hr3, append_assoc. eauto.
    + eauto.
    + apply occurs_in_left. auto.
    + apply occurs_in_left. auto.
    + intros s Hs. apply occurs_in_left. auto.
  - intros Hall. unfold _build_system_prompt.
    destruct rag_context as [|v items]; [discriminate|].
    destruct (@py_join_from_other (nl ++ nl) (v :: items) 0 Hall)
      as (msg & Hj).
    unfold py_join. rewrite Hj. eauto.
Qed.

Lemma system_prompt_witness :
  exists prompt,
    _build_system_prompt online_chatbot
      [PStr "Built a search engine."; PStr "Speaks French."]
    = Ok prompt
    /\ occurs_in "Speaks French." prompt
    /\ occurs_in "Resume information unavailable" prompt.
Proof.
  destruct (proj1 (@system_prompt_is_grounded online_chatbot
                     [PStr "Built a search engine."; PStr "Speaks French."])
              eq_refl)
    as (prompt & Hrun & _ & _ & _ & Hres & Hitems).
  exists prompt. split; [exact Hrun|]. split; [|exact Hres].
  apply Hitems. right. left. reflexivity.
Defined.
(** ** The declared tools *)

(** X20.  The tools declared to the model and the dispatcher agree.  The
    declared names are exactly the names the dispatcher supports; every
    declaration forbids additional properties; and with the store enabled a
    payload fits the handler of a declared tool exactly when it is a JSON
    object that names only declared properties and all the required ones. *)
Theorem declared_tools_match_the_dispatcher :
  (forall tool_name,
     supported_tool tool_name = true
     <-> In (PStr tool_name) (map declared_name _get_tools))
  /\ Forall (fun tool =>
               field (declared_parameters tool) "additionalProperties"
               = PBool false) _get_tools
  /\ (forall self tool tool_name arguments,
        supabase_enabled self = true ->
        In tool _get_tools ->
        declared_name tool = PStr tool_name ->
        fits self tool_name arguments = declaration_accepts tool arguments).
Proof.
  split; [|split].
  - intros tool_name. unfold supported_tool. cbn [map _get_tools In].
    change (declared_name _) with (PStr "record_user_details") at 1.
    change (declared_name _) with (PStr "record_unknown_question").
    rewrite orb_true_iff, !String.eqb_eq.
    split.
    + intros [->| ->]; auto.
    + intros [[= <-]|[[= <-]|[]]]; auto.
  - repeat constructor.
  - intros self tool tool_name arguments Hon [<-|[<-|[]]] [= <-];
      unfold fits; rewrite Hon; reflexivity.
Qed.
(** ** Retrieval and leads, end to end *)

Lemma map_outcome_fails {A B} (f : A -> outcome B) (l : list A) :
  Exists (fun a => is_ok (f a) = false) l ->
  exists e, map_outcome f l = Raise e.
Proof.
  induction 1 as [a l Ha|a l _ [e IH]]; cbn [map_outcome].
  - destruct (f a); [discriminate | eauto].
  - destruct (f a); [rewrite IH|]; eauto.
Qed.

(** X21.  One matching record without a [content] costs the whole
    retrieval: when the embedding and the store query go through and one of
    the first [top_k] records of the ranking has no content, [retrieve_context]
    returns the empty sequence, dropping the contents of the other records,
    and prints the error. *)
Theorem record_without_content_empties_the_retrieval
    (openai : OpenAI) (similar : pyval -> pyval -> list pyval -> list pyval)
    (query embedding : pyval) (top_k : nat) (w : World) :
  embeddings_create openai (requests w) query = Ok embedding ->
  hd None (faults (store w)) = None ->
  Exists (fun doc => is_ok (py_item doc "content") = false)
    (firstn top_k
       (similar embedding threshold_0_7 (documents_rows (store w)))) ->
  exists e,
    retrieve_context openai similar query top_k w
    = (Ok [],
       printed [Text "RAG retrieval error: "; Text (str_exn e)]
         (after_call (sent w))).
Proof.
  intros He Hq Hbad.
  unfold retrieve_context, try_except, bind, generate_embedding.
  rewrite He. fold (sent w).
  unfold match_documents, bind, execute. cbn [sent store]. rewrite Hq.
  cbn [set_store store with_faults rows documents_rows lift].
  destruct (map_outcome_fails _ Hbad) as [e ->].
  exists e. reflexivity.
Qed.

Lemma record_without_content_witness :
  fst (retrieve_context answers_at_once every_record (PStr "Do you ski?") 3
         world_with_a_bare_record)
  = Ok [].
Proof.
  destruct (@record_without_content_empties_the_retrieval answers_at_once
              every_record (PStr "Do you ski?") (PList []) 3
              world_with_a_bare_record eq_refl eq_refl)
    as [e Hrun].
  - right. left. reflexivity.
  - rewrite Hrun. reflexivity.
Defined.

(** X22.  From the model's request to the store: with the store enabled
    and answering, a request for [record_user_details] whose payload is a
    JSON object with an [email] and no key other than [email], [name] and
    [notes] adds one lead that carries the user id of the chat request, the
    email, and the name and notes of the payload or their defaults; nothing
    else is written, and the envelope returned to the model serializes
    [{recorded: "ok", email: email}]. *)
Theorem lead_request_reaches_the_store
    (json : JSON) (self : AdityaChatbot) (tool_call : ToolCall)
    (user_id : pyval) (d : dict) (w : World) :
  supabase_enabled self = true ->
  function_name tool_call = "record_user_details" ->
  json_loads json (function_arguments tool_call) = Ok (PDict d) ->
  accepts_keywords ["email"; "name"; "notes"] ["email"] (PDict d) = true ->
  hd None (faults (store w)) = None ->
  exists email w',
    dict_get d "email" = Some email
    /\ handle_tool_call json self tool_call user_id w
       = (Ok (PDict [("role", PStr "tool");
                     ("content",
                      PStr (json_dumps json
                              (PDict [("recorded", PStr "ok");
                                      ("email", email)])));
                     ("tool_call_id", PStr (call_id tool_call))]), w')
    /\ forall t,
         rows t (store w')
         = if table_eqb leads t then
             (rows t (store w)
                ++ [PDict [("user_id", user_id);
                           ("email", email);
                           ("name",
                            from_default (dict_get d "name")
                              (PStr "Not provided"));
                           ("notes",
                            from_default (dict_get d "notes") (PStr ""))]])%list
           else rows t (store w).
Proof.
  intros Hon Hname Hloads Hacc Hq.
  assert (exists email, dict_get d "email" = Some email) as [email Hemail].
  { cbn [accepts_keywords forallb] in Hacc.
    apply andb_prop in Hacc as [_ Hreq].
    destruct (dict_get d "email"); [eauto | discriminate]. }
  exists email.
  unfold handle_tool_call, bind, lift. rewrite Hloads. cbn [print].
  unfold tool_result. rewrite Hname, Hon.
  change (String.eqb "record_user_details" "record_user_details") with true.
  cbv iota. unfold call_record_user_details, bind, lift.
  destruct (bind_keywords_spec "ConversationStore.record_user_details"
              ["self"; "user_id"] ["email"; "name"; "notes"] ["email"]
              (PDict d)) as [[_ (d' & [= <-] & ->)] | [Hn _]];
    [|congruence].
  rewrite Hemail. cbn [from_default].
  match goal with
  | |- context [record_user_details _ _ _ _ ?w1] =>
      assert (Hq1 : hd None (faults (store w1)) = None) by exact Hq;
      unfold record_user_details, try_except, bind;
      rewrite (@insert_succeeds leads _ w1 Hq1)
  end.
  cbn [print ret]. eexists. split; [reflexivity|]. split; [reflexivity|].
  intros t. now destruct t.
Qed.

Lemma lead_request_witness :
  exists w',
    handle_tool_call reference_json online_chatbot lead_request
      (PStr "visitor-1") (world_with_faults [])
    = (Ok (PDict [("role", PStr "tool");
                  ("content",
                   PStr (reference_dumps
                           (PDict [("recorded", PStr "ok");
                                   ("email", PStr "ada@example.org")])));
                  ("tool_call_id", PStr "call_7")]), w')
    /\ leads_rows (store w')
       = [PDict [("user_id", PStr "visitor-1");
                 ("email", PStr "ada@example.org");
                 ("name", PStr "Ada");
                 ("notes", PStr "")]].
Proof.
  destruct (@lead_request_reaches_the_store reference_json online_chatbot
              lead_request (PStr "visitor-1")
              [("email", PStr "ada@example.org"); ("name", PStr "Ada")]
              (world_with_faults []) eq_refl eq_refl)
    as (email & w' & Hemail & Hrun & Hrows).
  - vm_compute. reflexivity.
  - reflexivity.
  - reflexivity.
  - injection Hemail as <-. exists w'.
    split; [exact Hrun | exact (Hrows leads)].
Defined.
